(** * ipfx: IP address calculator

    A shallow embedding of [src/ipaddress_calculator/ipfx.py] together with
    the part of CPython's [ipaddress] module that the program calls
    (Lib/ipaddress.py of Python 3.11, with the tables of special-purpose
    networks and their exceptions that 3.11.10, 3.12.4 and 3.13 carry).
    Each definition of [Module ipaddress] bears the name of the method it
    embeds; a method inherited from a base class is placed in the module
    of the class it is called on.

    Conventions.
    - A Python [str] is a [string]; a character is a code point in
      U+0000..U+00FF, so the character tests below ([isascii], [isdigit],
      whitespace, [lower], [repr]) are the Unicode ones restricted to that
      range.
    - A Python [int] is a [Z]; masks are written with [Z.land], [Z.lor],
      [Z.lxor], [Z.shiftr] as in the source.
    - An exception is a value of [exn]: its class and its message.  Code
      that can raise returns a [result]; code that also prints runs in [IO],
      which threads the text written to standard output.
    - [_netmask_cache] and [functools.lru_cache] only memoise pure
      functions and are left out. *)

From Stdlib Require Import ZArith List String Ascii Bool Lia.
Import ListNotations.
Open Scope string_scope.
Open Scope Z_scope.

(** ** Python strings *)

Module Py.

Definition ord (c : ascii) : Z := Z.of_N (N_of_ascii c).
Definition chr (z : Z) : ascii := ascii_of_N (Z.to_N z).

Definition LF : ascii := chr 10.
Definition DQUOTE : ascii := chr 34.
Definition SQUOTE : ascii := chr 39.
Definition BACKSLASH : ascii := chr 92.

Definition len (s : string) : Z := Z.of_nat (String.length s).

Fixpoint all (p : ascii -> bool) (s : string) : bool :=
  match s with
  | EmptyString => true
  | String c r => p c && all p r
  end.

(** [c in s] for a one-character [c]. *)
Fixpoint contains (c : ascii) (s : string) : bool :=
  match s with
  | EmptyString => false
  | String d r => Ascii.eqb d c || contains c r
  end.

(** [str.isascii]: true on the empty string. *)
Definition isascii (s : string) : bool := all (fun c => ord c <? 128) s.

Definition isdigit_char (c : ascii) : bool :=
  let n := ord c in
  ((48 <=? n) && (n <=? 57)) || (n =? 178) || (n =? 179) || (n =? 185).

(** [str.isdigit]: false on the empty string. *)
Definition isdigit (s : string) : bool :=
  match s with
  | EmptyString => false
  | _ => all isdigit_char s
  end.

Definition isspace_char (c : ascii) : bool :=
  let n := ord c in
  ((9 <=? n) && (n <=? 13)) || ((28 <=? n) && (n <=? 32))
  || (n =? 133) || (n =? 160).

Definition lower_char (c : ascii) : ascii :=
  let n := ord c in
  if ((65 <=? n) && (n <=? 90))
     || ((192 <=? n) && (n <=? 222) && negb (n =? 215))
  then chr (n + 32) else c.

(** [str.lower]. *)
Fixpoint lower (s : string) : string :=
  match s with
  | EmptyString => EmptyString
  | String c r => String (lower_char c) (lower r)
  end.

Fixpoint lstrip (s : string) : string :=
  match s with
  | EmptyString => EmptyString
  | String c r => if isspace_char c then lstrip r else s
  end.

Fixpoint rstrip (s : string) : string :=
  match s with
  | EmptyString => EmptyString
  | String c r =>
      match rstrip r with
      | EmptyString => if isspace_char c then EmptyString
                       else String c EmptyString
      | r' => String c r'
      end
  end.

(** [str.strip()]. *)
Definition strip (s : string) : string := rstrip (lstrip s).

(** [s.split(sep)] for a one-character separator: never the empty list. *)
Fixpoint split (sep : ascii) (s : string) : list string :=
  match s with
  | EmptyString => [EmptyString]
  | String c r =>
      if Ascii.eqb c sep then EmptyString :: split sep r
      else match split sep r with
           | p :: ps => String c p :: ps
           | [] => [String c EmptyString]
           end
  end.

(** [sep.join(parts)]. *)
Definition join (sep : string) (parts : list string) : string :=
  String.concat sep parts.

(** [s.partition(sep)] for a one-character separator. *)
Fixpoint partition (sep : ascii) (s : string) : string * string * string :=
  match s with
  | EmptyString => (EmptyString, EmptyString, EmptyString)
  | String c r =>
      if Ascii.eqb c sep then (EmptyString, String sep EmptyString, r)
      else let '(a, m, b) := partition sep r in (String c a, m, b)
  end.

(** [s.replace(c, '')]. *)
Fixpoint remove_char (c : ascii) (s : string) : string :=
  match s with
  | EmptyString => EmptyString
  | String d r => if Ascii.eqb d c then remove_char c r
                  else String d (remove_char c r)
  end.

(** [s[::-1]]. *)
Fixpoint reversed (s : string) : string :=
  match s with
  | EmptyString => EmptyString
  | String c r => reversed r ++ String c EmptyString
  end.

(** [list(s)]: the one-character strings of [s]. *)
Fixpoint chars (s : string) : list string :=
  match s with
  | EmptyString => []
  | String c r => String c EmptyString :: chars r
  end.

Fixpoint repeat_char (c : ascii) (n : nat) : string :=
  match n with
  | O => EmptyString
  | S k => String c (repeat_char c k)
  end.

(** [c * n] for a one-character string. *)
Definition times (c : ascii) (n : Z) : string := repeat_char c (Z.to_nat n).

(** [s.center(width)], CPython's rule for an odd margin included. *)
Definition center (s : string) (width : Z) : string :=
  let marg := width - len s in
  if marg <=? 0 then s
  else
    let left := marg / 2 + Z.land (Z.land marg width) 1 in
    times " "%char left ++ s ++ times " "%char (marg - left).

(** [format(s, str(width))] for a string: left-justified, never cut. *)
Definition ljust (s : string) (width : Z) : string :=
  s ++ times " "%char (width - len s).

(** Digits. *)
Definition digit_char (d : Z) : ascii :=
  if d <? 10 then chr (48 + d) else chr (87 + d).

Fixpoint digits_of (fuel : nat) (base n : Z) (acc : string) : string :=
  match fuel with
  | O => acc
  | S f =>
      let acc' := String (digit_char (n mod base)) acc in
      if n / base =? 0 then acc' else digits_of f base (n / base) acc'
  end.

Definition natural (base n : Z) : string :=
  digits_of (S (Z.to_nat (Z.log2 n))) base n EmptyString.

(** [str(n)] and ['%d' % n]. *)
Definition str_int (n : Z) : string :=
  if n <? 0 then String "-"%char (natural 10 (- n)) else natural 10 n.

(** ['%x' % n] for [n >= 0]. *)
Definition hex (n : Z) : string := natural 16 n.

(** ['%0<width>x' % n] for [n >= 0]. *)
Definition hex_padded (width : Z) (n : Z) : string :=
  let h := hex n in times "0"%char (width - len h) ++ h.

(** [str(b)] for a [bool]. *)
Definition str_bool (b : bool) : string := if b then "True" else "False".

Definition digit_value (c : ascii) : Z :=
  let n := ord c in
  if (48 <=? n) && (n <=? 57) then n - 48
  else if (97 <=? n) && (n <=? 102) then n - 87
  else if (65 <=? n) && (n <=? 70) then n - 55
  else 0.

Fixpoint digits_value (base : Z) (acc : Z) (s : string) : Z :=
  match s with
  | EmptyString => acc
  | String c r => digits_value base (acc * base + digit_value c) r
  end.

(** [s[i:j]] for [0 <= i <= j]. *)
Definition slice (i j : Z) (s : string) : string :=
  String.substring (Z.to_nat i) (Z.to_nat (j - i)) s.

(** [repr] of a [str]. *)
Definition hex2 (n : Z) : string :=
  String (digit_char (n / 16)) (String (digit_char (n mod 16)) EmptyString).

Definition isprintable_char (c : ascii) : bool :=
  let n := ord c in
  ((32 <=? n) && (n <? 127)) || ((161 <=? n) && negb (n =? 173)).

Definition repr_char (quote : ascii) (c : ascii) : string :=
  let n := ord c in
  if Ascii.eqb c quote || Ascii.eqb c BACKSLASH
  then String BACKSLASH (String c EmptyString)
  else if n =? 9 then String BACKSLASH "t"
  else if n =? 10 then String BACKSLASH "n"
  else if n =? 13 then String BACKSLASH "r"
  else if isprintable_char c then String c EmptyString
  else String BACKSLASH (String "x"%char (hex2 n)).

Fixpoint repr_body (quote : ascii) (s : string) : string :=
  match s with
  | EmptyString => EmptyString
  | String c r => repr_char quote c ++ repr_body quote r
  end.

Definition repr_quote (s : string) : ascii :=
  if contains SQUOTE s && negb (contains DQUOTE s) then DQUOTE else SQUOTE.

Definition repr (s : string) : string :=
  let q := repr_quote s in
  String q (repr_body q s ++ String q EmptyString).

(** [repr] of a [bytes] object given as its list of byte values. *)
Definition repr_byte (quote : ascii) (n : Z) : string :=
  let c := chr n in
  if Ascii.eqb c quote || Ascii.eqb c BACKSLASH
  then String BACKSLASH (String c EmptyString)
  else if n =? 9 then String BACKSLASH "t"
  else if n =? 10 then String BACKSLASH "n"
  else if n =? 13 then String BACKSLASH "r"
  else if (32 <=? n) && (n <? 127) then String c EmptyString
  else String BACKSLASH (String "x"%char (hex2 n)).

Definition repr_bytes (bs : list Z) : string :=
  let s := string_of_list_ascii (map chr bs) in
  let q := repr_quote s in
  String "b"%char
    (String q (String.concat EmptyString (map (repr_byte q) bs)
               ++ String q EmptyString)).

(** [n.to_bytes(k, 'big')] for [0 <= n < 256^k]. *)
Fixpoint to_bytes (k : nat) (n : Z) : list Z :=
  match k with
  | O => []
  | S k' => to_bytes k' (n / 256) ++ [n mod 256]
  end.

(** [int.from_bytes(bs, 'big')]. *)
Definition from_bytes (bs : list Z) : Z :=
  fold_left (fun acc b => acc * 256 + b) bs 0.

(** [n.bit_length()]. *)
Definition bit_length (n : Z) : Z :=
  if n =? 0 then 0 else Z.log2 (Z.abs n) + 1.

End Py.

(** ** Exceptions and results *)

Inductive exn_class := ValueError | AddressValueError | NetmaskValueError.

(** [class AddressValueError(ValueError)], [class NetmaskValueError(ValueError)]. *)
Definition issubclass (c base : exn_class) : bool :=
  match base, c with
  | ValueError, _ => true
  | AddressValueError, AddressValueError => true
  | NetmaskValueError, NetmaskValueError => true
  | _, _ => false
  end.

(** An exception object: its class and [str(exc)]. *)
Record exn := Exn { class_of : exn_class; str_exn : string }.

Inductive result (A : Type) : Type :=
| Return (a : A)
| Raise (e : exn).
Arguments Return {A} a.
Arguments Raise {A} e.

Definition bind {A B} (m : result A) (k : A -> result B) : result B :=
  match m with
  | Return a => k a
  | Raise e => Raise e
  end.

Notation "x <- m ;; k" := (bind m (fun x => k))
  (at level 61, m at next level, right associativity).
Notation "' p <- m ;; k" := (bind m (fun x => let p := x in k))
  (at level 61, p pattern, m at next level, right associativity).

Definition raise {A} (c : exn_class) (msg : string) : result A :=
  Raise (Exn c msg).

(** [try: body  except (classes) as e: handler e]. *)
Definition try_except {A} (body : result A) (classes : list exn_class)
    (handler : exn -> result A) : result A :=
  match body with
  | Return a => Return a
  | Raise e =>
      if existsb (issubclass (class_of e)) classes then handler e
      else Raise e
  end.

Fixpoint mapM {A B} (f : A -> result B) (l : list A) : result (list B) :=
  match l with
  | [] => Return []
  | a :: r => b <- f a ;; bs <- mapM f r ;; Return (b :: bs)
  end.

(** [int(s, base)] on a string of digits of [base], which every call site
    has checked.  The decimal conversion refuses more than 4300 digits
    ([sys.get_int_max_str_digits()]). *)
Definition int_of_str (base : Z) (s : string) : result Z :=
  match s with
  | EmptyString =>
      raise ValueError ("invalid literal for int() with base "
                        ++ Py.str_int base ++ ": " ++ Py.repr s)
  | _ =>
      if (base =? 10) && (4300 <? Py.len s)
      then raise ValueError
             ("Exceeds the limit (4300 digits) for integer string conversion: value has "
              ++ Py.str_int (Py.len s)
              ++ " digits; use sys.set_int_max_str_digits() to increase the limit")
      else Return (Py.digits_value base 0 s)
  end.

(** ** The [ipaddress] module *)

Module ipaddress.

Definition IPV4LENGTH : Z := 32.
Definition IPV6LENGTH : Z := 128.

(** What [_BaseV4] and [_BaseV6] give the shared class methods of
    [_IPAddressBase]. *)
Class IPClass := {
  _version : Z;
  _ALL_ONES : Z;
  _max_prefixlen : Z;
  _ip_int_from_string : string -> result Z
}.

(** The argument of [_make_netmask]: a prefix length or a string. *)
Inductive netmask_arg := MaskInt (n : Z) | MaskStr (s : string).

(** The argument of a network constructor: a string or a tuple. *)
Inductive network_arg :=
| ArgStr (address : string)
| ArgTuple (addr : string) (mask : netmask_arg).

Definition _split_optional_netmask (address : string) : result (list string) :=
  let addr := Py.split "/" address in
  if (2 <? Z.of_nat (List.length addr))
  then raise AddressValueError ("Only one '/' permitted in " ++ Py.repr address)
  else Return addr.

Definition _count_righthand_zero_bits (number bits : Z) : Z :=
  if number =? 0 then bits
  else Z.min bits (Py.bit_length (Z.land (Z.lnot number) (number - 1))).

Section IPAddressBase.
Context {cls : IPClass}.

Definition _check_int_address (address : Z) : result unit :=
  if address <? 0
  then raise AddressValueError
         (Py.str_int address ++ " (< 0) is not permitted as an IPv"
          ++ Py.str_int _version ++ " address")
  else if address >? _ALL_ONES
  then raise AddressValueError
         (Py.str_int address ++ " (>= 2**" ++ Py.str_int _max_prefixlen
          ++ ") is not permitted as an IPv" ++ Py.str_int _version
          ++ " address")
  else Return tt.

Definition _ip_int_from_prefix (prefixlen : Z) : Z :=
  Z.lxor _ALL_ONES (Z.shiftr _ALL_ONES prefixlen).

Definition _prefix_from_ip_int (ip_int : Z) : result Z :=
  let trailing_zeroes := _count_righthand_zero_bits ip_int _max_prefixlen in
  let prefixlen := _max_prefixlen - trailing_zeroes in
  let leading_ones := Z.shiftr ip_int trailing_zeroes in
  let all_ones := Z.shiftl 1 prefixlen - 1 in
  if negb (leading_ones =? all_ones)
  then
    let byteslen := _max_prefixlen / 8 in
    let details := Py.to_bytes (Z.to_nat byteslen) ip_int in
    raise ValueError ("Netmask pattern " ++ Py.repr_bytes details
                      ++ " mixes zeroes & ones")
  else Return prefixlen.

Definition repr_netmask_arg (a : netmask_arg) : string :=
  match a with
  | MaskInt n => Py.str_int n
  | MaskStr s => Py.repr s
  end.

Definition _report_invalid_netmask {A} (netmask_str : netmask_arg) : result A :=
  raise NetmaskValueError (repr_netmask_arg netmask_str ++ " is not a valid netmask").

Definition _prefix_from_prefix_string (prefixlen_str : string) : result Z :=
  if negb (Py.isascii prefixlen_str && Py.isdigit prefixlen_str)
  then _report_invalid_netmask (MaskStr prefixlen_str)
  else
    prefixlen <- try_except (int_of_str 10 prefixlen_str) [ValueError]
                   (fun _ => _report_invalid_netmask (MaskStr prefixlen_str)) ;;
    if negb ((0 <=? prefixlen) && (prefixlen <=? _max_prefixlen))
    then _report_invalid_netmask (MaskStr prefixlen_str)
    else Return prefixlen.

Definition _prefix_from_ip_string (ip_str : string) : result Z :=
  ip_int <- try_except (_ip_int_from_string ip_str) [AddressValueError]
              (fun _ => _report_invalid_netmask (MaskStr ip_str)) ;;
  try_except (_prefix_from_ip_int ip_int) [ValueError]
    (fun _ =>
       let ip_int := Z.lxor ip_int _ALL_ONES in
       try_except (_prefix_from_ip_int ip_int) [ValueError]
         (fun _ => _report_invalid_netmask (MaskStr ip_str))).

Definition _split_addr_prefix (address : network_arg)
  : result (string * netmask_arg) :=
  match address with
  | ArgTuple addr mask => Return (addr, mask)
  | ArgStr s =>
      address <- _split_optional_netmask s ;;
      match address with
      | [addr; mask] => Return (addr, MaskStr mask)
      | addr :: _ => Return (addr, MaskInt _max_prefixlen)
      | [] => Return (EmptyString, MaskInt _max_prefixlen)
      end
  end.

End IPAddressBase.

(** *** IPv4 *)

Module _BaseV4.

Definition _parse_octet (octet_str : string) : result Z :=
  match octet_str with
  | EmptyString => raise ValueError "Empty octet not permitted"
  | String c0 _ =>
      if negb (Py.isascii octet_str && Py.isdigit octet_str)
      then raise ValueError
             ("Only decimal digits permitted in " ++ Py.repr octet_str)
      else if Py.len octet_str >? 3
      then raise ValueError
             ("At most 3 characters permitted in " ++ Py.repr octet_str)
      else if negb (String.eqb octet_str "0") && Ascii.eqb c0 "0"
      then raise ValueError
             ("Leading zeros are not permitted in " ++ Py.repr octet_str)
      else
        octet_int <- int_of_str 10 octet_str ;;
        if octet_int >? 255
        then raise ValueError
               ("Octet " ++ Py.str_int octet_int ++ " (> 255) not permitted")
        else Return octet_int
  end.

Definition _ip_int_from_string (ip_str : string) : result Z :=
  match ip_str with
  | EmptyString => raise AddressValueError "Address cannot be empty"
  | _ =>
      let octets := Py.split "." ip_str in
      if negb (Z.of_nat (List.length octets) =? 4)
      then raise AddressValueError ("Expected 4 octets in " ++ Py.repr ip_str)
      else
        try_except
          (bs <- mapM _parse_octet octets ;; Return (Py.from_bytes bs))
          [ValueError]
          (fun exc => raise AddressValueError
                        (str_exn exc ++ " in " ++ Py.repr ip_str))
  end.

Definition _string_from_ip_int (ip_int : Z) : string :=
  Py.join "." (map Py.str_int (Py.to_bytes 4 ip_int)).

(** [str_self] is [str(self)], which depends on the class of [self]. *)
Definition _reverse_pointer (str_self : string) : string :=
  let reverse_octets := rev (Py.split "." str_self) in
  Py.join "." reverse_octets ++ ".in-addr.arpa".

#[export] Instance cls : IPClass :=
  Build_IPClass 4 (2 ^ IPV4LENGTH - 1) IPV4LENGTH _ip_int_from_string.

End _BaseV4.

Module IPv4Address.
Import _BaseV4.

Record t := Build { _ip : Z }.

(** [IPv4Address(address)] for an [int]. *)
Definition of_int (address : Z) : result t :=
  _ <- _check_int_address (cls := cls) address ;;
  Return (Build address).

(** [IPv4Address(address)] for a [str]. *)
Definition of_str (address : string) : result t :=
  let addr_str := address in
  if Py.contains "/" addr_str
  then raise AddressValueError ("Unexpected '/' in " ++ Py.repr address)
  else ip <- _BaseV4._ip_int_from_string addr_str ;; Return (Build ip).

Definition __int__ (self : t) : Z := _ip self.

Definition __str__ (self : t) : string := _string_from_ip_int (_ip self).

(** [_BaseAddress.__eq__] between two addresses of this version. *)
Definition __eq__ (self other : t) : bool := _ip self =? _ip other.

Definition reverse_pointer (self : t) : string :=
  _reverse_pointer (__str__ self).

End IPv4Address.

Module IPv4Network.
Import _BaseV4.

Record t := Build {
  network_address : IPv4Address.t;
  netmask : IPv4Address.t;
  _prefixlen : Z
}.

(** [_BaseV4._make_netmask]. *)
Definition _make_netmask (arg : netmask_arg) : result (IPv4Address.t * Z) :=
  prefixlen <-
    match arg with
    | MaskInt prefixlen =>
        if negb ((0 <=? prefixlen) && (prefixlen <=? _max_prefixlen))
        then _report_invalid_netmask (MaskInt prefixlen)
        else Return prefixlen
    | MaskStr arg =>
        try_except (_prefix_from_prefix_string (cls := cls) arg)
          [NetmaskValueError]
          (fun _ => _prefix_from_ip_string (cls := cls) arg)
    end ;;
  netmask <- IPv4Address.of_int (_ip_int_from_prefix (cls := cls) prefixlen) ;;
  Return (netmask, prefixlen).

Definition prefixlen (self : t) : Z := _prefixlen self.

Definition __str__ (self : t) : string :=
  IPv4Address.__str__ (network_address self) ++ "/"
  ++ Py.str_int (prefixlen self).

Definition __init__ (address : network_arg) (strict : bool) : result t :=
  '(addr, mask) <- _split_addr_prefix (cls := cls) address ;;
  network_address <- IPv4Address.of_str addr ;;
  '(netmask, _prefixlen) <- _make_netmask mask ;;
  let self := Build network_address netmask _prefixlen in
  let packed := IPv4Address.__int__ network_address in
  if negb (Z.land packed (IPv4Address.__int__ netmask) =? packed)
  then
    if strict
    then raise ValueError (__str__ self ++ " has host bits set")
    else
      network_address <-
        IPv4Address.of_int (Z.land packed (IPv4Address.__int__ netmask)) ;;
      Return (Build network_address netmask _prefixlen)
  else Return self.

Definition hostmask (self : t) : result IPv4Address.t :=
  IPv4Address.of_int
    (Z.lxor (IPv4Address.__int__ (netmask self)) (_ALL_ONES (IPClass := cls))).

Definition broadcast_address (self : t) : result IPv4Address.t :=
  hostmask <- hostmask self ;;
  IPv4Address.of_int
    (Z.lor (IPv4Address.__int__ (network_address self))
           (IPv4Address.__int__ hostmask)).

Definition num_addresses (self : t) : result Z :=
  broadcast_address <- broadcast_address self ;;
  Return (IPv4Address.__int__ broadcast_address
          - IPv4Address.__int__ (network_address self) + 1).

(** [other in self] for an address [other]. *)
Definition __contains__ (self : t) (other : IPv4Address.t) : bool :=
  Z.land (IPv4Address._ip other) (IPv4Address._ip (netmask self))
  =? IPv4Address._ip (network_address self).

(** A network written in the module's source; the literals below all
    parse. *)
Definition literal (address : string) : t :=
  match __init__ (ArgStr address) true with
  | Return n => n
  | Raise _ => Build (IPv4Address.Build 0) (IPv4Address.Build 0) 0
  end.

Module _constants.
Definition _linklocal_network := literal "169.254.0.0/16".
Definition _loopback_network := literal "127.0.0.0/8".
Definition _multicast_network := literal "224.0.0.0/4".
Definition _public_network := literal "100.64.0.0/10".
Definition _private_networks : list t :=
  [ literal "0.0.0.0/8";
    literal "10.0.0.0/8";
    literal "127.0.0.0/8";
    literal "169.254.0.0/16";
    literal "172.16.0.0/12";
    literal "192.0.0.0/24";
    literal "192.0.0.170/31";
    literal "192.0.2.0/24";
    literal "192.168.0.0/16";
    literal "198.18.0.0/15";
    literal "198.51.100.0/24";
    literal "203.0.113.0/24";
    literal "240.0.0.0/4";
    literal "255.255.255.255/32" ].
Definition _private_networks_exceptions : list t :=
  [ literal "192.0.0.9/32";
    literal "192.0.0.10/32" ].
End _constants.

(** [_BaseNetwork.is_private].  The cached [broadcast_address] is computed
    once, ahead of the two scans. *)
Definition is_private (self : t) : result bool :=
  broadcast_address <- broadcast_address self ;;
  Return
    (existsb (fun priv_network =>
                __contains__ priv_network (network_address self)
                && __contains__ priv_network broadcast_address)
             _constants._private_networks
     && forallb (fun network =>
                   negb (__contains__ network (network_address self))
                   && negb (__contains__ network broadcast_address))
                _constants._private_networks_exceptions).

(** [IPv4Network.is_global]. *)
Definition is_global (self : t) : result bool :=
  broadcast_address <- broadcast_address self ;;
  is_private <- is_private self ;;
  Return
    (negb (__contains__ (literal "100.64.0.0/10") (network_address self)
           && __contains__ (literal "100.64.0.0/10") broadcast_address)
     && negb is_private).

End IPv4Network.

Module IPv4Interface.
Import _BaseV4.

(** An [IPv4Interface] is an [IPv4Address] ([_ip]) with three more
    attributes. *)
Record t := Build {
  _ip : Z;
  network : IPv4Network.t;
  netmask : IPv4Address.t;
  _prefixlen : Z
}.

Definition __init__ (address : string) : result t :=
  '(addr, mask) <- _split_addr_prefix (cls := cls) (ArgStr address) ;;
  base <- IPv4Address.of_str addr ;;
  network <- IPv4Network.__init__ (ArgTuple addr mask) false ;;
  Return (Build (IPv4Address._ip base) network
                (IPv4Network.netmask network)
                (IPv4Network._prefixlen network)).

Definition __str__ (self : t) : string :=
  _string_from_ip_int (_ip self) ++ "/" ++ Py.str_int (_prefixlen self).

Definition ip (self : t) : result IPv4Address.t :=
  IPv4Address.of_int (_ip self).

(** Inherited from [_IPAddressBase]; [str(self)] is [IPv4Interface.__str__]. *)
Definition reverse_pointer (self : t) : string :=
  _reverse_pointer (__str__ self).

End IPv4Interface.

(** *** IPv6 *)

Module _BaseV6.

Definition _HEXTET_COUNT : Z := 8.
Definition _HEX_DIGITS : string := "0123456789ABCDEFabcdef".

Definition _parse_hextet (hextet_str : string) : result Z :=
  if negb (Py.all (fun c => Py.contains c _HEX_DIGITS) hextet_str)
  then raise ValueError ("Only hex digits permitted in " ++ Py.repr hextet_str)
  else if Py.len hextet_str >? 4
  then raise ValueError
         ("At most 4 characters permitted in " ++ Py.repr hextet_str)
  else int_of_str 16 hextet_str.

(** The loop looking for ['::']: [middle] is [parts[i:len(parts)-1]]. *)
Fixpoint find_skip_index (ip_str : string) (i : Z) (middle : list string)
    (skip_index : option Z) : result (option Z) :=
  match middle with
  | [] => Return skip_index
  | part :: rest =>
      match part with
      | EmptyString =>
          match skip_index with
          | Some _ =>
              raise AddressValueError
                ("At most one '::' permitted in " ++ Py.repr ip_str)
          | None => find_skip_index ip_str (i + 1) rest (Some i)
          end
      | _ => find_skip_index ip_str (i + 1) rest skip_index
      end
  end.

(** [for part in ...: ip_int <<= 16; ip_int |= _parse_hextet(part)]. *)
Fixpoint parse_hextets (ip_int : Z) (parts : list string) : result Z :=
  match parts with
  | [] => Return ip_int
  | part :: rest =>
      h <- _parse_hextet part ;;
      parse_hextets (Z.lor (Z.shiftl ip_int 16) h) rest
  end.

Definition is_empty (s : string) : bool :=
  match s with EmptyString => true | _ => false end.

Definition _ip_int_from_string (ip_str : string) : result Z :=
  match ip_str with
  | EmptyString => raise AddressValueError "Address cannot be empty"
  | _ =>
  let parts := Py.split ":" ip_str in
  let _min_parts := 3 in
  if Z.of_nat (List.length parts) <? _min_parts
  then raise AddressValueError
         ("At least " ++ Py.str_int _min_parts ++ " parts expected in "
          ++ Py.repr ip_str)
  else
  parts <-
    (if Py.contains "." (last parts EmptyString)
     then
       ipv4 <- try_except (IPv4Address.of_str (last parts EmptyString))
                 [AddressValueError]
                 (fun exc => raise AddressValueError
                               (str_exn exc ++ " in " ++ Py.repr ip_str)) ;;
       let ipv4_int := IPv4Address._ip ipv4 in
       Return (removelast parts
               ++ [Py.hex (Z.land (Z.shiftr ipv4_int 16) 65535);
                   Py.hex (Z.land ipv4_int 65535)])%list
     else Return parts) ;;
  let n := Z.of_nat (List.length parts) in
  let _max_parts := _HEXTET_COUNT + 1 in
  if n >? _max_parts
  then raise AddressValueError
         ("At most " ++ Py.str_int (_max_parts - 1)
          ++ " colons permitted in " ++ Py.repr ip_str)
  else
  skip_index <- find_skip_index ip_str 1 (removelast (tl parts)) None ;;
  let first_empty := is_empty (hd EmptyString parts) in
  let last_empty := is_empty (last parts EmptyString) in
  '(parts_hi, parts_lo, parts_skipped) <-
    match skip_index with
    | Some skip_index =>
        let parts_hi := skip_index in
        let parts_lo := n - skip_index - 1 in
        parts_hi <-
          (if first_empty
           then
             let parts_hi := parts_hi - 1 in
             if negb (parts_hi =? 0)
             then raise AddressValueError
                    ("Leading ':' only permitted as part of '::' in "
                     ++ Py.repr ip_str)
             else Return parts_hi
           else Return parts_hi) ;;
        parts_lo <-
          (if last_empty
           then
             let parts_lo := parts_lo - 1 in
             if negb (parts_lo =? 0)
             then raise AddressValueError
                    ("Trailing ':' only permitted as part of '::' in "
                     ++ Py.repr ip_str)
             else Return parts_lo
           else Return parts_lo) ;;
        let parts_skipped := _HEXTET_COUNT - (parts_hi + parts_lo) in
        if parts_skipped <? 1
        then raise AddressValueError
               ("Expected at most " ++ Py.str_int (_HEXTET_COUNT - 1)
                ++ " other parts with '::' in " ++ Py.repr ip_str)
        else Return (parts_hi, parts_lo, parts_skipped)
    | None =>
        if negb (n =? _HEXTET_COUNT)
        then raise AddressValueError
               ("Exactly " ++ Py.str_int _HEXTET_COUNT
                ++ " parts expected without '::' in " ++ Py.repr ip_str)
        else if first_empty
        then raise AddressValueError
               ("Leading ':' only permitted as part of '::' in "
                ++ Py.repr ip_str)
        else if last_empty
        then raise AddressValueError
               ("Trailing ':' only permitted as part of '::' in "
                ++ Py.repr ip_str)
        else Return (n, 0, 0)
    end ;;
  try_except
    (ip_int <- parse_hextets 0 (firstn (Z.to_nat parts_hi) parts) ;;
     let ip_int := Z.shiftl ip_int (16 * parts_skipped) in
     parse_hextets ip_int (skipn (Z.to_nat (n - parts_lo)) parts))
    [ValueError]
    (fun exc => raise AddressValueError
                  (str_exn exc ++ " in " ++ Py.repr ip_str))
  end.

(** The scanning loop of [_compress_hextets]; the state is
    [(best_doublecolon_start, best_doublecolon_len, doublecolon_start,
    doublecolon_len)]. *)
Fixpoint scan_zero_runs (index : Z) (hextets : list string)
    (st : Z * Z * Z * Z) : Z * Z * Z * Z :=
  match hextets with
  | [] => st
  | hextet :: rest =>
      let '(best_doublecolon_start, best_doublecolon_len,
            doublecolon_start, doublecolon_len) := st in
      if String.eqb hextet "0"
      then
        let doublecolon_len := doublecolon_len + 1 in
        let doublecolon_start :=
          if doublecolon_start =? -1 then index else doublecolon_start in
        if doublecolon_len >? best_doublecolon_len
        then scan_zero_runs (index + 1) rest
               (doublecolon_start, doublecolon_len,
                doublecolon_start, doublecolon_len)
        else scan_zero_runs (index + 1) rest
               (best_doublecolon_start, best_doublecolon_len,
                doublecolon_start, doublecolon_len)
      else scan_zero_runs (index + 1) rest
             (best_doublecolon_start, best_doublecolon_len, -1, 0)
  end.

Definition _compress_hextets (hextets : list string) : list string :=
  let '(best_doublecolon_start, best_doublecolon_len, _, _) :=
    scan_zero_runs 0 hextets (-1, 0, -1, 0) in
  if best_doublecolon_len >? 1
  then
    let best_doublecolon_end := best_doublecolon_start + best_doublecolon_len in
    let hextets :=
      if best_doublecolon_end =? Z.of_nat (List.length hextets)
      then (hextets ++ [EmptyString])%list else hextets in
    let hextets :=
      (firstn (Z.to_nat best_doublecolon_start) hextets
       ++ [EmptyString]
       ++ skipn (Z.to_nat best_doublecolon_end) hextets)%list in
    if best_doublecolon_start =? 0
    then EmptyString :: hextets else hextets
  else hextets.

(** [range(0, 32, 4)]. *)
Definition hextet_offsets : list Z := [0; 4; 8; 12; 16; 20; 24; 28].

Definition _string_from_ip_int (ip_int : Z) : result string :=
  if ip_int >? 2 ^ IPV6LENGTH - 1
  then raise ValueError "IPv6 address is too large"
  else
    let hex_str := Py.hex_padded 32 ip_int in
    hextets <- mapM (fun x => h <- int_of_str 16 (Py.slice x (x + 4) hex_str) ;;
                              Return (Py.hex h)) hextet_offsets ;;
    let hextets := _compress_hextets hextets in
    Return (Py.join ":" hextets).

Definition _split_scope_id (ip_str : string) : result (string * option string) :=
  let '(addr, sep, scope_id) := Py.partition "%" ip_str in
  if is_empty sep then Return (addr, None)
  else if is_empty scope_id || Py.contains "%" scope_id
  then raise AddressValueError
         ("Invalid IPv6 address: " ++ String Py.DQUOTE (Py.repr ip_str)
          ++ String Py.DQUOTE EmptyString)
  else Return (addr, Some scope_id).

(** [exploded] is [self.exploded], which depends on the class of [self]. *)
Definition _reverse_pointer (exploded : string) : string :=
  let reverse_chars := Py.remove_char ":" (Py.reversed exploded) in
  Py.join "." (Py.chars reverse_chars) ++ ".ip6.arpa".

#[export] Instance cls : IPClass :=
  Build_IPClass 6 (2 ^ IPV6LENGTH - 1) IPV6LENGTH _ip_int_from_string.

End _BaseV6.

Module IPv6Address.
Import _BaseV6.

Record t := Build { _ip : Z; _scope_id : option string }.

(** [IPv6Address(address)] for an [int]. *)
Definition of_int (address : Z) : result t :=
  _ <- _check_int_address (cls := cls) address ;;
  Return (Build address None).

(** [IPv6Address(address)] for a [str]. *)
Definition of_str (address : string) : result t :=
  let addr_str := address in
  if Py.contains "/" addr_str
  then raise AddressValueError ("Unexpected '/' in " ++ Py.repr address)
  else
    '(addr_str, scope_id) <- _split_scope_id addr_str ;;
    ip <- _BaseV6._ip_int_from_string addr_str ;;
    Return (Build ip scope_id).

Definition __int__ (self : t) : Z := _ip self.

Definition __str__ (self : t) : result string :=
  ip_str <- _string_from_ip_int (_ip self) ;;
  match _scope_id self with
  | Some scope_id => Return (ip_str ++ "%" ++ scope_id)
  | None => Return ip_str
  end.

End IPv6Address.

Module IPv6Network.
Import _BaseV6.

Record t := Build {
  network_address : IPv6Address.t;
  netmask : IPv6Address.t;
  _prefixlen : Z
}.

(** [_BaseV6._make_netmask]. *)
Definition _make_netmask (arg : netmask_arg) : result (IPv6Address.t * Z) :=
  prefixlen <-
    match arg with
    | MaskInt prefixlen =>
        if negb ((0 <=? prefixlen) && (prefixlen <=? _max_prefixlen))
        then _report_invalid_netmask (MaskInt prefixlen)
        else Return prefixlen
    | MaskStr arg => _prefix_from_prefix_string (cls := cls) arg
    end ;;
  netmask <- IPv6Address.of_int (_ip_int_from_prefix (cls := cls) prefixlen) ;;
  Return (netmask, prefixlen).

Definition prefixlen (self : t) : Z := _prefixlen self.

Definition __str__ (self : t) : result string :=
  network_address <- IPv6Address.__str__ (network_address self) ;;
  Return (network_address ++ "/" ++ Py.str_int (prefixlen self)).

Definition __init__ (address : network_arg) (strict : bool) : result t :=
  '(addr, mask) <- _split_addr_prefix (cls := cls) address ;;
  network_address <- IPv6Address.of_str addr ;;
  '(netmask, _prefixlen) <- _make_netmask mask ;;
  let self := Build network_address netmask _prefixlen in
  let packed := IPv6Address.__int__ network_address in
  if negb (Z.land packed (IPv6Address.__int__ netmask) =? packed)
  then
    if strict
    then
      str_self <- __str__ self ;;
      raise ValueError (str_self ++ " has host bits set")
    else
      network_address <-
        IPv6Address.of_int (Z.land packed (IPv6Address.__int__ netmask)) ;;
      Return (Build network_address netmask _prefixlen)
  else Return self.

Definition hostmask (self : t) : result IPv6Address.t :=
  IPv6Address.of_int
    (Z.lxor (IPv6Address.__int__ (netmask self)) (_ALL_ONES (IPClass := cls))).

Definition broadcast_address (self : t) : result IPv6Address.t :=
  hostmask <- hostmask self ;;
  IPv6Address.of_int
    (Z.lor (IPv6Address.__int__ (network_address self))
           (IPv6Address.__int__ hostmask)).

(** [other in self] for an address [other]. *)
Definition __contains__ (self : t) (other : IPv6Address.t) : bool :=
  Z.land (IPv6Address._ip other) (IPv6Address._ip (netmask self))
  =? IPv6Address._ip (network_address self).

(** A network written in the module's source; the literals below all
    parse. *)
Definition literal (address : string) : t :=
  match __init__ (ArgStr address) true with
  | Return n => n
  | Raise _ => Build (IPv6Address.Build 0 None) (IPv6Address.Build 0 None) 0
  end.

Module _constants.
Definition _linklocal_network := literal "fe80::/10".
Definition _multicast_network := literal "ff00::/8".
Definition _private_networks : list t :=
  [ literal "::1/128";
    literal "::/128";
    literal "::ffff:0:0/96";
    literal "64:ff9b:1::/48";
    literal "100::/64";
    literal "2001::/23";
    literal "2001:db8::/32";
    literal "2002::/16";
    literal "fc00::/7";
    literal "fe80::/10" ].
Definition _private_networks_exceptions : list t :=
  [ literal "2001:1::1/128";
    literal "2001:1::2/128";
    literal "2001:3::/32";
    literal "2001:4:112::/48";
    literal "2001:20::/28";
    literal "2001:30::/28" ].
End _constants.

(** [_BaseNetwork.is_private]; see [IPv4Network.is_private]. *)
Definition is_private (self : t) : result bool :=
  broadcast_address <- broadcast_address self ;;
  Return
    (existsb (fun priv_network =>
                __contains__ priv_network (network_address self)
                && __contains__ priv_network broadcast_address)
             _constants._private_networks
     && forallb (fun network =>
                   negb (__contains__ network (network_address self))
                   && negb (__contains__ network broadcast_address))
                _constants._private_networks_exceptions).

(** [_BaseNetwork.is_global]. *)
Definition is_global (self : t) : result bool :=
  is_private <- is_private self ;;
  Return (negb is_private).

(** [_BaseNetwork.is_link_local] over [IPv6Address.is_link_local]. *)
Definition is_link_local (self : t) : result bool :=
  broadcast_address <- broadcast_address self ;;
  Return (__contains__ _constants._linklocal_network (network_address self)
          && __contains__ _constants._linklocal_network broadcast_address).

(** [_BaseNetwork.is_multicast] over [IPv6Address.is_multicast]. *)
Definition is_multicast (self : t) : result bool :=
  broadcast_address <- broadcast_address self ;;
  Return (__contains__ _constants._multicast_network (network_address self)
          && __contains__ _constants._multicast_network broadcast_address).

(** [_BaseV6._explode_shorthand_ip_string] on an [IPv6Network]. *)
Definition _explode_shorthand_ip_string (self : t) : result string :=
  ip_str <- IPv6Address.__str__ (network_address self) ;;
  ip_int <- _BaseV6._ip_int_from_string ip_str ;;
  let hex_str := Py.hex_padded 32 ip_int in
  let parts := map (fun x => Py.slice x (x + 4) hex_str) hextet_offsets in
  Return (Py.join ":" parts ++ "/" ++ Py.str_int (_prefixlen self)).

Definition exploded (self : t) : result string :=
  _explode_shorthand_ip_string self.

Definition reverse_pointer (self : t) : result string :=
  exploded <- exploded self ;;
  Return (_reverse_pointer exploded).

End IPv6Network.

Module IPv6Interface.
Import _BaseV6.

(** An [IPv6Interface] is an [IPv6Address] ([_ip], [_scope_id]) with three
    more attributes. *)
Record t := Build {
  _ip : Z;
  _scope_id : option string;
  network : IPv6Network.t;
  netmask : IPv6Address.t;
  _prefixlen : Z
}.

Definition __init__ (address : string) : result t :=
  '(addr, mask) <- _split_addr_prefix (cls := cls) (ArgStr address) ;;
  base <- IPv6Address.of_str addr ;;
  network <- IPv6Network.__init__ (ArgTuple addr mask) false ;;
  Return (Build (IPv6Address._ip base) (IPv6Address._scope_id base) network
                (IPv6Network.netmask network)
                (IPv6Network._prefixlen network)).

End IPv6Interface.

(** *** Module functions *)

Inductive address := V4 (a : IPv4Address.t) | V6 (a : IPv6Address.t).

Definition ip_address (address : string) : result ipaddress.address :=
  try_except (a <- IPv4Address.of_str address ;; Return (V4 a))
    [AddressValueError; NetmaskValueError]
    (fun _ =>
       try_except (a <- IPv6Address.of_str address ;; Return (V6 a))
         [AddressValueError; NetmaskValueError]
         (fun _ =>
            raise ValueError
              (Py.repr address
               ++ " does not appear to be an IPv4 or IPv6 address"))).

End ipaddress.

(** ** Standard output and input *)

(** What the program writes: a [print] call (its text, then a newline) or
    the prompt of an [input] call. *)
Inductive event := Print (text : string) | Prompt (text : string).

Definition stdout := list event.

(** What [input()] meets: a line (without its newline) or an interrupt
    (Ctrl-C, [KeyboardInterrupt]); the end of the list is the end of the
    input ([EOFError]).  An interrupt is placed where the program waits
    for a line, not in the middle of an analysis. *)
Inductive stdin_event := Line (text : string) | Interrupt.

(** Code that prints and may raise: the text written so far is threaded
    through and survives an exception. *)
Definition IO (A : Type) : Type := stdout -> result A * stdout.

Definition ret {A} (a : A) : IO A := fun out => (Return a, out).

Definition bindIO {A B} (m : IO A) (k : A -> IO B) : IO B :=
  fun out =>
    match m out with
    | (Return a, out') => k a out'
    | (Raise e, out') => (Raise e, out')
    end.

Notation "x <~ m ;; k" := (bindIO m (fun x => k))
  (at level 61, m at next level, right associativity).
Notation "m ;;; k" := (bindIO m (fun _ => k))
  (at level 61, right associativity).

Definition lift {A} (r : result A) : IO A := fun out => (r, out).

Definition print (text : string) : IO unit :=
  fun out => (Return tt, (out ++ [Print text])%list).

Definition write_prompt (text : string) : IO unit :=
  fun out => (Return tt, (out ++ [Prompt text])%list).

Definition try_exceptIO {A} (body : IO A) (classes : list exn_class)
    (handler : exn -> IO A) : IO A :=
  fun out =>
    match body out with
    | (Return a, out') => (Return a, out')
    | (Raise e, out') =>
        if existsb (issubclass (class_of e)) classes then handler e out'
        else (Raise e, out')
    end.

(** ** The program *)

Module ipfx.
Import ipaddress.

(** A value of the result dictionaries and its [format(value, '')]. *)
Inductive value := VStr (s : string) | VInt (n : Z) | VBool (b : bool).

Definition format_value (v : value) : string :=
  match v with
  | VStr s => s
  | VInt n => Py.str_int n
  | VBool b => Py.str_bool b
  end.

(** A [dict] literal with distinct keys, in insertion order. *)
Definition dict := list (string * value).

Fixpoint get (key : string) (d : dict) : option value :=
  match d with
  | [] => None
  | (k, v) :: r => if String.eqb k key then Some v else get key r
  end.

(** [a, b = l]. *)
Definition unpack2 (l : list string) : result (string * string) :=
  match l with
  | [a; b] => Return (a, b)
  | _ :: _ :: _ :: _ =>
      raise ValueError "too many values to unpack (expected 2)"
  | _ =>
      raise ValueError
        ("not enough values to unpack (expected 2, got "
         ++ Py.str_int (Z.of_nat (List.length l)) ++ ")")
  end.

Module IPCalculator.

Definition get_address_version (address : string) : Z :=
  match ip_address address with
  | Return (V4 _) => 4
  | Return (V6 _) => 6
  | Raise _ => -1
  end.

Definition calculate_ipv4 (network : IPv4Network.t) (interface : IPv4Interface.t)
  : result dict :=
  ip_addr <- IPv4Interface.ip interface ;;
  let network_address := IPv4Network.network_address network in
  broadcast_address <- IPv4Network.broadcast_address network ;;
  num_addresses <- IPv4Network.num_addresses network ;;
  let host_count := num_addresses - 2 in
  is_private <- IPv4Network.is_private network ;;
  is_global <- IPv4Network.is_global network ;;
  Return
    [ ("ipaddress", VStr (IPv4Address.__str__ ip_addr));
      ("network_address", VStr (IPv4Address.__str__ network_address));
      ("broadcast_address", VStr (IPv4Address.__str__ broadcast_address));
      ("host_count", VInt host_count);
      ("is_private", VBool is_private);
      ("is_global", VBool is_global);
      ("is_network_address",
       VBool (IPv4Address.__eq__ network_address ip_addr));
      ("is_broadcast_address",
       VBool (IPv4Address.__eq__ broadcast_address ip_addr));
      ("reverse", VStr (IPv4Interface.reverse_pointer interface));
      ("cidr_notation",
       VStr (IPv4Address.__str__ ip_addr ++ "/"
             ++ Py.str_int (IPv4Network.prefixlen network)));
      ("cisco_notation",
       VStr (IPv4Address.__str__ ip_addr ++ " "
             ++ IPv4Address.__str__ (IPv4Network.netmask network)));
      ("ubuntu_subnet",
       VStr (IPv4Address.__str__ network_address ++ "/"
             ++ Py.str_int (IPv4Network.prefixlen network))) ].

(** [str(network_address)] is evaluated for three fields by the source,
    each time with the same result; [interface] is not used. *)
Definition calculate_ipv6 (network : IPv6Network.t) (interface : IPv6Interface.t)
  : result dict :=
  let network_address := IPv6Network.network_address network in
  str_network_address <- IPv6Address.__str__ network_address ;;
  is_private <- IPv6Network.is_private network ;;
  is_global <- IPv6Network.is_global network ;;
  is_link_local <- IPv6Network.is_link_local network ;;
  is_multicast <- IPv6Network.is_multicast network ;;
  reverse <- IPv6Network.reverse_pointer network ;;
  Return
    [ ("network_address", VStr str_network_address);
      ("is_private", VBool is_private);
      ("is_global", VBool is_global);
      ("is_link_local", VBool is_link_local);
      ("is_multicast", VBool is_multicast);
      ("reverse", VStr reverse);
      ("cidr_notation",
       VStr (str_network_address ++ "/"
             ++ Py.str_int (IPv6Network.prefixlen network)));
      ("ubuntu_notation",
       VStr (str_network_address ++ "/"
             ++ Py.str_int (IPv6Network.prefixlen network))) ].

End IPCalculator.

Module OutputFormatter.

(** [for key, value in info.items(): print(f"{key:20}: {value}")]. *)
Fixpoint print_items (info : dict) : IO unit :=
  match info with
  | [] => ret tt
  | (key, value) :: rest =>
      print (Py.ljust key 20 ++ ": " ++ format_value value) ;;;
      print_items rest
  end.

Definition print_ipv4_info (info : dict) : IO unit :=
  print (Py.times "=" 42) ;;;
  print (Py.center "IPv4 Address Information" 42) ;;;
  print (Py.times "=" 42) ;;;
  print_items info ;;;
  print (Py.times "=" 42).

Definition print_ipv6_info (info : dict) : IO unit :=
  print (Py.times "=" 42) ;;;
  print (Py.center "IPv6 Address Information" 42) ;;;
  print (Py.times "=" 42) ;;;
  print_items info ;;;
  print (Py.times "=" 42).

Definition print_error (message : string) : IO unit :=
  print ("Error: " ++ message).

Definition help_text : string :=
  Py.join (String Py.LF EmptyString)
    [ "";
      "IP Address Calculator (ipfx) - Network Analysis Tool";
      "";
      "Usage:";
      "    ipfx [address/prefix] [options]";
      "    ";
      "Arguments:";
      "    address/prefix    IP address with CIDR notation (e.g., 192.168.1.1/24)";
      "    ";
      "Options:";
      "    -h, --help       Show this help message and exit";
      "    ";
      "Examples:";
      "    ipfx 192.168.1.1/24       # Calculate IPv4 network";
      "    ipfx 2001:db8::1/64       # Calculate IPv6 network";
      "    ipfx                      # Enter interactive mode";
      "    ";
      "Interactive Mode:";
      "    In interactive mode, you can enter multiple addresses:";
      "    address: 192.168.1.1/24";
      "    address: 10.0.0.1/8";
      "    address: exit            # Exit interactive mode";
      "        " ].

Definition print_help : IO unit := print (Py.strip help_text).

End OutputFormatter.

Module IPAddressProcessor.
Import IPCalculator OutputFormatter.

(** The early [return -1] of a handler is [Some (-1)]; falling out of the
    [try] statement is [None]. *)
Definition process_address (input_data : string) : IO Z :=
  split <~ try_exceptIO
             (p <~ lift (unpack2 (Py.split "/" input_data)) ;; ret (Some p))
             [ValueError]
             (fun _ =>
                print_error "Invalid input format. Please use 'address/prefix'." ;;;
                ret None) ;;
  match split with
  | None => ret (-1)
  | Some (address, prefix) =>
      let address_version := get_address_version address in
      if address_version =? -1
      then print_error "Invalid address format." ;;; ret (-1)
      else
        returned <~ try_exceptIO
          (if address_version =? 4
           then
             network <~ lift (IPv4Network.__init__
                                (ArgStr (address ++ "/" ++ prefix)) false) ;;
             interface <~ lift (IPv4Interface.__init__
                                  (address ++ "/" ++ prefix)) ;;
             info <~ lift (calculate_ipv4 network interface) ;;
             print_ipv4_info info ;;;
             ret None
           else if address_version =? 6
           then
             network <~ lift (IPv6Network.__init__
                                (ArgStr (address ++ "/" ++ prefix)) false) ;;
             interface <~ lift (IPv6Interface.__init__
                                  (address ++ "/" ++ prefix)) ;;
             info <~ lift (calculate_ipv6 network interface) ;;
             print_ipv6_info info ;;;
             ret None
           else
             print_error "Unknown address version." ;;;
             ret (Some (-1)))
          [ValueError]
          (fun e =>
             print_error ("Invalid network specification: " ++ str_exn e) ;;;
             ret (Some (-1))) ;;
        match returned with
        | Some code => ret code
        | None => ret 0
        end
  end.

Definition exit_commands : list string := ["exit"; "quit"; "q"].

(** The [while True] loop of [interactive_mode].  Each round calls
    [input("address: ")], which writes the prompt and then returns the next
    line, or raises [KeyboardInterrupt] or [EOFError]; both leave the
    loop. *)
Fixpoint interactive_loop (stdin : list stdin_event) : IO unit :=
  match stdin with
  | [] => write_prompt "address: "
  | Interrupt :: _ =>
      write_prompt "address: " ;;;
      print (String Py.LF (String Py.LF "Exiting..."))
  | Line text :: stdin =>
      write_prompt "address: " ;;;
      let user_input := Py.strip text in
      if existsb (String.eqb (Py.lower user_input)) exit_commands
      then ret tt
      else
        match user_input with
        | EmptyString => interactive_loop stdin
        | _ =>
            process_address user_input ;;;
            print "" ;;;
            interactive_loop stdin
        end
  end.

Definition interactive_mode (stdin : list stdin_event) : IO Z :=
  print "IP Address Calculator - Interactive Mode" ;;;
  print "Enter IP addresses in format 'address/prefix' or 'exit' to quit" ;;;
  print (Py.times "-" 50) ;;;
  interactive_loop stdin ;;;
  ret 0.

Definition command_line_mode (address : string) : IO Z :=
  process_address address.

End IPAddressProcessor.

Definition main (input_address : option string) (stdin : list stdin_event)
  : IO Z :=
  match input_address with
  | Some input_address => IPAddressProcessor.command_line_mode input_address
  | None => IPAddressProcessor.interactive_mode stdin
  end.

Definition is_help (arg : string) : bool :=
  String.eqb arg "-h" || String.eqb arg "--help".

(** [for arg in args: ...] followed by [sys.exit(0)]; the value is the
    argument of the [sys.exit] that ends the process. *)
Fixpoint process_args (args : list string) (stdin : list stdin_event) : IO Z :=
  match args with
  | [] => ret 0
  | arg :: rest =>
      if is_help arg
      then OutputFormatter.print_help ;;; ret 0
      else
        print ("Processing: " ++ arg) ;;;
        exit_code <~ main (Some arg) stdin ;;
        if negb (exit_code =? 0) then ret exit_code
        else print "" ;;; process_args rest stdin
  end.

(** The [if __name__ == "__main__":] block, [args] being [sys.argv[1:]]. *)
Definition script (args : list string) (stdin : list stdin_event) : IO Z :=
  match args with
  | [] => main None stdin
  | _ => process_args args stdin
  end.

End ipfx.

(** * Properties *)

Import ipaddress ipfx.

(** ** Strings *)

Lemma append_assoc (s t u : string) : (s ++ t) ++ u = s ++ (t ++ u).
Proof. induction s as [|c s IH]; simpl; [reflexivity | now rewrite IH]. Qed.

Lemma append_nil_r (s : string) : s ++ "" = s.
Proof. induction s as [|c s IH]; simpl; [reflexivity | now rewrite IH]. Qed.

(** Appends are associated to the right, through [String] as well. *)
Ltac right_assoc :=
  repeat first [rewrite append_assoc | progress (cbn [append])].

Lemma contains_app c s t :
  Py.contains c (s ++ t) = Py.contains c s || Py.contains c t.
Proof.
  induction s as [|d s IH]; simpl; [reflexivity|].
  rewrite IH. apply orb_assoc.
Qed.

Lemma split_without sep s :
  Py.contains sep s = false -> Py.split sep s = [s].
Proof.
  induction s as [|c s IH]; simpl; [reflexivity|].
  intros H. apply orb_false_elim in H as [Hc Hs].
  rewrite Hc, (IH Hs). reflexivity.
Qed.

Lemma split_app sep s t :
  Py.contains sep s = false ->
  Py.split sep (s ++ String sep t) = s :: Py.split sep t.
Proof.
  induction s as [|c s IH]; simpl.
  - intros _. rewrite Ascii.eqb_refl. reflexivity.
  - intros H. apply orb_false_elim in H as [Hc Hs].
    rewrite Hc, (IH Hs). reflexivity.
Qed.

Lemma split_not_nil sep s : Py.split sep s <> [].
Proof.
  destruct s as [|c s]; simpl; [discriminate|].
  destruct (Ascii.eqb c sep); [discriminate|].
  destruct (Py.split sep s); discriminate.
Qed.

(** Splitting at a separator that occurs exactly once. *)
Lemma split_once sep s t :
  Py.contains sep s = false -> Py.contains sep t = false ->
  Py.split sep (s ++ String sep t) = [s; t].
Proof.
  intros Hs Ht. rewrite (split_app _ _ _ Hs), (split_without _ _ Ht).
  reflexivity.
Qed.

(** The pieces of a split hold no separator, and joining them gives the
    string back. *)
Lemma split_pieces sep s :
  Forall (fun p => Py.contains sep p = false) (Py.split sep s).
Proof.
  induction s as [|c s IH]; simpl.
  - repeat constructor.
  - destruct (Ascii.eqb c sep) eqn:Hc.
    + constructor; [reflexivity | exact IH].
    + destruct (Py.split sep s) as [|p ps].
      * constructor; [simpl; now rewrite Hc | constructor].
      * inversion IH; subst. constructor; [simpl; now rewrite Hc | assumption].
Qed.

Lemma join_split sep s :
  Py.join (String sep EmptyString) (Py.split sep s) = s.
Proof.
  unfold Py.join.
  induction s as [|c s IH]; simpl; [reflexivity|].
  destruct (Ascii.eqb c sep) eqn:Hc.
  - apply Ascii.eqb_eq in Hc; subst c.
    pose proof (split_not_nil sep s) as Hn.
    destruct (Py.split sep s) as [|p ps]; [contradiction|].
    simpl in *. now rewrite IH.
  - pose proof (split_not_nil sep s) as Hn.
    destruct (Py.split sep s) as [|p ps]; [contradiction|].
    simpl in *. destruct ps; simpl in *; now rewrite <- IH.
Qed.

(** ** Masks *)

Lemma land_disjoint_sum a m o :
  Z.land m o = 0 -> Z.land a (Z.lor m o) = Z.land a m + Z.land a o.
Proof.
  intros H.
  rewrite Z.land_lor_distr_r, <- Z.add_lor_land.
  assert (E : Z.land (Z.land a m) (Z.land a o) = 0).
  { apply Z.bits_inj'; intros n Hn.
    assert (T : Z.testbit (Z.land m o) n = false) by (rewrite H; apply Z.bits_0).
    rewrite Z.land_spec in T. rewrite !Z.land_spec, Z.bits_0.
    destruct (Z.testbit a n), (Z.testbit m n), (Z.testbit o n);
      simpl in *; congruence. }
  rewrite E. lia.
Qed.

Lemma lor_disjoint_sum x o : Z.land x o = 0 -> Z.lor x o = x + o.
Proof. intros H. rewrite <- Z.add_lor_land, H. lia. Qed.

(** The prefix lengths of IPv4, for proofs by cases. *)
Definition prefix_lengths : list Z := map Z.of_nat (seq 0 33).

Lemma prefix_lengths_spec p : 0 <= p <= 32 -> In p prefix_lengths.
Proof.
  intros H. unfold prefix_lengths. apply in_map_iff.
  exists (Z.to_nat p). split; [lia|]. apply in_seq. lia.
Qed.

Ltac each_prefix H :=
  apply prefix_lengths_spec in H; cbv in H;
  repeat (destruct H as [<- | H]); [.. | contradiction].

(** [mask32 p]: [p] leading one bits in a width of 32 bits. *)
Definition mask32 (p : Z) : Z := Z.shiftl (Z.ones p) (32 - p).

(** [not32 x]: the complement of [x] over 32 bits. *)
Definition not32 (x : Z) : Z := Z.land (Z.lnot x) (Z.ones 32).

Definition v4_mask (p : Z) : Z := _ip_int_from_prefix (cls := _BaseV4.cls) p.

Lemma v4_mask_spec p : 0 <= p <= 32 -> v4_mask p = mask32 p.
Proof. intros H. each_prefix H; reflexivity. Qed.

Lemma v4_mask_value p : 0 <= p <= 32 -> v4_mask p = 2 ^ 32 - 2 ^ (32 - p).
Proof. intros H. each_prefix H; reflexivity. Qed.

Lemma v4_hostmask p :
  0 <= p <= 32 ->
  Z.lxor (v4_mask p) (2 ^ 32 - 1) = not32 (mask32 p)
  /\ Z.lxor (v4_mask p) (2 ^ 32 - 1) = 2 ^ (32 - p) - 1.
Proof. intros H. each_prefix H; split; reflexivity. Qed.

Lemma land_32 a : 0 <= a < 2 ^ 32 -> Z.land a (2 ^ 32 - 1) = a.
Proof.
  intros H. change (2 ^ 32 - 1) with (Z.ones 32).
  rewrite Z.land_ones by lia. apply Z.mod_small. exact H.
Qed.

(** The network address: the host bits are cleared. *)
Lemma land_v4_mask a p :
  0 <= a < 2 ^ 32 -> 0 <= p <= 32 ->
  Z.land a (v4_mask p) = a - a mod 2 ^ (32 - p).
Proof.
  intros Ha Hp.
  assert (D : Z.land (v4_mask p) (Z.ones (32 - p)) = 0
              /\ Z.lor (v4_mask p) (Z.ones (32 - p)) = 2 ^ 32 - 1).
  { each_prefix Hp; split; reflexivity. }
  destruct D as [D1 D2].
  pose proof (land_disjoint_sum a _ _ D1) as E.
  rewrite D2, (land_32 a Ha), Z.land_ones in E by lia. lia.
Qed.

(** The broadcast address: the host bits are set. *)
Lemma lor_v4_hostmask a p :
  0 <= a < 2 ^ 32 -> 0 <= p <= 32 ->
  Z.lor (Z.land a (v4_mask p)) (Z.lxor (v4_mask p) (2 ^ 32 - 1))
  = a - a mod 2 ^ (32 - p) + 2 ^ (32 - p) - 1.
Proof.
  intros Ha Hp.
  destruct (v4_hostmask p Hp) as [_ ->].
  assert (D : Z.land (v4_mask p) (2 ^ (32 - p) - 1) = 0).
  { each_prefix Hp; reflexivity. }
  rewrite lor_disjoint_sum.
  - rewrite land_v4_mask by assumption. lia.
  - rewrite <- Z.land_assoc, D. apply Z.land_0_r.
Qed.

Lemma network_bounds a p :
  0 <= a < 2 ^ 32 -> 0 <= p <= 32 ->
  0 <= a - a mod 2 ^ (32 - p)
  /\ a - a mod 2 ^ (32 - p) + 2 ^ (32 - p) - 1 < 2 ^ 32.
Proof.
  intros Ha Hp.
  assert (K : 0 < 2 ^ (32 - p)) by (apply Z.pow_pos_nonneg; lia).
  pose proof (Z.mod_pos_bound a _ K) as M.
  pose proof (Z.div_mod a (2 ^ (32 - p)) ltac:(lia)) as E.
  assert (P : 2 ^ 32 = 2 ^ p * 2 ^ (32 - p)).
  { rewrite <- Z.pow_add_r by lia. f_equal. lia. }
  assert (Q0 : 0 <= a / 2 ^ (32 - p)) by (apply Z.div_pos; lia).
  assert (Q : a / 2 ^ (32 - p) < 2 ^ p).
  { apply Z.div_lt_upper_bound; lia. }
  split; nia.
Qed.

(** ** Dotted quads *)

Definition octet_values : list Z := map Z.of_nat (seq 0 256).

Lemma octet_values_spec b : 0 <= b <= 255 -> In b octet_values.
Proof.
  intros H. unfold octet_values. apply in_map_iff.
  exists (Z.to_nat b). split; [lia|]. apply in_seq. lia.
Qed.

(** What one printed octet is checked for: it parses back to itself, it is
    not empty and it holds neither ['.'] nor ['/']. *)
Definition octet_ok (b : Z) : bool :=
  match _BaseV4._parse_octet (Py.str_int b) with
  | Return b' => b' =? b
  | Raise _ => false
  end
  && negb (Py.contains "." (Py.str_int b))
  && negb (Py.contains "/" (Py.str_int b))
  && negb (String.eqb (Py.str_int b) "").

Lemma octets_ok : forallb octet_ok octet_values = true.
Proof. vm_compute. reflexivity. Qed.

Lemma octet_facts b :
  0 <= b <= 255 ->
  _BaseV4._parse_octet (Py.str_int b) = Return b
  /\ Py.contains "." (Py.str_int b) = false
  /\ Py.contains "/" (Py.str_int b) = false
  /\ Py.str_int b <> "".
Proof.
  intros H. pose proof octets_ok as A.
  rewrite forallb_forall in A. specialize (A b (octet_values_spec b H)).
  unfold octet_ok in A.
  repeat (apply andb_true_iff in A as [A ?]).
  destruct (_BaseV4._parse_octet (Py.str_int b)) as [b'|]; [|discriminate].
  apply Z.eqb_eq in A; subst b'.
  repeat split; try (apply negb_true_iff; assumption).
  intros E. rewrite E in *. discriminate.
Qed.

Lemma to_bytes_4 a :
  Py.to_bytes 4 a
  = [a / 256 / 256 / 256 mod 256; a / 256 / 256 mod 256;
     a / 256 mod 256; a mod 256].
Proof. reflexivity. Qed.

Lemma from_bytes_4 b3 b2 b1 b0 :
  Py.from_bytes [b3; b2; b1; b0] = ((b3 * 256 + b2) * 256 + b1) * 256 + b0.
Proof. unfold Py.from_bytes. simpl. lia. Qed.

Lemma from_to_bytes_4 a :
  0 <= a < 2 ^ 32 -> Py.from_bytes (Py.to_bytes 4 a) = a.
Proof.
  intros H. rewrite to_bytes_4, from_bytes_4.
  pose proof (Z.div_mod a 256 ltac:(lia)).
  pose proof (Z.div_mod (a / 256) 256 ltac:(lia)).
  pose proof (Z.div_mod (a / 256 / 256) 256 ltac:(lia)).
  assert (a / 256 / 256 / 256 < 256).
  { repeat (apply Z.div_lt_upper_bound; [lia|]). lia. }
  assert (0 <= a / 256 / 256 / 256) by (repeat (apply Z.div_pos; [|lia]); lia).
  rewrite (Z.mod_small (a / 256 / 256 / 256)) by lia. lia.
Qed.

Lemma octet_range x : 0 <= x mod 256 <= 255.
Proof. pose proof (Z.mod_pos_bound x 256 ltac:(lia)). lia. Qed.

(** [dotted a] is [str(IPv4Address(a))]. *)
Definition dotted (a : Z) : string := _BaseV4._string_from_ip_int a.

Lemma dotted_unfold a :
  dotted a
  = Py.str_int (a / 256 / 256 / 256 mod 256) ++ String "."
      (Py.str_int (a / 256 / 256 mod 256) ++ String "."
         (Py.str_int (a / 256 mod 256) ++ String "."
            (Py.str_int (a mod 256)))).
Proof.
  unfold dotted, _BaseV4._string_from_ip_int. rewrite to_bytes_4.
  reflexivity.
Qed.

Lemma dotted_no_slash a : Py.contains "/" (dotted a) = false.
Proof.
  rewrite dotted_unfold.
  destruct (octet_facts _ (octet_range (a / 256 / 256 / 256))) as (_ & _ & S3 & _).
  destruct (octet_facts _ (octet_range (a / 256 / 256))) as (_ & _ & S2 & _).
  destruct (octet_facts _ (octet_range (a / 256))) as (_ & _ & S1 & _).
  destruct (octet_facts _ (octet_range a)) as (_ & _ & S0 & _).
  repeat (rewrite contains_app; simpl).
  rewrite S3, S2, S1, S0. reflexivity.
Qed.

Lemma dotted_split a :
  Py.split "." (dotted a) = map Py.str_int (Py.to_bytes 4 a).
Proof.
  rewrite dotted_unfold, to_bytes_4.
  destruct (octet_facts _ (octet_range (a / 256 / 256 / 256))) as (_ & D3 & _).
  destruct (octet_facts _ (octet_range (a / 256 / 256))) as (_ & D2 & _).
  destruct (octet_facts _ (octet_range (a / 256))) as (_ & D1 & _).
  destruct (octet_facts _ (octet_range a)) as (_ & D0 & _).
  rewrite (split_app _ _ _ D3), (split_app _ _ _ D2), (split_app _ _ _ D1),
    (split_without _ _ D0).
  reflexivity.
Qed.

Lemma dotted_not_empty a : dotted a <> "".
Proof.
  rewrite dotted_unfold.
  destruct (octet_facts _ (octet_range (a / 256 / 256 / 256))) as (_ & _ & _ & N).
  destruct (Py.str_int (a / 256 / 256 / 256 mod 256)); [contradiction|].
  discriminate.
Qed.

(** Parsing what was printed: every 32-bit address is read back from its
    dotted quad. *)
Lemma ip_int_from_dotted a :
  0 <= a < 2 ^ 32 -> _BaseV4._ip_int_from_string (dotted a) = Return a.
Proof.
  intros H. unfold _BaseV4._ip_int_from_string.
  pose proof (dotted_not_empty a) as N.
  destruct (dotted a) as [|c s] eqn:E; [contradiction|]. rewrite <- E.
  rewrite dotted_split, to_bytes_4.
  cbn [map List.length mapM].
  destruct (octet_facts _ (octet_range (a / 256 / 256 / 256))) as (-> & _).
  destruct (octet_facts _ (octet_range (a / 256 / 256))) as (-> & _).
  destruct (octet_facts _ (octet_range (a / 256))) as (-> & _).
  destruct (octet_facts _ (octet_range a)) as (-> & _).
  cbn [bind try_except Z.of_nat Z.eqb negb Pos.of_succ_nat Pos.succ Pos.eqb].
  rewrite <- to_bytes_4, from_to_bytes_4 by assumption. reflexivity.
Qed.

Lemma of_str_dotted a :
  0 <= a < 2 ^ 32 ->
  IPv4Address.of_str (dotted a) = Return (IPv4Address.Build a).
Proof.
  intros H. unfold IPv4Address.of_str.
  rewrite dotted_no_slash, ip_int_from_dotted by assumption. reflexivity.
Qed.

(** ** What a successful parse tells *)

Lemma digit_value_nonneg c : 0 <= Py.digit_value c.
Proof.
  unfold Py.digit_value.
  repeat match goal with
         | |- context [if ?b then _ else _] => destruct b eqn:?
         end; lia.
Qed.

Lemma digits_value_nonneg base s : forall acc,
  0 <= base -> 0 <= acc -> 0 <= Py.digits_value base acc s.
Proof.
  induction s as [|c s IH]; simpl; intros acc Hb Ha; [exact Ha|].
  apply IH; [exact Hb|]. pose proof (digit_value_nonneg c). nia.
Qed.

Lemma int_of_str_nonneg base s n :
  0 <= base -> int_of_str base s = Return n -> 0 <= n.
Proof.
  unfold int_of_str. intros Hb H.
  destruct s as [|c s]; [discriminate|].
  destruct ((base =? 10) && (4300 <? Py.len (String c s))); [discriminate|].
  injection H as <-. apply (digits_value_nonneg base (String c s) 0); lia.
Qed.

Lemma parse_octet_range s o :
  _BaseV4._parse_octet s = Return o -> 0 <= o <= 255.
Proof.
  unfold _BaseV4._parse_octet. intros H.
  destruct s as [|c s]; [discriminate|].
  repeat match type of H with
         | (if ?b then _ else _) = _ => destruct b; [discriminate|]
         end.
  destruct (int_of_str 10 (String c s)) as [n|] eqn:E; [|discriminate].
  simpl in H. destruct (n >? 255) eqn:G; [discriminate|].
  injection H as <-. apply int_of_str_nonneg in E; lia.
Qed.

Lemma Return_inj {A} (a b : A) : Return a = Return b -> a = b.
Proof. intros H. injection H. trivial. Qed.

Lemma bind_Return {A B} (m : result A) (k : A -> result B) b :
  bind m k = Return b -> exists a, m = Return a /\ k a = Return b.
Proof. destruct m as [a|e]; simpl; [eauto | discriminate]. Qed.

Lemma mapM_Return {A B} (f : A -> result B) l bs :
  mapM f l = Return bs -> Forall2 (fun x b => f x = Return b) l bs.
Proof.
  revert bs. induction l as [|x l IH]; simpl; intros bs H.
  - injection H as <-. constructor.
  - apply bind_Return in H as (b & Hb & H).
    apply bind_Return in H as (bs' & Hbs & H).
    injection H as <-. constructor; auto.
Qed.

Lemma try_except_Return {A} (body : result A) classes handler a :
  (forall e, handler e <> Return a) ->
  try_except body classes handler = Return a -> body = Return a.
Proof.
  unfold try_except. intros N. destruct body as [x|e]; [trivial|].
  destruct (existsb _ classes); [|discriminate].
  intros H. now apply N in H.
Qed.

Lemma try_except_Return_raise {A} (body : result A) classes c msg a :
  try_except body classes (fun _ => raise c msg) = Return a ->
  body = Return a.
Proof.
  unfold try_except. destruct body as [x|e]; [trivial|].
  destruct (existsb _ classes); discriminate.
Qed.

Lemma ip_int_from_string_range s a :
  _BaseV4._ip_int_from_string s = Return a -> 0 <= a < 2 ^ 32.
Proof.
  unfold _BaseV4._ip_int_from_string. intros H.
  destruct s as [|c s]; [discriminate|].
  destruct (negb _) eqn:L; [discriminate|].
  unfold try_except in H.
  destruct (bind _ _) as [x|e] eqn:B;
    [|destruct (existsb _ _); discriminate].
  injection H as ->.
  apply negb_false_iff, Z.eqb_eq in L.
  destruct (Py.split "." (String c s)) as [|s3 [|s2 [|s1 [|s0 [|]]]]];
    simpl in L; try lia.
  apply bind_Return in B as (bs & M & B). injection B as <-.
  apply mapM_Return in M.
  repeat match goal with
         | F : Forall2 _ _ _ |- _ => inversion F; subst; clear F
         end.
  repeat match goal with
         | E : _BaseV4._parse_octet _ = Return _ |- _ =>
             apply parse_octet_range in E
         end.
  rewrite from_bytes_4. lia.
Qed.

Lemma of_str_v4_inv address a :
  IPv4Address.of_str address = Return (IPv4Address.Build a) ->
  Py.contains "/" address = false /\ 0 <= a < 2 ^ 32.
Proof.
  unfold IPv4Address.of_str. intros H.
  destruct (Py.contains "/" address); [discriminate|].
  split; [reflexivity|].
  destruct (_BaseV4._ip_int_from_string address) as [n|] eqn:E;
    [|discriminate].
  injection H as <-. eapply ip_int_from_string_range; eassumption.
Qed.

Lemma of_int_v4 n :
  0 <= n < 2 ^ 32 -> IPv4Address.of_int n = Return (IPv4Address.Build n).
Proof.
  intros H. unfold IPv4Address.of_int, _check_int_address.
  change (_ALL_ONES (IPClass := _BaseV4.cls)) with (2 ^ 32 - 1).
  destruct (n <? 0) eqn:A; [lia|].
  destruct (n >? 2 ^ 32 - 1) eqn:B; [lia|]. reflexivity.
Qed.

Lemma bit_length_nonneg n : 0 <= Py.bit_length n.
Proof.
  unfold Py.bit_length. destruct (n =? 0); [lia|].
  pose proof (Z.log2_nonneg (Z.abs n)). lia.
Qed.

Lemma prefix_from_ip_int_range x p :
  _prefix_from_ip_int (cls := _BaseV4.cls) x = Return p -> 0 <= p <= 32.
Proof.
  unfold _prefix_from_ip_int. intros H.
  change (_max_prefixlen (IPClass := _BaseV4.cls)) with 32 in H.
  destruct (negb _); [discriminate|]. apply Return_inj in H. rewrite <- H.
  unfold _count_righthand_zero_bits.
  destruct (x =? 0); [lia|].
  pose proof (bit_length_nonneg (Z.land (Z.lnot x) (x - 1))). lia.
Qed.

Lemma prefix_from_prefix_string_range s p :
  _prefix_from_prefix_string (cls := _BaseV4.cls) s = Return p ->
  0 <= p <= 32.
Proof.
  unfold _prefix_from_prefix_string, _report_invalid_netmask. intros H.
  destruct (negb (Py.isascii s && Py.isdigit s)); [discriminate|].
  apply bind_Return in H as (n & _ & H).
  change (_max_prefixlen (IPClass := _BaseV4.cls)) with 32 in H.
  destruct (negb ((0 <=? n) && (n <=? 32))) eqn:R; [discriminate|].
  injection H as <-. apply negb_false_iff in R. lia.
Qed.

Lemma prefix_from_ip_string_range s p :
  _prefix_from_ip_string (cls := _BaseV4.cls) s = Return p -> 0 <= p <= 32.
Proof.
  unfold _prefix_from_ip_string. intros H.
  apply bind_Return in H as (x & _ & H).
  unfold try_except in H at 1.
  destruct (_prefix_from_ip_int x) as [q|e] eqn:E1.
  - injection H as <-. eapply prefix_from_ip_int_range; eassumption.
  - destruct (existsb _ _); [|discriminate].
    apply try_except_Return_raise in H.
    eapply prefix_from_ip_int_range; eassumption.
Qed.

(** A netmask argument that is accepted gives a prefix length in [0,32] and
    the mask of that length. *)
Lemma make_netmask_v4_inv arg netmask p :
  IPv4Network._make_netmask (MaskStr arg) = Return (netmask, p) ->
  0 <= p <= 32 /\ netmask = IPv4Address.Build (v4_mask p).
Proof.
  unfold IPv4Network._make_netmask. intros H.
  apply bind_Return in H as (q & Hq & H).
  apply bind_Return in H as (m & Hm & H).
  injection H as <- <-.
  assert (R : 0 <= q <= 32).
  { unfold try_except in Hq.
    destruct (_prefix_from_prefix_string arg) as [x|e] eqn:E.
    - injection Hq as <-. eapply prefix_from_prefix_string_range; eassumption.
    - destruct (existsb _ _); [|discriminate].
      eapply prefix_from_ip_string_range; eassumption. }
  split; [exact R|].
  fold (v4_mask q) in Hm. rewrite of_int_v4 in Hm.
  - now injection Hm as <-.
  - rewrite v4_mask_value by exact R.
    assert (0 < 2 ^ (32 - q)) by (apply Z.pow_pos_nonneg; lia).
    assert (2 ^ (32 - q) <= 2 ^ 32) by (apply Z.pow_le_mono_r; lia).
    lia.
Qed.

(** Every decimal prefix length in [0,32] is accepted. *)
Lemma make_netmask_v4_decimal p :
  0 <= p <= 32 ->
  IPv4Network._make_netmask (MaskStr (Py.str_int p))
  = Return (IPv4Address.Build (v4_mask p), p)
  /\ Py.contains "/" (Py.str_int p) = false.
Proof. intros H. each_prefix H; split; vm_compute; reflexivity. Qed.

(** ** The IPv4 analysis *)

Arguments v4_mask : simpl never.

(** The network and broadcast addresses as the code computes them. *)
Definition network_of (a p : Z) : Z := Z.land a (v4_mask p).

Definition broadcast_of (a p : Z) : Z :=
  Z.lor (network_of a p) (Z.lxor (v4_mask p) (2 ^ 32 - 1)).

(** [network.is_private] and [network.is_global] of the network from [n]
    to [b]. *)
Definition net_is_private (n b : Z) : bool :=
  existsb (fun priv_network =>
             IPv4Network.__contains__ priv_network (IPv4Address.Build n)
             && IPv4Network.__contains__ priv_network (IPv4Address.Build b))
          IPv4Network._constants._private_networks
  && forallb (fun network =>
                negb (IPv4Network.__contains__ network (IPv4Address.Build n))
                && negb (IPv4Network.__contains__ network (IPv4Address.Build b)))
             IPv4Network._constants._private_networks_exceptions.

Definition net_is_global (n b : Z) : bool :=
  negb (IPv4Network.__contains__ (IPv4Network.literal "100.64.0.0/10")
          (IPv4Address.Build n)
        && IPv4Network.__contains__ (IPv4Network.literal "100.64.0.0/10")
             (IPv4Address.Build b))
  && negb (net_is_private n b).

(** The dictionary [calculate_ipv4] returns for the address [a] with the
    prefix length [p]. *)
Definition ipv4_fields (a p : Z) : dict :=
  [ ("ipaddress", VStr (dotted a));
    ("network_address", VStr (dotted (network_of a p)));
    ("broadcast_address", VStr (dotted (broadcast_of a p)));
    ("host_count", VInt (broadcast_of a p - network_of a p + 1 - 2));
    ("is_private", VBool (net_is_private (network_of a p) (broadcast_of a p)));
    ("is_global", VBool (net_is_global (network_of a p) (broadcast_of a p)));
    ("is_network_address", VBool (network_of a p =? a));
    ("is_broadcast_address", VBool (broadcast_of a p =? a));
    ("reverse",
     VStr (_BaseV4._reverse_pointer (dotted a ++ "/" ++ Py.str_int p)));
    ("cidr_notation", VStr (dotted a ++ "/" ++ Py.str_int p));
    ("cisco_notation", VStr (dotted a ++ " " ++ dotted (v4_mask p)));
    ("ubuntu_subnet", VStr (dotted (network_of a p) ++ "/" ++ Py.str_int p)) ].

(** What [print_ipv4_info] and [print_ipv6_info] write. *)
Definition field_line (kv : string * value) : event :=
  Print (Py.ljust (fst kv) 20 ++ ": " ++ format_value (snd kv)).

Definition banner : string := Py.times "=" 42.

Definition rendered (title : string) (info : dict) : stdout :=
  ([Print banner; Print (Py.center title 42); Print banner]
   ++ map field_line info ++ [Print banner])%list.

Lemma print_items_spec info out :
  OutputFormatter.print_items info out
  = (Return tt, (out ++ map field_line info)%list).
Proof.
  revert out. induction info as [|[k v] info IH]; intros out; simpl.
  - unfold ret. now rewrite app_nil_r.
  - unfold bindIO, print. rewrite IH, <- app_assoc. reflexivity.
Qed.

Lemma print_ipv4_info_spec info out :
  OutputFormatter.print_ipv4_info info out
  = (Return tt, (out ++ rendered "IPv4 Address Information" info)%list).
Proof.
  unfold OutputFormatter.print_ipv4_info, bindIO, print.
  rewrite print_items_spec. unfold rendered, banner.
  rewrite <- !app_assoc. reflexivity.
Qed.

Lemma print_ipv6_info_spec info out :
  OutputFormatter.print_ipv6_info info out
  = (Return tt, (out ++ rendered "IPv6 Address Information" info)%list).
Proof.
  unfold OutputFormatter.print_ipv6_info, bindIO, print.
  rewrite print_items_spec. unfold rendered, banner.
  rewrite <- !app_assoc. reflexivity.
Qed.

Lemma network_of_eq a p :
  0 <= a < 2 ^ 32 -> 0 <= p <= 32 ->
  network_of a p = a - a mod 2 ^ (32 - p).
Proof. apply land_v4_mask. Qed.

Lemma broadcast_of_eq a p :
  0 <= a < 2 ^ 32 -> 0 <= p <= 32 ->
  broadcast_of a p = a - a mod 2 ^ (32 - p) + 2 ^ (32 - p) - 1.
Proof. apply lor_v4_hostmask. Qed.

Lemma network_of_range a p :
  0 <= a < 2 ^ 32 -> 0 <= p <= 32 -> 0 <= network_of a p < 2 ^ 32.
Proof.
  intros Ha Hp. rewrite network_of_eq by assumption.
  pose proof (network_bounds a p Ha Hp).
  assert (0 < 2 ^ (32 - p)) by (apply Z.pow_pos_nonneg; lia). lia.
Qed.

Lemma broadcast_of_range a p :
  0 <= a < 2 ^ 32 -> 0 <= p <= 32 -> 0 <= broadcast_of a p < 2 ^ 32.
Proof.
  intros Ha Hp. rewrite broadcast_of_eq by assumption.
  pose proof (network_bounds a p Ha Hp).
  assert (0 < 2 ^ (32 - p)) by (apply Z.pow_pos_nonneg; lia). lia.
Qed.

Lemma v4_mask_range p : 0 <= p <= 32 -> 0 <= v4_mask p < 2 ^ 32.
Proof.
  intros R. rewrite v4_mask_value by exact R.
  assert (0 < 2 ^ (32 - p)) by (apply Z.pow_pos_nonneg; lia).
  assert (2 ^ (32 - p) <= 2 ^ 32) by (apply Z.pow_le_mono_r; lia).
  lia.
Qed.

Lemma v4_hostmask_range p :
  0 <= p <= 32 -> 0 <= Z.lxor (v4_mask p) (2 ^ 32 - 1) < 2 ^ 32.
Proof.
  intros R. destruct (v4_hostmask p R) as [_ ->].
  assert (0 < 2 ^ (32 - p)) by (apply Z.pow_pos_nonneg; lia).
  assert (2 ^ (32 - p) <= 2 ^ 32) by (apply Z.pow_le_mono_r; lia).
  lia.
Qed.

(** The body of the second [try] of [process_address]: the title and the
    dictionary that are printed, or the exception that is reported. *)
Definition analyse (address prefix : string) : result (string * dict) :=
  match IPCalculator.get_address_version address with
  | 4 =>
      network <- IPv4Network.__init__ (ArgStr (address ++ "/" ++ prefix)) false ;;
      interface <- IPv4Interface.__init__ (address ++ "/" ++ prefix) ;;
      info <- IPCalculator.calculate_ipv4 network interface ;;
      Return ("IPv4 Address Information", info)
  | _ =>
      network <- IPv6Network.__init__ (ArgStr (address ++ "/" ++ prefix)) false ;;
      interface <- IPv6Interface.__init__ (address ++ "/" ++ prefix) ;;
      info <- IPCalculator.calculate_ipv6 network interface ;;
      Return ("IPv6 Address Information", info)
  end.

Definition error_line (message : string) : event :=
  Print ("Error: " ++ message).

Lemma issubclass_ValueError c : issubclass c ValueError = true.
Proof. reflexivity. Qed.

Lemma version_cases address :
  IPCalculator.get_address_version address = 4
  \/ IPCalculator.get_address_version address = 6
  \/ IPCalculator.get_address_version address = -1.
Proof.
  unfold IPCalculator.get_address_version.
  destruct (ip_address address) as [[?|?]|?]; auto.
Qed.

(** [process_address] on an input without exactly one slash. *)
Lemma process_address_malformed input out :
  List.length (Py.split "/" input) <> 2%nat ->
  IPAddressProcessor.process_address input out
  = (Return (-1),
     (out ++ [error_line "Invalid input format. Please use 'address/prefix'."])%list).
Proof.
  intros H. unfold IPAddressProcessor.process_address.
  unfold bindIO, try_exceptIO, lift, ret, OutputFormatter.print_error, print.
  destruct (Py.split "/" input) as [|x [|y [|z l]]]; simpl in *;
    try reflexivity.
  contradiction.
Qed.

(** [process_address] on an input whose address part is no address. *)
Lemma process_address_no_address input address prefix out :
  Py.split "/" input = [address; prefix] ->
  IPCalculator.get_address_version address = -1 ->
  IPAddressProcessor.process_address input out
  = (Return (-1), (out ++ [error_line "Invalid address format."])%list).
Proof.
  intros Hs Hv. unfold IPAddressProcessor.process_address.
  unfold bindIO at 1. unfold try_exceptIO, bindIO at 1, lift, ret.
  rewrite Hs. cbn [unpack2]. rewrite Hv. reflexivity.
Qed.

(** [process_address] on an input whose address part is an address. *)
Lemma process_address_analysed input address prefix out :
  Py.split "/" input = [address; prefix] ->
  IPCalculator.get_address_version address <> -1 ->
  IPAddressProcessor.process_address input out
  = match analyse address prefix with
    | Return (title, info) => (Return 0, (out ++ rendered title info)%list)
    | Raise e =>
        (Return (-1),
         (out ++ [error_line ("Invalid network specification: " ++ str_exn e)])%list)
    end.
Proof.
  intros Hs Hv. unfold IPAddressProcessor.process_address, analyse.
  unfold bindIO at 1. unfold try_exceptIO, bindIO at 1, lift, ret.
  rewrite Hs. cbn [unpack2].
  destruct (version_cases address) as [V|[V|V]]; [| |contradiction];
    rewrite V; cbn [Z.eqb Pos.eqb];
    unfold bindIO, try_exceptIO, OutputFormatter.print_error, print.
  - destruct (IPv4Network.__init__ _ _) as [network|e]; [|reflexivity].
    destruct (IPv4Interface.__init__ _) as [interface|e]; [|reflexivity].
    cbn [bind].
    destruct (IPCalculator.calculate_ipv4 _ _) as [info|e]; [|reflexivity].
    cbn [bind]. rewrite print_ipv4_info_spec. reflexivity.
  - destruct (IPv6Network.__init__ _ _) as [network|e]; [|reflexivity].
    destruct (IPv6Interface.__init__ _) as [interface|e]; [|reflexivity].
    cbn [bind].
    destruct (IPCalculator.calculate_ipv6 _ _) as [info|e]; [|reflexivity].
    cbn [bind]. rewrite print_ipv6_info_spec. reflexivity.
Qed.

Section ValidIPv4.

(** An input [address/prefix] that the library accepts as IPv4: the address
    parses to [a], the part after the slash to the prefix length [p]. *)
Variables (address prefix : string) (a p : Z) (netmask : IPv4Address.t).
Hypothesis Haddress :
  IPv4Address.of_str address = Return (IPv4Address.Build a).
Hypothesis Hprefix :
  IPv4Network._make_netmask (MaskStr prefix) = Return (netmask, p).
Hypothesis Hslash : Py.contains "/" prefix = false.

Let network : IPv4Network.t :=
  IPv4Network.Build (IPv4Address.Build (network_of a p))
                    (IPv4Address.Build (v4_mask p)) p.

Let interface : IPv4Interface.t :=
  IPv4Interface.Build a network (IPv4Address.Build (v4_mask p)) p.

Lemma valid_address : Py.contains "/" address = false /\ 0 <= a < 2 ^ 32.
Proof. exact (of_str_v4_inv _ _ Haddress). Qed.

Lemma valid_prefix : 0 <= p <= 32 /\ netmask = IPv4Address.Build (v4_mask p).
Proof. exact (make_netmask_v4_inv _ _ _ Hprefix). Qed.

Lemma valid_split : Py.split "/" (address ++ "/" ++ prefix) = [address; prefix].
Proof. apply split_once; [apply valid_address | exact Hslash]. Qed.

Lemma valid_split_addr_prefix :
  _split_addr_prefix (cls := _BaseV4.cls) (ArgStr (address ++ "/" ++ prefix))
  = Return (address, MaskStr prefix).
Proof.
  unfold _split_addr_prefix, _split_optional_netmask.
  rewrite valid_split. reflexivity.
Qed.

Lemma valid_version : IPCalculator.get_address_version address = 4.
Proof.
  unfold IPCalculator.get_address_version, ip_address.
  rewrite Haddress. reflexivity.
Qed.

Lemma valid_network :
  IPv4Network.__init__ (ArgStr (address ++ "/" ++ prefix)) false
  = Return network
  /\ IPv4Network.__init__ (ArgTuple address (MaskStr prefix)) false
     = Return network.
Proof.
  destruct valid_address as [_ Ha]. destruct valid_prefix as [Hp Hm].
  assert (T : IPv4Network.__init__ (ArgTuple address (MaskStr prefix)) false
              = Return network).
  { unfold IPv4Network.__init__, _split_addr_prefix.
    cbn [bind]. rewrite Haddress. cbn [bind]. rewrite Hprefix, Hm.
    cbn [bind IPv4Address.__int__ IPv4Address._ip].
    fold (network_of a p).
    destruct (negb (network_of a p =? a)) eqn:E.
    - rewrite of_int_v4 by (apply network_of_range; assumption). reflexivity.
    - apply negb_false_iff, Z.eqb_eq in E. unfold network. now rewrite E. }
  split; [|exact T].
  rewrite <- T. unfold IPv4Network.__init__.
  rewrite valid_split_addr_prefix. reflexivity.
Qed.

Lemma valid_interface :
  IPv4Interface.__init__ (address ++ "/" ++ prefix) = Return interface.
Proof.
  unfold IPv4Interface.__init__.
  rewrite valid_split_addr_prefix. cbn [bind].
  rewrite Haddress. cbn [bind].
  rewrite (proj2 valid_network). reflexivity.
Qed.

Lemma valid_broadcast :
  IPv4Network.broadcast_address network
  = Return (IPv4Address.Build (broadcast_of a p)).
Proof.
  destruct valid_address as [_ Ha]. destruct valid_prefix as [Hp _].
  unfold IPv4Network.broadcast_address, IPv4Network.hostmask, network.
  cbn [IPv4Network.netmask IPv4Network.network_address IPv4Address.__int__
       IPv4Address._ip].
  change (_ALL_ONES (IPClass := _BaseV4.cls)) with (2 ^ 32 - 1).
  rewrite of_int_v4 by (apply v4_hostmask_range; assumption).
  cbn [bind IPv4Address._ip]. fold (broadcast_of a p).
  apply of_int_v4, broadcast_of_range; assumption.
Qed.

Lemma valid_calculate :
  IPCalculator.calculate_ipv4 network interface = Return (ipv4_fields a p).
Proof.
  destruct valid_address as [_ Ha].
  unfold IPCalculator.calculate_ipv4, IPv4Interface.ip,
    IPv4Network.num_addresses, IPv4Network.is_global, IPv4Network.is_private.
  rewrite valid_broadcast.
  unfold interface at 1. cbn [IPv4Interface._ip].
  rewrite of_int_v4 by exact Ha.
  reflexivity.
Qed.

(** The input is accepted: the analysis is printed and the status is 0. *)
Lemma valid_analyse :
  analyse address prefix
  = Return ("IPv4 Address Information", ipv4_fields a p).
Proof.
  unfold analyse. rewrite valid_version, (proj1 valid_network).
  cbn [bind]. rewrite valid_interface. cbn [bind].
  rewrite valid_calculate. reflexivity.
Qed.

(** The input is accepted: the analysis is printed and the status is 0. *)
Lemma valid_process out :
  IPAddressProcessor.process_address (address ++ "/" ++ prefix) out
  = (Return 0,
     (out ++ rendered "IPv4 Address Information" (ipv4_fields a p))%list).
Proof.
  rewrite (process_address_analysed _ _ _ out valid_split).
  - rewrite valid_analyse. reflexivity.
  - rewrite valid_version. discriminate.
Qed.

End ValidIPv4.

(** Every dotted quad with a decimal prefix length in [0,32] is such an
    input. *)
Lemma canonical_process a p out :
  0 <= a < 2 ^ 32 -> 0 <= p <= 32 ->
  IPAddressProcessor.process_address (dotted a ++ "/" ++ Py.str_int p) out
  = (Return 0,
     (out ++ rendered "IPv4 Address Information" (ipv4_fields a p))%list).
Proof.
  intros Ha Hp. destruct (make_netmask_v4_decimal p Hp) as [M S].
  exact (valid_process _ _ _ _ _ (of_str_dotted a Ha) M S out).
Qed.

(** ** Network, broadcast and host count (C1, C3, C6) *)

Lemma dotted_inj x y :
  0 <= x < 2 ^ 32 -> 0 <= y < 2 ^ 32 -> dotted x = dotted y -> x = y.
Proof.
  intros Hx Hy E.
  pose proof (ip_int_from_dotted x Hx) as Px.
  rewrite E, (ip_int_from_dotted y Hy) in Px.
  now apply Return_inj in Px.
Qed.

(** The number of addresses of the network is [2^(32-p)], so the code's
    host count is [2^(32-p) - 2] for every prefix length, 32 included. *)
Lemma host_count_formula a p :
  0 <= a < 2 ^ 32 -> 0 <= p <= 32 ->
  get "host_count" (ipv4_fields a p) = Some (VInt (2 ^ (32 - p) - 2)).
Proof.
  intros Ha Hp. cbn [get ipv4_fields String.eqb Ascii.eqb Bool.eqb].
  rewrite broadcast_of_eq, network_of_eq by assumption.
  do 2 f_equal. lia.
Qed.

(** C1.  At [8.8.8.8/32] the code's host count is [-1], where the claim
    says 0: [num_addresses] is 1 and 2 is subtracted without a clamp.
    The analysis succeeds and prints that value. *)
Theorem C1_host_count_slash32 :
  analyse "8.8.8.8" "32"
  = Return ("IPv4 Address Information", ipv4_fields 134744072 32)
  /\ get "host_count" (ipv4_fields 134744072 32) = Some (VInt (-1))
  /\ In (Print "host_count          : -1")
        (snd (IPAddressProcessor.process_address "8.8.8.8/32" [])).
Proof.
  split; [vm_compute; reflexivity|].
  split; [vm_compute; reflexivity|].
  vm_compute. tauto.
Qed.

(** For every prefix length up to 31 the claimed values hold: [2^(32-p)-2],
    which is 0 at 31. *)
Lemma host_count_upto_31 address prefix a p netmask :
  IPv4Address.of_str address = Return (IPv4Address.Build a) ->
  IPv4Network._make_netmask (MaskStr prefix) = Return (netmask, p) ->
  Py.contains "/" prefix = false ->
  exists info,
    analyse address prefix = Return ("IPv4 Address Information", info)
    /\ get "host_count" info = Some (VInt (2 ^ (32 - p) - 2))
    /\ (p = 31 -> get "host_count" info = Some (VInt 0))
    /\ (p = 32 -> get "host_count" info = Some (VInt (-1))).
Proof.
  intros Ha Hp Hs. exists (ipv4_fields a p).
  destruct (valid_address _ _ Ha) as [_ Ra].
  destruct (valid_prefix _ _ _ Hp) as [Rp _].
  split; [eapply valid_analyse; eassumption|].
  rewrite host_count_formula by assumption.
  repeat split; intros ->; reflexivity.
Qed.

(** C3.  Every dotted quad with a prefix length in [0,32] is accepted,
    host bits set or not; the network address printed is the address AND
    the mask of [p] leading ones, the broadcast address is the network
    address OR the 32-bit complement of that mask. *)
Theorem C3_network_and_broadcast a p out :
  0 <= a < 2 ^ 32 -> 0 <= p <= 32 ->
  exists info,
    analyse (dotted a) (Py.str_int p)
    = Return ("IPv4 Address Information", info)
    /\ IPAddressProcessor.process_address (dotted a ++ "/" ++ Py.str_int p) out
       = (Return 0, (out ++ rendered "IPv4 Address Information" info)%list)
    /\ get "network_address" info
       = Some (VStr (dotted (Z.land a (mask32 p))))
    /\ get "broadcast_address" info
       = Some (VStr (dotted (Z.lor (Z.land a (mask32 p))
                                   (not32 (mask32 p))))).
Proof.
  intros Ha Hp. exists (ipv4_fields a p).
  destruct (make_netmask_v4_decimal p Hp) as [M S].
  pose proof (of_str_dotted a Ha) as A.
  split; [exact (valid_analyse _ _ _ _ _ A M S)|].
  split; [exact (valid_process _ _ _ _ _ A M S out)|].
  cbn [get ipv4_fields String.eqb Ascii.eqb Bool.eqb].
  unfold broadcast_of, network_of.
  destruct (v4_hostmask p Hp) as [-> _].
  rewrite (v4_mask_spec p Hp). split; reflexivity.
Qed.

Lemma C3_witness :
  (0 <= 167772165 < 2 ^ 32) /\ (0 <= 24 <= 32)
  /\ exists info,
       analyse "10.0.0.5" "24" = Return ("IPv4 Address Information", info)
       /\ IPAddressProcessor.process_address "10.0.0.5/24" []
          = (Return 0, ([] ++ rendered "IPv4 Address Information" info)%list)
       /\ get "network_address" info = Some (VStr "10.0.0.0")
       /\ get "broadcast_address" info = Some (VStr "10.0.0.255").
Proof.
  split; [lia|]. split; [lia|].
  exact (C3_network_and_broadcast 167772165 24 [] ltac:(lia) ltac:(lia)).
Defined.

(** C6.  For every accepted IPv4 input, [is_network_address] is true
    exactly when the address equals the computed network address [n],
    the address AND the mask, and [is_broadcast_address] exactly when it
    equals the computed broadcast address [b], the network address OR
    the complement of the mask.  [n] and [b] are what the fields
    [network_address] and [broadcast_address] show, and equality of the
    addresses is equality of the printed fields. *)
Theorem C6_network_and_broadcast_flags address prefix a p netmask :
  IPv4Address.of_str address = Return (IPv4Address.Build a) ->
  IPv4Network._make_netmask (MaskStr prefix) = Return (netmask, p) ->
  Py.contains "/" prefix = false ->
  exists info n b,
    analyse address prefix = Return ("IPv4 Address Information", info)
    /\ n = Z.land a (mask32 p)
    /\ b = Z.lor n (not32 (mask32 p))
    /\ get "ipaddress" info = Some (VStr (dotted a))
    /\ get "network_address" info = Some (VStr (dotted n))
    /\ get "broadcast_address" info = Some (VStr (dotted b))
    /\ get "is_network_address" info = Some (VBool (n =? a))
    /\ get "is_broadcast_address" info = Some (VBool (b =? a))
    /\ ((n =? a) = true <-> dotted a = dotted n)
    /\ ((b =? a) = true <-> dotted a = dotted b).
Proof.
  intros Ha Hp Hs.
  exists (ipv4_fields a p), (network_of a p), (broadcast_of a p).
  destruct (valid_address _ _ Ha) as [_ Ra].
  destruct (valid_prefix _ _ _ Hp) as [Rp _].
  split; [eapply valid_analyse; eassumption|].
  split; [unfold network_of; now rewrite (v4_mask_spec p Rp)|].
  split.
  { unfold broadcast_of. now destruct (v4_hostmask p Rp) as [-> _]. }
  do 5 (split; [reflexivity|]).
  pose proof (network_of_range a p Ra Rp).
  pose proof (broadcast_of_range a p Ra Rp).
  split; rewrite Z.eqb_eq; split;
    try (intros ->; reflexivity);
    intros E; symmetry; eapply dotted_inj; eassumption.
Qed.

Lemma C6_witness :
  IPv4Address.of_str "192.168.1.0"
  = Return (IPv4Address.Build 3232235776)
  /\ IPv4Network._make_netmask (MaskStr "24")
     = Return (IPv4Address.Build 4294967040, 24)
  /\ Py.contains "/" "24" = false
  /\ exists info n b,
       analyse "192.168.1.0" "24" = Return ("IPv4 Address Information", info)
       /\ n = Z.land 3232235776 (mask32 24)
       /\ b = Z.lor n (not32 (mask32 24))
       /\ get "ipaddress" info = Some (VStr (dotted 3232235776))
       /\ get "network_address" info = Some (VStr (dotted n))
       /\ get "broadcast_address" info = Some (VStr (dotted b))
       /\ get "is_network_address" info = Some (VBool (n =? 3232235776))
       /\ get "is_broadcast_address" info = Some (VBool (b =? 3232235776))
       /\ ((n =? 3232235776) = true <-> dotted 3232235776 = dotted n)
       /\ ((b =? 3232235776) = true <-> dotted 3232235776 = dotted b).
Proof.
  split; [vm_compute; reflexivity|].
  split; [vm_compute; reflexivity|].
  split; [reflexivity|].
  apply (C6_network_and_broadcast_flags "192.168.1.0" "24" 3232235776 24
           (IPv4Address.Build 4294967040));
    vm_compute; reflexivity.
Defined.

(** ** The reverse pointer (C2) *)

(** Reading an address back from an [in-addr.arpa] name: the four labels
    before the suffix, reversed, are parsed as a dotted quad. *)
Definition address_of_reverse_pointer (name : string) : option Z :=
  match Py.split "." name with
  | [d; c; b; a; l1; l2] =>
      if String.eqb l1 "in-addr" && String.eqb l2 "arpa"
      then
        match _BaseV4._ip_int_from_string (Py.join "." [a; b; c; d]) with
        | Return n => Some n
        | Raise _ => None
        end
      else None
  | _ => None
  end.

Lemma prefix_decimal_no_dot p :
  0 <= p <= 32 -> Py.contains "." (Py.str_int p) = false.
Proof. intros H. each_prefix H; reflexivity. Qed.

(** The pointer of the address itself does round-trip. *)
Lemma address_pointer_roundtrip a :
  0 <= a < 2 ^ 32 ->
  address_of_reverse_pointer
    (IPv4Address.reverse_pointer (IPv4Address.Build a)) = Some a.
Proof.
  intros Ha.
  unfold IPv4Address.reverse_pointer, IPv4Address.__str__,
    _BaseV4._reverse_pointer, address_of_reverse_pointer.
  cbn [IPv4Address._ip]. fold (dotted a).
  rewrite dotted_split, to_bytes_4. cbn [map rev app Py.join String.concat].
  destruct (octet_facts _ (octet_range (a / 256 / 256 / 256))) as (_ & D3 & _).
  destruct (octet_facts _ (octet_range (a / 256 / 256))) as (_ & D2 & _).
  destruct (octet_facts _ (octet_range (a / 256))) as (_ & D1 & _).
  destruct (octet_facts _ (octet_range a)) as (_ & D0 & _).
  right_assoc.
  rewrite (split_app _ _ _ D0), (split_app _ _ _ D1), (split_app _ _ _ D2),
    (split_app _ _ _ D3).
  change (Py.split "." "in-addr.arpa") with ["in-addr"; "arpa"].
  cbn [String.eqb Ascii.eqb Bool.eqb andb].
  pose proof (ip_int_from_dotted a Ha) as P.
  rewrite dotted_unfold in P. cbn [Py.join String.concat].
  rewrite P. reflexivity.
Qed.

(** The [reverse] field of every accepted IPv4 input: the first label is
    the last octet followed by a slash and the prefix length. *)
Lemma reverse_field_shape a p :
  0 <= p <= 32 ->
  get "reverse" (ipv4_fields a p)
  = Some (VStr
            ((Py.str_int (a mod 256) ++ "/" ++ Py.str_int p) ++ "."
             ++ Py.str_int (a / 256 mod 256) ++ "."
             ++ Py.str_int (a / 256 / 256 mod 256) ++ "."
             ++ Py.str_int (a / 256 / 256 / 256 mod 256)
             ++ ".in-addr.arpa")).
Proof.
  intros Hp. cbn [get ipv4_fields String.eqb Ascii.eqb Bool.eqb].
  unfold _BaseV4._reverse_pointer. rewrite dotted_unfold.
  destruct (octet_facts _ (octet_range (a / 256 / 256 / 256))) as (_ & D3 & _).
  destruct (octet_facts _ (octet_range (a / 256 / 256))) as (_ & D2 & _).
  destruct (octet_facts _ (octet_range (a / 256))) as (_ & D1 & _).
  destruct (octet_facts _ (octet_range a)) as (_ & D0 & _).
  right_assoc.
  rewrite (split_app _ _ _ D3), (split_app _ _ _ D2), (split_app _ _ _ D1).
  rewrite split_without.
  - cbn [rev app Py.join String.concat]. right_assoc.
    reflexivity.
  - rewrite contains_app, D0. cbn [Py.contains Ascii.eqb Bool.eqb orb].
    apply prefix_decimal_no_dot, Hp.
Qed.

(** C2.  At [192.168.1.1/24] the [reverse] field is
    [1/24.1.168.192.in-addr.arpa]: [interface.reverse_pointer] reverses the
    labels of [str(interface)], which ends in [/24].  No address can be
    read back from it, while the pointer of the address alone is
    [1.1.168.192.in-addr.arpa] and reads back.  At [2001:db8::1/64] the
    field is built from the exploded form of the network, so it starts
    with the labels [4.6./] and names [2001:db8::], not the address. *)
Theorem C2_reverse_pointer_has_prefix :
  (exists info,
     analyse "192.168.1.1" "24" = Return ("IPv4 Address Information", info)
     /\ get "reverse" info = Some (VStr "1/24.1.168.192.in-addr.arpa")
     /\ address_of_reverse_pointer "1/24.1.168.192.in-addr.arpa" = None)
  /\ IPv4Address.reverse_pointer (IPv4Address.Build 3232235777)
     = "1.1.168.192.in-addr.arpa"
  /\ address_of_reverse_pointer "1.1.168.192.in-addr.arpa" = Some 3232235777
  /\ (exists info,
        analyse "2001:db8::1" "64" = Return ("IPv6 Address Information", info)
        /\ get "reverse" info
           = Some (VStr "4.6./.0.0.0.0.0.0.0.0.0.0.0.0.0.0.0.0.0.0.0.0.0.0.0.0.8.b.d.0.1.0.0.2.ip6.arpa")).
Proof.
  split.
  { eexists. split; [vm_compute; reflexivity|].
    split; vm_compute; reflexivity. }
  split; [vm_compute; reflexivity|].
  split; [vm_compute; reflexivity|].
  eexists. split; vm_compute; reflexivity.
Qed.

(** ** Classification (C4) *)

(** [quad a b c d] is the address [a.b.c.d]. *)
Definition quad (a b c d : Z) : Z := ((a * 256 + b) * 256 + c) * 256 + d.

(** Membership in a network is membership in its block of addresses. *)
Lemma contains_block base r x :
  0 <= r <= 32 -> base mod 2 ^ (32 - r) = 0 -> 0 <= x < 2 ^ 32 ->
  IPv4Network.__contains__
    (IPv4Network.Build (IPv4Address.Build base) (IPv4Address.Build (v4_mask r)) r)
    (IPv4Address.Build x) = true
  <-> base <= x < base + 2 ^ (32 - r).
Proof.
  intros Hr Hb Hx. unfold IPv4Network.__contains__.
  cbn [IPv4Network.netmask IPv4Network.network_address IPv4Address._ip].
  rewrite Z.eqb_eq, land_v4_mask by assumption.
  assert (K : 0 < 2 ^ (32 - r)) by (apply Z.pow_pos_nonneg; lia).
  pose proof (Z.mod_pos_bound x _ K) as M.
  split; [lia|]. intros R.
  apply Z.mod_divide in Hb as [c Hc]; [|lia].
  assert (E : x mod 2 ^ (32 - r) = x - base).
  { symmetry. apply (Z.mod_unique x _ c); [lia|]. rewrite Hc. ring. }
  lia.
Qed.

(** The block of a longer prefix lies inside the aligned block it starts
    in. *)
Lemma network_inside_block a p base r :
  0 <= r <= p -> p <= 32 -> base mod 2 ^ (32 - r) = 0 ->
  0 <= a < 2 ^ 32 -> base <= a < base + 2 ^ (32 - r) ->
  base <= network_of a p
  /\ network_of a p <= broadcast_of a p
  /\ broadcast_of a p < base + 2 ^ (32 - r).
Proof.
  intros Hr Hp Hb Ha R.
  rewrite broadcast_of_eq, network_of_eq by lia.
  assert (K : 0 < 2 ^ (32 - p)) by (apply Z.pow_pos_nonneg; lia).
  assert (S : 2 ^ (32 - r) = 2 ^ (p - r) * 2 ^ (32 - p)).
  { rewrite <- Z.pow_add_r by lia. f_equal. lia. }
  assert (P : 0 < 2 ^ (p - r)) by (apply Z.pow_pos_nonneg; lia).
  apply Z.mod_divide in Hb as [c Hc];
    [|assert (0 < 2 ^ (32 - r)) by (apply Z.pow_pos_nonneg; lia); lia].
  rewrite S in *.
  set (k := 2 ^ (32 - p)) in *. set (m := 2 ^ (p - r)) in *.
  pose proof (Z.mod_pos_bound a k K) as M.
  pose proof (Z.div_mod a k ltac:(lia)) as D.
  set (q := a / k) in *. set (t := a mod k) in *.
  assert (Q1 : c * m <= q) by nia.
  assert (Q2 : q < c * m + m) by nia.
  repeat split; nia.
Qed.

(** The ranges the claim lists, as blocks [(base, prefix length)]. *)
Definition claimed_private_ranges : list (Z * Z) :=
  [ (quad 10 0 0 0, 8); (quad 172 16 0 0, 12); (quad 192 168 0 0, 16);
    (quad 127 0 0 0, 8); (quad 169 254 0 0, 16) ].

Definition block_network (range : Z * Z) : IPv4Network.t :=
  IPv4Network.Build (IPv4Address.Build (fst range))
                    (IPv4Address.Build (v4_mask (snd range))) (snd range).

Lemma claimed_ranges_in_table range :
  In range claimed_private_ranges ->
  In (block_network range) IPv4Network._constants._private_networks
  /\ 0 <= snd range <= 32
  /\ fst range mod 2 ^ (32 - snd range) = 0
  /\ 0 <= fst range /\ fst range + 2 ^ (32 - snd range) <= 2 ^ 32
  /\ (fst range + 2 ^ (32 - snd range) <= quad 192 0 0 9
      \/ quad 192 0 0 10 < fst range).
Proof.
  intros H. cbv [claimed_private_ranges In] in H.
  repeat (destruct H as [<- | H]); [.. | contradiction];
    (split; [vm_compute; tauto|]); vm_compute;
    repeat split; try easy; first [left; easy | right; easy].
Qed.

(** A network inside one of the listed blocks is private. *)
Lemma net_is_private_inside range n b :
  In range claimed_private_ranges ->
  fst range <= n -> n <= b -> b < fst range + 2 ^ (32 - snd range) ->
  net_is_private n b = true.
Proof.
  intros Hin Hn Hnb Hb.
  destruct (claimed_ranges_in_table range Hin) as (T & Hr & Hm & H0 & H1 & Hq).
  assert (Q9 : quad 192 0 0 9 = 3221225481) by reflexivity.
  assert (Q10 : quad 192 0 0 10 = 3221225482) by reflexivity.
  assert (Rn : 0 <= n < 2 ^ 32) by lia.
  assert (Rb : 0 <= b < 2 ^ 32) by lia.
  unfold net_is_private. apply andb_true_iff. split.
  - apply existsb_exists. exists (block_network range). split; [exact T|].
    apply andb_true_iff.
    split; apply contains_block; try assumption; lia.
  - change IPv4Network._constants._private_networks_exceptions
      with [IPv4Network.Build (IPv4Address.Build 3221225481)
              (IPv4Address.Build (v4_mask 32)) 32;
            IPv4Network.Build (IPv4Address.Build 3221225482)
              (IPv4Address.Build (v4_mask 32)) 32].
    cbn [forallb].
    assert (X : forall base x, 0 <= x < 2 ^ 32 -> x <> base ->
                IPv4Network.__contains__
                  (IPv4Network.Build (IPv4Address.Build base)
                     (IPv4Address.Build (v4_mask 32)) 32)
                  (IPv4Address.Build x) = false).
    { intros base x Hx Hbase. unfold IPv4Network.__contains__.
      cbn [IPv4Network.netmask IPv4Network.network_address IPv4Address._ip].
      rewrite land_v4_mask by lia. apply Z.eqb_neq.
      change (2 ^ (32 - 32)) with 1. rewrite Z.mod_1_r. lia. }
    rewrite !X by lia. reflexivity.
Qed.

(** C4, the counterexample.  [10.0.0.5] lies in [10.0.0.0/8], yet with the
    prefix length 7 the field [is_private] is false (and [is_global]
    true): the flags are those of the network [10.0.0.0/7], whose last
    address [11.255.255.255] is outside every private range. *)
Lemma C4_counterexample :
  quad 10 0 0 0 <= quad 10 0 0 5 < quad 10 0 0 0 + 2 ^ (32 - 8)
  /\ exists info,
       analyse "10.0.0.5" "7" = Return ("IPv4 Address Information", info)
       /\ get "ipaddress" info = Some (VStr "10.0.0.5")
       /\ get "broadcast_address" info = Some (VStr "11.255.255.255")
       /\ get "is_private" info = Some (VBool false)
       /\ get "is_global" info = Some (VBool true).
Proof.
  split; [vm_compute; split; easy|].
  eexists. split; [vm_compute; reflexivity|].
  repeat split; vm_compute; reflexivity.
Qed.

(** Every address inside one of the five listed ranges, written as a
    dotted quad with a prefix length that is at least the one of the
    range, is accepted and has [is_private] true. *)
Lemma listed_ranges_private range a p :
  In range claimed_private_ranges ->
  fst range <= a < fst range + 2 ^ (32 - snd range) ->
  snd range <= p <= 32 ->
  exists info,
    analyse (dotted a) (Py.str_int p)
    = Return ("IPv4 Address Information", info)
    /\ get "is_private" info
       = Some (VBool (net_is_private (network_of a p) (broadcast_of a p)))
    /\ get "is_private" info = Some (VBool true).
Proof.
  intros Hin Ha Hp.
  destruct (claimed_ranges_in_table range Hin) as (_ & Hr & Hm & H0 & H1 & _).
  assert (Ra : 0 <= a < 2 ^ 32) by lia.
  assert (Rp : 0 <= p <= 32) by lia.
  exists (ipv4_fields a p).
  destruct (make_netmask_v4_decimal p Rp) as [M S].
  split; [exact (valid_analyse _ _ _ _ _ (of_str_dotted a Ra) M S)|].
  split; [reflexivity|].
  cbn [get ipv4_fields String.eqb Ascii.eqb Bool.eqb].
  destruct (network_inside_block a p (fst range) (snd range))
    as (N1 & N2 & N3); try assumption; try lia.
  now rewrite (net_is_private_inside range _ _ Hin N1 N2 N3).
Qed.

(** ** Notations (C5) *)

Definition decimal_digits : list ascii :=
  ["0"; "1"; "2"; "3"; "4"; "5"; "6"; "7"; "8"; "9"]%char.

Lemma ascii_digit_cases c :
  (Py.ord c <? 128) && Py.isdigit_char c = true -> In c decimal_digits.
Proof.
  destruct c as [[] [] [] [] [] [] [] []]; vm_compute; intros H;
    first [discriminate H | tauto].
Qed.

(** The strings of one, two and three decimal digits. *)
Definition digits1 : list string :=
  map (fun c => String c EmptyString) decimal_digits.
Definition digits2 : list string :=
  flat_map (fun c => map (String c) digits1) decimal_digits.
Definition digits3 : list string :=
  flat_map (fun c => map (String c) digits2) decimal_digits.

Definition octet_canonical (s : string) : bool :=
  match _BaseV4._parse_octet s with
  | Return o => String.eqb (Py.str_int o) s
  | Raise _ => true
  end.

Lemma digit_strings_canonical :
  forallb octet_canonical (digits1 ++ digits2 ++ digits3) = true.
Proof. vm_compute. reflexivity. Qed.

(** An octet that parses is written the way [str] writes its value. *)
Lemma parse_octet_canonical s o :
  _BaseV4._parse_octet s = Return o -> s = Py.str_int o.
Proof.
  intros H.
  assert (I : In s (digits1 ++ digits2 ++ digits3)%list).
  { unfold _BaseV4._parse_octet in H.
    destruct s as [|c1 s]; [discriminate|].
    destruct (negb _) eqn:D; [discriminate|].
    apply negb_false_iff, andb_true_iff in D as [A D].
    destruct (Py.len _ >? 3) eqn:L; [discriminate|].
    unfold Py.isascii, Py.isdigit in A, D. cbn [Py.all] in A, D.
    apply andb_true_iff in A as [A1 A], D as [D1 D].
    pose proof (ascii_digit_cases c1 ltac:(now rewrite A1, D1)) as I1.
    rewrite !in_app_iff.
    destruct s as [|c2 s].
    { left. apply in_map_iff. eauto. }
    cbn [Py.all] in A, D.
    apply andb_true_iff in A as [A2 A], D as [D2 D].
    pose proof (ascii_digit_cases c2 ltac:(now rewrite A2, D2)) as I2.
    assert (J2 : In (String c2 EmptyString) digits1)
      by (apply in_map_iff; eauto).
    destruct s as [|c3 s].
    { right; left. apply in_flat_map. exists c1. split; [exact I1|].
      apply in_map_iff. eauto. }
    cbn [Py.all] in A, D.
    apply andb_true_iff in A as [A3 A], D as [D3 D].
    pose proof (ascii_digit_cases c3 ltac:(now rewrite A3, D3)) as I3.
    destruct s as [|c4 s].
    { right; right. apply in_flat_map. exists c1. split; [exact I1|].
      apply in_map_iff. exists (String c2 (String c3 EmptyString)).
      split; [reflexivity|].
      apply in_flat_map. exists c2. split; [exact I2|].
      apply in_map_iff. exists (String c3 EmptyString).
      split; [reflexivity|]. apply in_map_iff. eauto. }
    exfalso. clear H. unfold Py.len in L. cbn [String.length] in L.
    rewrite Z.gtb_ltb in L. apply Z.ltb_ge in L. lia. }
  pose proof digit_strings_canonical as C.
  rewrite forallb_forall in C. specialize (C s I).
  unfold octet_canonical in C. rewrite H in C.
  apply String.eqb_eq in C. now symmetry.
Qed.

Lemma to_from_bytes_4 o3 o2 o1 o0 :
  0 <= o3 <= 255 -> 0 <= o2 <= 255 -> 0 <= o1 <= 255 -> 0 <= o0 <= 255 ->
  Py.to_bytes 4 (Py.from_bytes [o3; o2; o1; o0]) = [o3; o2; o1; o0].
Proof.
  intros H3 H2 H1 H0. rewrite to_bytes_4, from_bytes_4.
  assert (E0 : (((o3 * 256 + o2) * 256 + o1) * 256 + o0) / 256
               = (o3 * 256 + o2) * 256 + o1).
  { symmetry. apply (Z.div_unique _ _ _ o0); lia. }
  assert (E1 : ((o3 * 256 + o2) * 256 + o1) / 256 = o3 * 256 + o2).
  { symmetry. apply (Z.div_unique _ _ _ o1); lia. }
  assert (E2 : (o3 * 256 + o2) / 256 = o3).
  { symmetry. apply (Z.div_unique _ _ _ o2); lia. }
  rewrite E0, E1, E2.
  repeat f_equal; symmetry.
  - apply (Z.mod_unique _ _ 0); lia.
  - apply (Z.mod_unique _ _ o3); lia.
  - apply (Z.mod_unique _ _ (o3 * 256 + o2)); lia.
  - apply (Z.mod_unique _ _ ((o3 * 256 + o2) * 256 + o1)); lia.
Qed.

(** An address string that is accepted as IPv4 is the dotted quad that
    [str] prints for its value: the address fields show the input as it
    was typed. *)
Lemma of_str_canonical address a :
  IPv4Address.of_str address = Return (IPv4Address.Build a) ->
  address = dotted a.
Proof.
  unfold IPv4Address.of_str. intros H.
  destruct (Py.contains "/" address); [discriminate|].
  apply bind_Return in H as (n & H & E). apply Return_inj in E.
  injection E as ->.
  unfold _BaseV4._ip_int_from_string in H.
  destruct address as [|c s]; [discriminate|].
  remember (String c s) as address eqn:Ea. clear Ea c s.
  destruct (negb _) eqn:L; [discriminate|].
  apply negb_false_iff, Z.eqb_eq in L.
  apply try_except_Return in H; [|discriminate].
  apply bind_Return in H as (bs & M & B). apply Return_inj in B.
  apply mapM_Return in M.
  rewrite <- (join_split "." address).
  unfold dotted, _BaseV4._string_from_ip_int.
  destruct (Py.split "." address) as [|s3 [|s2 [|s1 [|s0 [|s4 l]]]]];
    cbn [List.length] in L; try lia.
  inversion M as [|? o3 ? bs3 E3 M3]; subst; clear M.
  inversion M3 as [|? o2 ? bs2 E2 M2]; subst; clear M3.
  inversion M2 as [|? o1 ? bs1 E1 M1]; subst; clear M2.
  inversion M1 as [|? o0 ? bs0 E0 M0]; subst; clear M1.
  inversion M0; subst; clear M0.
  pose proof (parse_octet_range _ _ E3).
  pose proof (parse_octet_range _ _ E2).
  pose proof (parse_octet_range _ _ E1).
  pose proof (parse_octet_range _ _ E0).
  apply parse_octet_canonical in E3, E2, E1, E0. subst s3 s2 s1 s0.
  rewrite to_from_bytes_4 by assumption. reflexivity.
Qed.

(** The IPv4 notations of every accepted input [address/prefix]: the CIDR
    one holds the address as typed, the Cisco one the address and the
    dotted mask, the network one the network address. *)
Lemma ipv4_notations address prefix a p netmask :
  IPv4Address.of_str address = Return (IPv4Address.Build a) ->
  IPv4Network._make_netmask (MaskStr prefix) = Return (netmask, p) ->
  Py.contains "/" prefix = false ->
  exists info,
    analyse address prefix = Return ("IPv4 Address Information", info)
    /\ get "cidr_notation" info = Some (VStr (address ++ "/" ++ Py.str_int p))
    /\ get "cisco_notation" info
       = Some (VStr (address ++ " " ++ dotted (mask32 p)))
    /\ get "ubuntu_subnet" info
       = Some (VStr (dotted (Z.land a (mask32 p)) ++ "/" ++ Py.str_int p)).
Proof.
  intros Ha Hp Hs. exists (ipv4_fields a p).
  destruct (valid_prefix _ _ _ Hp) as [Rp _].
  split; [eapply valid_analyse; eassumption|].
  rewrite (of_str_canonical _ _ Ha).
  cbn [get ipv4_fields String.eqb Ascii.eqb Bool.eqb].
  unfold network_of. rewrite (v4_mask_spec p Rp). repeat split.
Qed.

(** In the IPv6 dictionary [cidr_notation] and [ubuntu_notation] are the
    same string, the network address and the prefix length. *)
Lemma ipv6_notations network interface info :
  IPCalculator.calculate_ipv6 network interface = Return info ->
  exists network_address,
    IPv6Address.__str__ (IPv6Network.network_address network)
    = Return network_address
    /\ get "cidr_notation" info
       = Some (VStr (network_address ++ "/"
                     ++ Py.str_int (IPv6Network._prefixlen network)))
    /\ get "ubuntu_notation" info = get "cidr_notation" info.
Proof.
  unfold IPCalculator.calculate_ipv6. intros H.
  apply bind_Return in H as (sna & E & H). exists sna.
  repeat (apply bind_Return in H as (? & _ & H)).
  apply Return_inj in H. subst info. repeat split. exact E.
Qed.

(** C5.  At [2001:db8::1/64] the field [cidr_notation] is
    [2001:db8::/64], the network address with the prefix length, and not
    the input [2001:db8::1/64]: [calculate_ipv6] formats
    [network_address] where [calculate_ipv4] formats the interface
    address, and never uses its [interface] argument. *)
Theorem C5_ipv6_cidr_is_network :
  exists info,
    analyse "2001:db8::1" "64" = Return ("IPv6 Address Information", info)
    /\ get "cidr_notation" info = Some (VStr "2001:db8::/64")
    /\ get "ubuntu_notation" info = Some (VStr "2001:db8::/64")
    /\ In (Print "cidr_notation       : 2001:db8::/64")
          (snd (IPAddressProcessor.process_address "2001:db8::1/64" [])).
Proof.
  eexists. split; [vm_compute; reflexivity|].
  split; [vm_compute; reflexivity|].
  split; [vm_compute; reflexivity|].
  vm_compute. tauto.
Qed.

(** ** Error messages hold no newline *)

(** [one_line s]: no line feed in [s], so that [print(s)] writes one
    line. *)
Definition one_line (s : string) : Prop := Py.contains Py.LF s = false.

(** [raises_one_line r]: if [r] is an exception, its message is one
    line. *)
Definition raises_one_line {A} (r : result A) : Prop :=
  match r with
  | Return _ => True
  | Raise e => one_line (str_exn e)
  end.

Create HintDb one_line.

Lemma one_line_app s t : one_line s -> one_line t -> one_line (s ++ t).
Proof. unfold one_line. intros Hs Ht. now rewrite contains_app, Hs, Ht. Qed.

Lemma one_line_String c s :
  Ascii.eqb c Py.LF = false -> one_line s -> one_line (String c s).
Proof. unfold one_line. cbn [Py.contains]. now intros -> ->. Qed.

Lemma repr_char_one_line q c :
  q = Py.DQUOTE \/ q = Py.SQUOTE -> one_line (Py.repr_char q c).
Proof.
  intros [-> | ->]; destruct c as [[] [] [] [] [] [] [] []];
    vm_compute; reflexivity.
Qed.

Lemma one_line_repr s : one_line (Py.repr s).
Proof.
  unfold Py.repr.
  assert (Q : Py.repr_quote s = Py.DQUOTE \/ Py.repr_quote s = Py.SQUOTE).
  { unfold Py.repr_quote. destruct (_ && _); auto. }
  assert (L : Ascii.eqb (Py.repr_quote s) Py.LF = false).
  { destruct Q as [-> | ->]; reflexivity. }
  generalize dependent (Py.repr_quote s). intros q Q L.
  apply one_line_String; [exact L|]. apply one_line_app.
  - induction s as [|c s IH]; cbn [Py.repr_body]; [reflexivity|].
    apply one_line_app; [apply repr_char_one_line, Q | exact IH].
  - apply one_line_String; [exact L | reflexivity].
Qed.

Lemma digit_char_not_lf d :
  0 <= d < 16 -> Ascii.eqb (Py.digit_char d) Py.LF = false.
Proof.
  intros H.
  assert (I : In d (map Z.of_nat (seq 0 16))).
  { apply in_map_iff. exists (Z.to_nat d). split; [lia|]. apply in_seq. lia. }
  cbv in I. repeat (destruct I as [<- | I]); [.. | contradiction];
    reflexivity.
Qed.

Lemma one_line_digits_of fuel : forall base n acc,
  0 < base <= 16 -> one_line acc -> one_line (Py.digits_of fuel base n acc).
Proof.
  induction fuel as [|fuel IH]; intros base n acc Hb Ha; cbn [Py.digits_of];
    [exact Ha|].
  assert (D : one_line (String (Py.digit_char (n mod base)) acc)).
  { apply one_line_String; [|exact Ha]. apply digit_char_not_lf.
    pose proof (Z.mod_pos_bound n base ltac:(lia)). lia. }
  destruct (n / base =? 0); [exact D | now apply IH].
Qed.

Lemma one_line_str_int n : one_line (Py.str_int n).
Proof.
  unfold Py.str_int, Py.natural.
  destruct (n <? 0);
    [apply one_line_String; [reflexivity|]|];
    apply one_line_digits_of; (lia || reflexivity).
Qed.

#[local] Hint Resolve one_line_app one_line_repr one_line_str_int : one_line.
#[local] Hint Extern 1 (one_line _) => reflexivity : one_line.
#[local] Hint Extern 2 (one_line (String _ _)) =>
  apply one_line_String; [reflexivity|] : one_line.

Lemma clean_bind {A B} (m : result A) (k : A -> result B) :
  raises_one_line m -> (forall a, raises_one_line (k a)) ->
  raises_one_line (bind m k).
Proof. destruct m as [a|e]; cbn [bind]; auto. Qed.

Lemma clean_try_except {A} (body : result A) classes handler :
  raises_one_line body ->
  (forall e, one_line (str_exn e) -> raises_one_line (handler e)) ->
  raises_one_line (try_except body classes handler).
Proof.
  unfold try_except. destruct body as [a|e]; [trivial|].
  cbn [raises_one_line]. intros He Hh.
  destruct (existsb _ classes); [now apply Hh | exact He].
Qed.

(** With [except ValueError] every exception reaches the handler. *)
Lemma clean_try_except_all {A} (body : result A) handler :
  (forall e, raises_one_line (handler e)) ->
  raises_one_line (try_except body [ValueError] handler).
Proof.
  intros H. unfold try_except. destruct body as [a|e]; [exact I|].
  simpl. apply H.
Qed.

Lemma clean_raise {A} c msg :
  one_line msg -> raises_one_line (raise (A := A) c msg).
Proof. trivial. Qed.

Lemma clean_mapM {A B} (f : A -> result B) l :
  (forall a, raises_one_line (f a)) -> raises_one_line (mapM f l).
Proof.
  intros Hf. induction l as [|a l IH]; cbn [mapM]; [exact I|].
  apply clean_bind; [apply Hf|]. intros b.
  apply clean_bind; [exact IH|]. intros bs. exact I.
Qed.

(** One step through the shape of a monadic body. *)
Ltac clean_step :=
  lazymatch goal with
  | |- raises_one_line (Return _) => exact I
  | |- raises_one_line (raise _ _) =>
      apply clean_raise; auto 10 with one_line
  | |- raises_one_line (bind _ _) => apply clean_bind; [|intros ?]
  | |- raises_one_line (mapM _ _) => apply clean_mapM; intros ?
  | |- raises_one_line (try_except _ _ _) =>
      apply clean_try_except; [|intros ? ?]
  | |- raises_one_line (if ?b then _ else _) => destruct b
  | |- raises_one_line (match ?x with _ => _ end) => destruct x
  | |- raises_one_line (let _ := _ in _) => cbv zeta
  end.

Ltac clean := repeat clean_step; auto 10 with one_line.

Lemma clean_int_of_str base s : raises_one_line (int_of_str base s).
Proof. unfold int_of_str. clean. Qed.

Lemma clean_split_addr_prefix (cls : IPClass) address :
  raises_one_line (_split_addr_prefix address).
Proof. unfold _split_addr_prefix, _split_optional_netmask. clean. Qed.

Lemma clean_check_int_address (cls : IPClass) n :
  raises_one_line (_check_int_address n).
Proof. unfold _check_int_address. clean. Qed.

Lemma clean_report_invalid_netmask {A} arg :
  raises_one_line (_report_invalid_netmask (A := A) arg).
Proof.
  unfold _report_invalid_netmask. destruct arg; cbn [repr_netmask_arg]; clean.
Qed.

Lemma clean_prefix_from_prefix_string (cls : IPClass) s :
  raises_one_line (_prefix_from_prefix_string s).
Proof.
  unfold _prefix_from_prefix_string.
  repeat first [apply clean_report_invalid_netmask
               | apply clean_try_except_all; intros ?
               | clean_step].
Qed.

Lemma clean_parse_octet s : raises_one_line (_BaseV4._parse_octet s).
Proof.
  unfold _BaseV4._parse_octet.
  repeat first [apply clean_int_of_str | clean_step].
Qed.

Lemma clean_ip_int_from_string_v4 s :
  raises_one_line (_BaseV4._ip_int_from_string s).
Proof.
  unfold _BaseV4._ip_int_from_string.
  repeat first [apply clean_parse_octet | clean_step].
Qed.

Lemma clean_of_str_v4 s : raises_one_line (IPv4Address.of_str s).
Proof.
  unfold IPv4Address.of_str.
  repeat first [apply clean_ip_int_from_string_v4 | clean_step].
Qed.

Lemma clean_of_int_v4 n : raises_one_line (IPv4Address.of_int n).
Proof.
  unfold IPv4Address.of_int.
  repeat first [apply clean_check_int_address | clean_step].
Qed.

Lemma clean_prefix_from_ip_string_v4 s :
  raises_one_line (_prefix_from_ip_string (cls := _BaseV4.cls) s).
Proof.
  unfold _prefix_from_ip_string.
  apply clean_bind.
  - apply clean_try_except; [apply clean_ip_int_from_string_v4|].
    intros ? ?. apply clean_report_invalid_netmask.
  - intros ip_int.
    repeat first [apply clean_report_invalid_netmask
                 | apply clean_try_except_all; intros ?].
Qed.

Lemma clean_make_netmask_v4 arg :
  raises_one_line (IPv4Network._make_netmask arg).
Proof.
  unfold IPv4Network._make_netmask.
  repeat first [apply clean_report_invalid_netmask
               | apply clean_prefix_from_prefix_string
               | apply clean_prefix_from_ip_string_v4
               | apply clean_of_int_v4
               | clean_step].
Qed.

Lemma clean_network_v4 address :
  raises_one_line (IPv4Network.__init__ address false).
Proof.
  unfold IPv4Network.__init__.
  repeat first [apply clean_split_addr_prefix
               | apply clean_of_str_v4
               | apply clean_of_int_v4
               | apply clean_make_netmask_v4
               | clean_step].
Qed.

Lemma clean_interface_v4 address :
  raises_one_line (IPv4Interface.__init__ address).
Proof.
  unfold IPv4Interface.__init__.
  repeat first [apply clean_split_addr_prefix
               | apply clean_of_str_v4
               | apply clean_network_v4
               | clean_step].
Qed.

Lemma clean_broadcast_v4 network :
  raises_one_line (IPv4Network.broadcast_address network).
Proof.
  unfold IPv4Network.broadcast_address, IPv4Network.hostmask.
  repeat first [apply clean_of_int_v4 | clean_step].
Qed.

Lemma clean_is_private_v4 network :
  raises_one_line (IPv4Network.is_private network).
Proof.
  unfold IPv4Network.is_private.
  apply clean_bind; [apply clean_broadcast_v4 | intros ?; exact I].
Qed.

Lemma clean_calculate_ipv4 network interface :
  raises_one_line (IPCalculator.calculate_ipv4 network interface).
Proof.
  unfold IPCalculator.calculate_ipv4, IPv4Interface.ip,
    IPv4Network.num_addresses, IPv4Network.is_global.
  repeat first [apply clean_of_int_v4
               | apply clean_broadcast_v4
               | apply clean_is_private_v4
               | apply clean_bind; [|intros ?]
               | exact I].
Qed.

(** The same for IPv6. *)
Lemma clean_parse_hextet s : raises_one_line (_BaseV6._parse_hextet s).
Proof.
  unfold _BaseV6._parse_hextet.
  repeat first [apply clean_int_of_str | clean_step].
Qed.

Lemma clean_find_skip_index ip_str middle : forall i skip_index,
  raises_one_line (_BaseV6.find_skip_index ip_str i middle skip_index).
Proof.
  induction middle as [|part rest IH]; intros i skip_index;
    cbn [_BaseV6.find_skip_index]; [exact I|].
  destruct part; [destruct skip_index|]; try apply IH. clean.
Qed.

Lemma clean_parse_hextets parts : forall ip_int,
  raises_one_line (_BaseV6.parse_hextets ip_int parts).
Proof.
  induction parts as [|part rest IH]; intros ip_int;
    cbn [_BaseV6.parse_hextets]; [exact I|].
  apply clean_bind; [apply clean_parse_hextet | intros h; apply IH].
Qed.

Lemma clean_ip_int_from_string_v6 s :
  raises_one_line (_BaseV6._ip_int_from_string s).
Proof.
  unfold _BaseV6._ip_int_from_string.
  repeat first [apply clean_of_str_v4
               | apply clean_find_skip_index
               | apply clean_parse_hextets
               | clean_step].
Qed.

Lemma clean_split_scope_id s : raises_one_line (_BaseV6._split_scope_id s).
Proof.
  unfold _BaseV6._split_scope_id.
  destruct (Py.partition "%" s) as [[addr sep] scope_id].
  clean.
Qed.

Lemma clean_of_str_v6 s : raises_one_line (IPv6Address.of_str s).
Proof.
  unfold IPv6Address.of_str.
  repeat first [apply clean_split_scope_id
               | apply clean_ip_int_from_string_v6
               | clean_step].
Qed.

Lemma clean_of_int_v6 n : raises_one_line (IPv6Address.of_int n).
Proof.
  unfold IPv6Address.of_int.
  repeat first [apply clean_check_int_address | clean_step].
Qed.

Lemma clean_string_from_ip_int_v6 n :
  raises_one_line (_BaseV6._string_from_ip_int n).
Proof.
  unfold _BaseV6._string_from_ip_int.
  repeat first [apply clean_int_of_str | clean_step].
Qed.

Lemma clean_str_v6 a : raises_one_line (IPv6Address.__str__ a).
Proof.
  unfold IPv6Address.__str__.
  repeat first [apply clean_string_from_ip_int_v6 | clean_step].
Qed.

Lemma clean_make_netmask_v6 arg :
  raises_one_line (IPv6Network._make_netmask arg).
Proof.
  unfold IPv6Network._make_netmask.
  repeat first [apply clean_report_invalid_netmask
               | apply clean_prefix_from_prefix_string
               | apply clean_of_int_v6
               | clean_step].
Qed.

Lemma clean_network_v6 address :
  raises_one_line (IPv6Network.__init__ address false).
Proof.
  unfold IPv6Network.__init__.
  repeat first [apply clean_split_addr_prefix
               | apply clean_of_str_v6
               | apply clean_of_int_v6
               | apply clean_make_netmask_v6
               | clean_step].
Qed.

Lemma clean_interface_v6 address :
  raises_one_line (IPv6Interface.__init__ address).
Proof.
  unfold IPv6Interface.__init__.
  repeat first [apply clean_split_addr_prefix
               | apply clean_of_str_v6
               | apply clean_network_v6
               | clean_step].
Qed.

Lemma clean_broadcast_v6 network :
  raises_one_line (IPv6Network.broadcast_address network).
Proof.
  unfold IPv6Network.broadcast_address, IPv6Network.hostmask.
  repeat first [apply clean_of_int_v6 | clean_step].
Qed.

Lemma clean_calculate_ipv6 network interface :
  raises_one_line (IPCalculator.calculate_ipv6 network interface).
Proof.
  unfold IPCalculator.calculate_ipv6, IPv6Network.is_global,
    IPv6Network.is_private, IPv6Network.is_link_local,
    IPv6Network.is_multicast, IPv6Network.reverse_pointer,
    IPv6Network.exploded, IPv6Network._explode_shorthand_ip_string.
  repeat first [apply clean_str_v6
               | apply clean_broadcast_v6
               | apply clean_ip_int_from_string_v6
               | apply clean_bind; [|intros ?]
               | exact I].
Qed.

(** Whatever the analysis raises, its message is one line. *)
Lemma analyse_raises_one_line address prefix :
  raises_one_line (analyse address prefix).
Proof.
  unfold analyse.
  destruct (version_cases address) as [V|[V|V]]; rewrite V;
    repeat first [apply clean_network_v4 | apply clean_interface_v4
                 | apply clean_calculate_ipv4
                 | apply clean_network_v6 | apply clean_interface_v6
                 | apply clean_calculate_ipv6
                 | apply clean_bind; [|intros ?]
                 | exact I].
Qed.

(** ** [process_address] is total (C10) *)

(** Every run of [process_address] ends in one of two ways, whatever was
    printed before: an error line and -1, or the rendered analysis and 0. *)
Lemma process_address_cases input :
  (exists message,
     one_line message
     /\ forall out,
          IPAddressProcessor.process_address input out
          = (Return (-1), (out ++ [error_line message])%list))
  \/ (exists address prefix title info,
        Py.split "/" input = [address; prefix]
        /\ analyse address prefix = Return (title, info)
        /\ forall out,
             IPAddressProcessor.process_address input out
             = (Return 0, (out ++ rendered title info)%list)).
Proof.
  destruct (Py.split "/" input) as [|address [|prefix [|x l]]] eqn:S.
  1, 2, 4: left; eexists; split; [|intros out; apply process_address_malformed;
    rewrite S; simpl; lia]; reflexivity.
  destruct (Z.eq_dec (IPCalculator.get_address_version address) (-1)) as [V|V].
  - left. eexists. split; [|intros out;
      eapply process_address_no_address; eassumption]. reflexivity.
  - pose proof (analyse_raises_one_line address prefix) as C.
    destruct (analyse address prefix) as [[title info]|e] eqn:A.
    + right. exists address, prefix, title, info.
      split; [reflexivity|]. split; [exact A|]. intros out.
      rewrite (process_address_analysed _ _ _ out S V), A. reflexivity.
    + left. exists ("Invalid network specification: " ++ str_exn e).
      split; [apply one_line_app; [reflexivity | exact C]|]. intros out.
      rewrite (process_address_analysed _ _ _ out S V), A. reflexivity.
Qed.

Lemma ip_address_V4 address a :
  ip_address address = Return (V4 a) -> IPv4Address.of_str address = Return a.
Proof.
  unfold ip_address, try_except.
  destruct (IPv4Address.of_str address) as [x|e]; cbn [bind].
  - intros H. apply Return_inj in H. now injection H as ->.
  - destruct (existsb _ _); [|discriminate].
    destruct (IPv6Address.of_str address) as [y|e']; cbn [bind];
      [discriminate|].
    destruct (existsb _ _); discriminate.
Qed.

Lemma ip_address_V6 address a :
  ip_address address = Return (V6 a) -> IPv6Address.of_str address = Return a.
Proof.
  unfold ip_address, try_except.
  destruct (IPv4Address.of_str address) as [x|e]; cbn [bind];
    [discriminate|].
  destruct (existsb _ _); [|discriminate].
  destruct (IPv6Address.of_str address) as [y|e']; cbn [bind].
  - intros H. apply Return_inj in H. now injection H as ->.
  - destruct (existsb _ _); discriminate.
Qed.

(** The number of occurrences of a character; a split has one piece more. *)
Fixpoint occurrences (c : ascii) (s : string) : nat :=
  match s with
  | EmptyString => O
  | String d r => if Ascii.eqb d c then S (occurrences c r) else occurrences c r
  end.

Lemma split_length sep s :
  List.length (Py.split sep s) = S (occurrences sep s).
Proof.
  induction s as [|c s IH]; cbn [Py.split occurrences]; [reflexivity|].
  destruct (Ascii.eqb c sep); cbn [List.length]; [now rewrite IH|].
  destruct (Py.split sep s) as [|piece pieces]; [discriminate IH | exact IH].
Qed.

Lemma split_two (input address prefix : string) :
  Py.split "/" input = [address; prefix] ->
  Py.contains "/" address = false /\ Py.contains "/" prefix = false
  /\ input = address ++ "/" ++ prefix.
Proof.
  intros S. pose proof (split_pieces "/" input) as P. rewrite S in P.
  inversion P as [|? ? P1 P']; subst. inversion P' as [|? ? P2 _]; subst.
  repeat split; try assumption.
  rewrite <- (join_split "/" input), S. reflexivity.
Qed.

Lemma split_addr_prefix_two {cls : IPClass} address prefix :
  Py.contains "/" address = false -> Py.contains "/" prefix = false ->
  _split_addr_prefix (ArgStr (address ++ "/" ++ prefix))
  = Return (address, MaskStr prefix).
Proof.
  intros Sa Sp. unfold _split_addr_prefix, _split_optional_netmask.
  change (address ++ "/" ++ prefix) with (address ++ String "/" prefix).
  rewrite (split_once _ _ _ Sa Sp). reflexivity.
Qed.

(** A part after the slash that is no netmask makes the analysis raise. *)
Lemma analyse_invalid_prefix address prefix :
  Py.contains "/" address = false -> Py.contains "/" prefix = false ->
  (exists a e, ip_address address = Return (V4 a)
               /\ IPv4Network._make_netmask (MaskStr prefix) = Raise e)
  \/ (exists a e, ip_address address = Return (V6 a)
                  /\ IPv6Network._make_netmask (MaskStr prefix) = Raise e) ->
  exists e, analyse address prefix = Raise e.
Proof.
  intros Sa Sp [(a & e & A & M) | (a & e & A & M)]; exists e;
    unfold analyse, IPCalculator.get_address_version; rewrite A.
  - apply ip_address_V4 in A. cbv iota.
    unfold IPv4Network.__init__.
    rewrite (split_addr_prefix_two _ _ Sa Sp). cbn [bind].
    rewrite A. cbn [bind]. rewrite M. reflexivity.
  - apply ip_address_V6 in A. cbv iota.
    unfold IPv6Network.__init__.
    rewrite (split_addr_prefix_two _ _ Sa Sp). cbn [bind].
    rewrite A. cbn [bind]. rewrite M. reflexivity.
Qed.

(** C10.  [process_address] returns on every input, with 0 or -1, and
    raises nothing.  With -1 exactly one [print] call is made, of
    [Error: ] and a message without a newline; with 0 the rendered
    analysis is printed.  An input that does not hold exactly one ['/'],
    an address part that is neither an IPv4 nor an IPv6 address, and a
    part after the slash that is no netmask for the family of the address
    each give -1. *)
Theorem C10_process_address_total input out :
  exists code lines,
    IPAddressProcessor.process_address input out
    = (Return code, (out ++ lines)%list)
    /\ ((code = 0 /\ exists title info, lines = rendered title info)
        \/ (code = -1
            /\ exists message,
                 lines = [Print ("Error: " ++ message)]
                 /\ Py.contains Py.LF message = false))
    /\ (occurrences "/" input <> 1%nat -> code = -1)
    /\ (forall address prefix,
          Py.split "/" input = [address; prefix] ->
          (exists e, ip_address address = Raise e) -> code = -1)
    /\ (forall address prefix,
          Py.split "/" input = [address; prefix] ->
          (exists a e, ip_address address = Return (V4 a)
                       /\ IPv4Network._make_netmask (MaskStr prefix) = Raise e)
          \/ (exists a e, ip_address address = Return (V6 a)
                          /\ IPv6Network._make_netmask (MaskStr prefix) = Raise e) ->
          code = -1).
Proof.
  destruct (process_address_cases input)
    as [(message & L & P) | (address & prefix & title & info & S & A & P)].
  - exists (-1), [error_line message]. split; [apply P|].
    split; [right; split; [reflexivity|]; exists message; split;
            [reflexivity | exact L]|].
    repeat split; reflexivity.
  - exists 0, (rendered title info). split; [apply P|].
    split; [left; eauto|]. split; [|split].
    + intros L. pose proof (split_length "/" input) as N.
      rewrite S in N. cbn [List.length] in N. congruence.
    + intros address' prefix' S' (e & E). rewrite S in S'.
      injection S' as <- <-.
      unfold analyse, IPCalculator.get_address_version in A.
      pose proof (P []) as P0.
      rewrite (process_address_no_address input address prefix [] S) in P0;
        [discriminate P0|].
      unfold IPCalculator.get_address_version. now rewrite E.
    + intros address' prefix' S' I. rewrite S in S'.
      injection S' as <- <-.
      destruct (split_two _ _ _ S) as (Sa & Sp & _).
      destruct (analyse_invalid_prefix address prefix Sa Sp I) as [e E].
      rewrite E in A. discriminate A.
Qed.

(** ** The rendered text (C9) *)

Definition ipv4_keys : list string :=
  [ "ipaddress"; "network_address"; "broadcast_address"; "host_count";
    "is_private"; "is_global"; "is_network_address"; "is_broadcast_address";
    "reverse"; "cidr_notation"; "cisco_notation"; "ubuntu_subnet" ].

Definition ipv6_keys : list string :=
  [ "network_address"; "is_private"; "is_global"; "is_link_local";
    "is_multicast"; "reverse"; "cidr_notation"; "ubuntu_notation" ].

Lemma calculate_ipv4_keys network interface info :
  IPCalculator.calculate_ipv4 network interface = Return info ->
  map fst info = ipv4_keys.
Proof.
  unfold IPCalculator.calculate_ipv4. intros H.
  repeat (apply bind_Return in H as (? & _ & H)).
  apply Return_inj in H. subst info. reflexivity.
Qed.

Lemma calculate_ipv6_keys network interface info :
  IPCalculator.calculate_ipv6 network interface = Return info ->
  map fst info = ipv6_keys.
Proof.
  unfold IPCalculator.calculate_ipv6. intros H.
  repeat (apply bind_Return in H as (? & _ & H)).
  apply Return_inj in H. subst info. reflexivity.
Qed.

Lemma analyse_keys address prefix title info :
  analyse address prefix = Return (title, info) ->
  (title = "IPv4 Address Information" /\ map fst info = ipv4_keys)
  \/ (title = "IPv6 Address Information" /\ map fst info = ipv6_keys).
Proof.
  unfold analyse. intros H.
  destruct (version_cases address) as [V|[V|V]]; rewrite V in H;
    apply bind_Return in H as (network & _ & H);
    apply bind_Return in H as (interface & _ & H);
    apply bind_Return in H as (d & K & H);
    apply Return_inj in H; injection H as <- <-.
  - left. split; [reflexivity|]. eapply calculate_ipv4_keys; eassumption.
  - right. split; [reflexivity|]. eapply calculate_ipv6_keys; eassumption.
  - right. split; [reflexivity|]. eapply calculate_ipv6_keys; eassumption.
Qed.

Lemma field_line_has_colon kv : exists text,
  field_line kv = Print text /\ Py.contains ":" text = true.
Proof.
  unfold field_line. eexists. split; [reflexivity|].
  rewrite contains_app. cbn. apply orb_true_r.
Qed.

(** The layout the claim describes: the title directly followed by the
    field lines. *)
Definition claimed_layout (title : string) (info : dict) : stdout :=
  ([Print banner; Print (Py.center title 42)]
   ++ map field_line info ++ [Print banner])%list.

(** C9, the counterexample.  For [10.0.0.5/24] sixteen lines are printed,
    not fifteen: the third one is a second banner, under the title, and a
    banner is no field line since it holds no colon. *)
Lemma C9_counterexample :
  exists title info,
    analyse "10.0.0.5" "24" = Return (title, info)
    /\ List.length info = 12%nat
    /\ List.length (snd (IPAddressProcessor.process_address "10.0.0.5/24" []))
       = 16%nat
    /\ List.length (claimed_layout title info) = 15%nat
    /\ nth_error (snd (IPAddressProcessor.process_address "10.0.0.5/24" [])) 2
       = Some (Print banner)
    /\ Py.contains ":" banner = false
    /\ nth_error (claimed_layout title info) 2
       = Some (Print "ipaddress           : 10.0.0.5")
    /\ (forall kv, field_line kv <> Print banner)
    /\ snd (IPAddressProcessor.process_address "10.0.0.5/24" [])
       <> claimed_layout title info.
Proof.
  do 2 eexists. split; [vm_compute; reflexivity|].
  do 6 (split; [vm_compute; reflexivity|]).
  split.
  - intros kv E. destruct (field_line_has_colon kv) as (text & T & C).
    rewrite E in T. injection T as <-. discriminate C.
  - vm_compute. discriminate.
Qed.

(** C9, amended.  A successful analysis prints a banner of 42 ['='], the
    title of the family centred in 42 characters, a second banner, one
    line per field (the label padded to 20 characters, [": "], the value)
    in the order of the dictionary, and a closing banner. *)
Theorem C9_rendered_layout input out out' :
  IPAddressProcessor.process_address input out = (Return 0, out') ->
  exists title info,
    out' = (out
            ++ [Print banner; Print (Py.center title 42); Print banner]
            ++ map (fun kv => Print (Py.ljust (fst kv) 20 ++ ": "
                                     ++ format_value (snd kv))) info
            ++ [Print banner])%list
    /\ banner = "=========================================="
    /\ String.length banner = 42%nat
    /\ String.length (Py.center title 42) = 42%nat
    /\ Forall (fun kv => String.length (Py.ljust (fst kv) 20) = 20%nat) info
    /\ ((title = "IPv4 Address Information" /\ map fst info = ipv4_keys)
        \/ (title = "IPv6 Address Information" /\ map fst info = ipv6_keys)).
Proof.
  intros H.
  destruct (process_address_cases input)
    as [(message & _ & P) | (address & prefix & title & info & S & A & P)];
    rewrite P in H; [discriminate H|].
  injection H as <-. exists title, info.
  pose proof (analyse_keys _ _ _ _ A) as K.
  split; [reflexivity|]. split; [reflexivity|]. split; [reflexivity|].
  split; [destruct K as [[-> _]|[-> _]]; reflexivity|].
  split; [|exact K].
  assert (W : Forall (fun k => String.length (Py.ljust k 20) = 20%nat)
                (map fst info)).
  { destruct K as [[_ ->]|[_ ->]]; repeat constructor. }
  rewrite Forall_map in W. exact W.
Qed.

Lemma C9_witness :
  IPAddressProcessor.process_address "10.0.0.5/24" []
  = (Return 0,
     rendered "IPv4 Address Information" (ipv4_fields (quad 10 0 0 5) 24))
  /\ exists title info,
       rendered "IPv4 Address Information" (ipv4_fields (quad 10 0 0 5) 24)
       = ([] ++ [Print banner; Print (Py.center title 42); Print banner]
          ++ map (fun kv => Print (Py.ljust (fst kv) 20 ++ ": "
                                   ++ format_value (snd kv))) info
          ++ [Print banner])%list
       /\ banner = "=========================================="
       /\ String.length banner = 42%nat
       /\ String.length (Py.center title 42) = 42%nat
       /\ Forall (fun kv => String.length (Py.ljust (fst kv) 20) = 20%nat) info
       /\ ((title = "IPv4 Address Information" /\ map fst info = ipv4_keys)
           \/ (title = "IPv6 Address Information" /\ map fst info = ipv6_keys)).
Proof.
  split; [vm_compute; reflexivity|].
  apply (C9_rendered_layout "10.0.0.5/24" []).
  vm_compute. reflexivity.
Defined.

(** ** One-shot mode (C7) *)

(** The status and the lines of [process_address] do not depend on what
    was printed before. *)
Lemma process_address_run input :
  exists code lines,
    (code = 0 \/ code = -1)
    /\ forall out,
         IPAddressProcessor.process_address input out
         = (Return code, (out ++ lines)%list).
Proof.
  destruct (process_address_cases input)
    as [(message & _ & P) | (address & prefix & title & info & _ & _ & P)];
    eauto 6.
Qed.

(** [succeeds arg]: the analysis of [arg] returns 0; [fails arg]: it
    returns -1. *)
Definition succeeds (arg : string) : Prop :=
  fst (IPAddressProcessor.process_address arg []) = Return 0.

Definition fails (arg : string) : Prop :=
  fst (IPAddressProcessor.process_address arg []) = Return (-1).

Lemma succeeds_run arg :
  succeeds arg ->
  exists lines, forall out,
    IPAddressProcessor.process_address arg out = (Return 0, (out ++ lines)%list).
Proof.
  unfold succeeds. destruct (process_address_run arg) as (code & lines & _ & P).
  rewrite P. cbn [fst]. intros H. apply Return_inj in H. subst code. eauto.
Qed.

Lemma fails_run arg :
  fails arg ->
  exists lines, forall out,
    IPAddressProcessor.process_address arg out
    = (Return (-1), (out ++ lines)%list).
Proof.
  unfold fails. destruct (process_address_run arg) as (code & lines & _ & P).
  rewrite P. cbn [fst]. intros H. apply Return_inj in H. subst code. eauto.
Qed.

Lemma process_args_step_ok arg rest stdin out lines :
  is_help arg = false ->
  (forall out, IPAddressProcessor.process_address arg out
               = (Return 0, (out ++ lines)%list)) ->
  process_args (arg :: rest) stdin out
  = process_args rest stdin
      (((out ++ [Print ("Processing: " ++ arg)]) ++ lines) ++ [Print ""])%list.
Proof.
  intros Hh P. cbn [process_args]. rewrite Hh.
  unfold bindIO at 1. unfold print at 1.
  unfold bindIO at 1. unfold main, IPAddressProcessor.command_line_mode.
  rewrite P. cbn [Z.eqb negb]. reflexivity.
Qed.

Lemma process_args_step_fail arg rest stdin out lines :
  is_help arg = false ->
  (forall out, IPAddressProcessor.process_address arg out
               = (Return (-1), (out ++ lines)%list)) ->
  process_args (arg :: rest) stdin out
  = (Return (-1), ((out ++ [Print ("Processing: " ++ arg)]) ++ lines)%list).
Proof.
  intros Hh P. cbn [process_args]. rewrite Hh.
  unfold bindIO at 1. unfold print at 1.
  unfold bindIO at 1. unfold main, IPAddressProcessor.command_line_mode.
  rewrite P. reflexivity.
Qed.

Lemma process_args_abort pre : forall a post stdin out,
  Forall (fun x => is_help x = false /\ succeeds x) pre ->
  is_help a = false -> fails a ->
  process_args (pre ++ a :: post) stdin out
  = process_args (pre ++ [a]) stdin out
  /\ fst (process_args (pre ++ a :: post) stdin out) = Return (-1).
Proof.
  induction pre as [|x pre IH]; intros a post stdin out F Ha Fa.
  - destruct (fails_run a Fa) as (lines & P). cbn [app].
    rewrite !(process_args_step_fail a _ stdin out lines Ha P). auto.
  - inversion F as [|? ? [Hx Sx] F']; subst.
    destruct (succeeds_run x Sx) as (lines & P). cbn [app].
    rewrite !(process_args_step_ok x _ stdin out lines Hx P).
    apply IH; assumption.
Qed.

Lemma process_args_all_ok args : forall stdin out,
  Forall (fun x => is_help x = true \/ succeeds x) args ->
  fst (process_args args stdin out) = Return 0.
Proof.
  induction args as [|x args IH]; intros stdin out F; [reflexivity|].
  inversion F as [|? ? Hx F']; subst.
  destruct (is_help x) eqn:E.
  - cbn [process_args]. rewrite E. reflexivity.
  - destruct Hx as [Hx|Hx]; [discriminate|].
    destruct (succeeds_run x Hx) as (lines & P).
    rewrite (process_args_step_ok x _ stdin out lines E P).
    apply IH. exact F'.
Qed.

(** C7.  One-shot mode, that is at least one argument.  When the
    arguments before [a] are analysed with success and the analysis of
    [a] fails, the process ends there: the status is the -1 of
    [process_address] (not zero; the system shows it as 255) and the run
    is the run on the arguments up to [a], so nothing that follows [a] is
    processed.  When every argument is analysed with success (or asks for
    help) the status is 0. *)
Theorem C7_abort_on_first_failure args stdin out :
  args <> [] ->
  (forall pre a post,
     args = (pre ++ a :: post)%list ->
     Forall (fun x => is_help x = false /\ succeeds x) pre ->
     is_help a = false -> fails a ->
     script args stdin out = script (pre ++ [a]) stdin out
     /\ fst (script args stdin out) = Return (-1)
     /\ -1 <> 0)
  /\ (Forall (fun x => is_help x = true \/ succeeds x) args ->
      fst (script args stdin out) = Return 0).
Proof.
  intros N.
  assert (S : forall l, l <> [] -> script l stdin out = process_args l stdin out).
  { intros [|x l] Hl; [contradiction | reflexivity]. }
  split.
  - intros pre a post -> F Ha Fa.
    rewrite !S by (destruct pre; discriminate).
    destruct (process_args_abort pre a post stdin out F Ha Fa) as [E1 E2].
    repeat split; [exact E1 | exact E2 | lia].
  - intros F. rewrite S by exact N. apply process_args_all_ok, F.
Qed.

Lemma C7_witness :
  ["10.0.0.5/24"; "not-an-ip/24"; "192.168.1.0/24"] <> []
  /\ script ["10.0.0.5/24"; "not-an-ip/24"; "192.168.1.0/24"] [] []
     = script ["10.0.0.5/24"; "not-an-ip/24"] [] []
  /\ fst (script ["10.0.0.5/24"; "not-an-ip/24"; "192.168.1.0/24"] [] [])
     = Return (-1)
  /\ -1 <> 0.
Proof.
  split; [discriminate|].
  apply (proj1 (C7_abort_on_first_failure
                  ["10.0.0.5/24"; "not-an-ip/24"; "192.168.1.0/24"] [] []
                  ltac:(discriminate))
               ["10.0.0.5/24"] "not-an-ip/24" ["192.168.1.0/24"]).
  - reflexivity.
  - repeat constructor; vm_compute; reflexivity.
  - reflexivity.
  - vm_compute. reflexivity.
Defined.

(** ** Interactive mode (C8) *)

Definition prompt : event := Prompt "address: ".




(** ** Classification against the range tables (C4) *)

(** The table [_private_networks] of [IPv4Network], as blocks
    [(base, prefix length)]. *)
Definition private_blocks : list (Z * Z) :=
  [ (quad 0 0 0 0, 8); (quad 10 0 0 0, 8); (quad 127 0 0 0, 8);
    (quad 169 254 0 0, 16); (quad 172 16 0 0, 12); (quad 192 0 0 0, 24);
    (quad 192 0 0 170, 31); (quad 192 0 2 0, 24); (quad 192 168 0 0, 16);
    (quad 198 18 0 0, 15); (quad 198 51 100 0, 24); (quad 203 0 113 0, 24);
    (quad 240 0 0 0, 4); (quad 255 255 255 255, 32) ].

(** The block [100.64.0.0/10] that [is_global] excludes. *)
Definition shared_block : Z * Z := (quad 100 64 0 0, 10).

Lemma private_table :
  IPv4Network._constants._private_networks = map block_network private_blocks.
Proof. vm_compute. reflexivity. Qed.

Lemma shared_table :
  IPv4Network.literal "100.64.0.0/10" = block_network shared_block.
Proof. vm_compute. reflexivity. Qed.

Lemma exceptions_table :
  IPv4Network._constants._private_networks_exceptions
  = [ block_network (quad 192 0 0 9, 32); block_network (quad 192 0 0 10, 32) ].
Proof. vm_compute. reflexivity. Qed.

Definition block_ok (r : Z * Z) : bool :=
  (0 <=? snd r) && (snd r <=? 32)
  && (fst r mod 2 ^ (32 - snd r) =? 0)
  && ((fst r + 2 ^ (32 - snd r) <=? fst shared_block)
      || (fst shared_block + 2 ^ (32 - snd shared_block) <=? fst r)).

Lemma private_blocks_ok r :
  In r private_blocks ->
  0 <= snd r <= 32
  /\ fst r mod 2 ^ (32 - snd r) = 0
  /\ (fst r + 2 ^ (32 - snd r) <= fst shared_block
      \/ fst shared_block + 2 ^ (32 - snd shared_block) <= fst r).
Proof.
  assert (A : forallb block_ok private_blocks = true)
    by (vm_compute; reflexivity).
  intros H. apply (proj1 (forallb_forall _ _) A) in H.
  unfold block_ok in H.
  rewrite !andb_true_iff, orb_true_iff, !Z.leb_le, Z.eqb_eq in H.
  tauto.
Qed.

Lemma contains_block_network r x :
  0 <= snd r <= 32 -> fst r mod 2 ^ (32 - snd r) = 0 -> 0 <= x < 2 ^ 32 ->
  IPv4Network.__contains__ (block_network r) (IPv4Address.Build x) = true
  <-> fst r <= x < fst r + 2 ^ (32 - snd r).
Proof. intros. unfold block_network. now apply contains_block. Qed.

Lemma contains_single base x :
  0 <= x < 2 ^ 32 ->
  IPv4Network.__contains__ (block_network (base, 32)) (IPv4Address.Build x)
  = false
  <-> x <> base.
Proof.
  intros Hx. rewrite <- not_true_iff_false, contains_block_network;
    cbn [fst snd]; change (2 ^ (32 - 32)) with 1;
    [lia | lia | apply Z.mod_1_r | exact Hx].
Qed.

(** [is_private] of the network from [n] to [b], on the numbers. *)
Lemma net_is_private_spec n b :
  0 <= n < 2 ^ 32 -> 0 <= b < 2 ^ 32 ->
  net_is_private n b = true
  <-> (exists r, In r private_blocks
                 /\ fst r <= n < fst r + 2 ^ (32 - snd r)
                 /\ fst r <= b < fst r + 2 ^ (32 - snd r))
      /\ (n <> quad 192 0 0 9 /\ b <> quad 192 0 0 9)
      /\ (n <> quad 192 0 0 10 /\ b <> quad 192 0 0 10).
Proof.
  intros Hn Hb. unfold net_is_private.
  rewrite private_table, exceptions_table. cbn [forallb].
  rewrite !andb_true_iff, !negb_true_iff, !contains_single by assumption.
  rewrite existsb_exists.
  assert (E : (exists x, In x (map block_network private_blocks)
                 /\ IPv4Network.__contains__ x (IPv4Address.Build n)
                    && IPv4Network.__contains__ x (IPv4Address.Build b) = true)
              <-> (exists r, In r private_blocks
                     /\ fst r <= n < fst r + 2 ^ (32 - snd r)
                     /\ fst r <= b < fst r + 2 ^ (32 - snd r))).
  { split.
    - intros (x & I & C). apply in_map_iff in I as (r & <- & I).
      destruct (private_blocks_ok r I) as (R & M & _).
      apply andb_true_iff in C as [C1 C2].
      apply contains_block_network in C1, C2; try assumption.
      exists r. auto.
    - intros (r & I & C1 & C2).
      destruct (private_blocks_ok r I) as (R & M & _).
      exists (block_network r). split; [now apply in_map|].
      apply andb_true_iff.
      split; apply contains_block_network; assumption. }
  rewrite E. tauto.
Qed.

(** [is_global] of the network from [n] to [b], on the numbers. *)
Lemma net_is_global_spec n b :
  0 <= n < 2 ^ 32 -> 0 <= b < 2 ^ 32 ->
  net_is_global n b = false
  <-> (fst shared_block <= n < fst shared_block + 2 ^ (32 - snd shared_block)
       /\ fst shared_block <= b
          < fst shared_block + 2 ^ (32 - snd shared_block))
      \/ net_is_private n b = true.
Proof.
  intros Hn Hb. unfold net_is_global. rewrite shared_table.
  assert (R : 0 <= snd shared_block <= 32) by (vm_compute; split; discriminate).
  assert (M : fst shared_block mod 2 ^ (32 - snd shared_block) = 0)
    by reflexivity.
  rewrite andb_false_iff, !negb_false_iff, andb_true_iff.
  rewrite !contains_block_network by assumption.
  tauto.
Qed.

(** [inside width block x]: the address [x] lies in [block], a pair of a
    base address and a prefix length, in a family of [width]-bit
    addresses. *)
Definition inside (width : Z) (block : Z * Z) (x : Z) : Prop :=
  fst block <= x < fst block + 2 ^ (width - snd block).

(** The network from [n] to [b] is classified by a table with exceptions
    when both ends lie inside one block of the table and neither end lies
    inside a block of the exceptions. *)
Definition classified (width : Z) (table exceptions : list (Z * Z))
    (n b : Z) : Prop :=
  (exists block, In block table
                 /\ inside width block n /\ inside width block b)
  /\ (forall block, In block exceptions ->
        ~ inside width block n /\ ~ inside width block b).

(** The table [_private_networks_exceptions] of [IPv4Network]. *)
Definition private_exceptions : list (Z * Z) :=
  [ (quad 192 0 0 9, 32); (quad 192 0 0 10, 32) ].

Lemma net_is_private_classified n b :
  0 <= n < 2 ^ 32 -> 0 <= b < 2 ^ 32 ->
  net_is_private n b = true
  <-> classified 32 private_blocks private_exceptions n b.
Proof.
  intros Hn Hb. rewrite (net_is_private_spec n b Hn Hb).
  unfold classified, inside, private_exceptions. split.
  - intros ((r & I & C1 & C2) & (N9 & B9) & (N10 & B10)).
    split; [exists r; auto|].
    intros block [<-|[<-|[]]]; cbn [fst snd];
      change (2 ^ (32 - 32)) with 1; lia.
  - intros ((r & I & C1 & C2) & E).
    split; [exists r; auto|].
    destruct (E _ (or_introl eq_refl)) as [A B].
    destruct (E _ (or_intror (or_introl eq_refl))) as [C D].
    cbn [fst snd] in A, B, C, D. change (2 ^ (32 - 32)) with 1 in A, B, C, D.
    lia.
Qed.

Lemma net_is_global_classified n b :
  0 <= n < 2 ^ 32 -> 0 <= b < 2 ^ 32 ->
  net_is_global n b = true
  <-> net_is_private n b = false
      /\ ~ (inside 32 shared_block n /\ inside 32 shared_block b).
Proof.
  intros Hn Hb. pose proof (net_is_global_spec n b Hn Hb) as G.
  unfold inside. split.
  - intros H.
    assert (N : ~ net_is_global n b = false) by (rewrite H; discriminate).
    rewrite G in N. split; [apply not_true_iff_false|]; tauto.
  - intros [P S]. apply not_false_iff_true. rewrite G.
    intros [I|I]; [tauto | congruence].
Qed.

(** *** The tables of [IPv6Network] *)

(** The address whose eight groups of 16 bits are [h]. *)
Definition hextets (h : list Z) : Z :=
  fold_left (fun acc x => acc * 65536 + x) h 0.

(** The table [_private_networks] of [IPv6Network], as blocks. *)
Definition private_blocks_v6 : list (Z * Z) :=
  [ (hextets [0; 0; 0; 0; 0; 0; 0; 1], 128);
    (hextets [0; 0; 0; 0; 0; 0; 0; 0], 128);
    (hextets [0; 0; 0; 0; 0; 0xffff; 0; 0], 96);
    (hextets [0x64; 0xff9b; 1; 0; 0; 0; 0; 0], 48);
    (hextets [0x100; 0; 0; 0; 0; 0; 0; 0], 64);
    (hextets [0x2001; 0; 0; 0; 0; 0; 0; 0], 23);
    (hextets [0x2001; 0xdb8; 0; 0; 0; 0; 0; 0], 32);
    (hextets [0x2002; 0; 0; 0; 0; 0; 0; 0], 16);
    (hextets [0xfc00; 0; 0; 0; 0; 0; 0; 0], 7);
    (hextets [0xfe80; 0; 0; 0; 0; 0; 0; 0], 10) ].

(** The table [_private_networks_exceptions] of [IPv6Network]. *)
Definition private_exceptions_v6 : list (Z * Z) :=
  [ (hextets [0x2001; 1; 0; 0; 0; 0; 0; 1], 128);
    (hextets [0x2001; 1; 0; 0; 0; 0; 0; 2], 128);
    (hextets [0x2001; 3; 0; 0; 0; 0; 0; 0], 32);
    (hextets [0x2001; 4; 0x112; 0; 0; 0; 0; 0], 48);
    (hextets [0x2001; 0x20; 0; 0; 0; 0; 0; 0], 28);
    (hextets [0x2001; 0x30; 0; 0; 0; 0; 0; 0], 28) ].

(** [fe80::/10] and [ff00::/8]. *)
Definition link_local_block_v6 : Z * Z :=
  (hextets [0xfe80; 0; 0; 0; 0; 0; 0; 0], 10).

Definition multicast_block_v6 : Z * Z :=
  (hextets [0xff00; 0; 0; 0; 0; 0; 0; 0], 8).

(** [mask128 p]: [p] leading one bits in a width of 128 bits. *)
Definition mask128 (p : Z) : Z := Z.shiftl (Z.ones p) (128 - p).

(** [not128 x]: the complement of [x] over 128 bits. *)
Definition not128 (x : Z) : Z := Z.land (Z.lnot x) (Z.ones 128).

Definition v6_mask (p : Z) : Z := _ip_int_from_prefix (cls := _BaseV6.cls) p.

Definition block_network_v6 (block : Z * Z) : IPv6Network.t :=
  IPv6Network.Build (IPv6Address.Build (fst block) None)
                    (IPv6Address.Build (v6_mask (snd block)) None)
                    (snd block).

Lemma private_table_v6 :
  IPv6Network._constants._private_networks
  = map block_network_v6 private_blocks_v6.
Proof. vm_compute. reflexivity. Qed.

Lemma exceptions_table_v6 :
  IPv6Network._constants._private_networks_exceptions
  = map block_network_v6 private_exceptions_v6.
Proof. vm_compute. reflexivity. Qed.

Lemma link_local_table_v6 :
  IPv6Network._constants._linklocal_network
  = block_network_v6 link_local_block_v6.
Proof. vm_compute. reflexivity. Qed.

Lemma multicast_table_v6 :
  IPv6Network._constants._multicast_network
  = block_network_v6 multicast_block_v6.
Proof. vm_compute. reflexivity. Qed.

Arguments v6_mask : simpl never.

(** The prefix lengths of IPv6. *)
Definition prefix_lengths_v6 : list Z := map Z.of_nat (seq 0 129).

Lemma prefix_lengths_v6_spec p : 0 <= p <= 128 -> In p prefix_lengths_v6.
Proof.
  intros H. unfold prefix_lengths_v6. apply in_map_iff.
  exists (Z.to_nat p). split; [lia|]. apply in_seq. lia.
Qed.

Definition mask_ok_v6 (p : Z) : bool :=
  (v6_mask p =? mask128 p)
  && (v6_mask p =? 2 ^ 128 - 2 ^ (128 - p))
  && (Z.lxor (v6_mask p) (2 ^ 128 - 1) =? not128 (mask128 p))
  && (Z.lxor (v6_mask p) (2 ^ 128 - 1) =? 2 ^ (128 - p) - 1)
  && (Z.land (v6_mask p) (Z.ones (128 - p)) =? 0)
  && (Z.lor (v6_mask p) (Z.ones (128 - p)) =? 2 ^ 128 - 1).

Lemma v6_mask_facts p :
  0 <= p <= 128 ->
  v6_mask p = mask128 p
  /\ v6_mask p = 2 ^ 128 - 2 ^ (128 - p)
  /\ Z.lxor (v6_mask p) (2 ^ 128 - 1) = not128 (mask128 p)
  /\ Z.lxor (v6_mask p) (2 ^ 128 - 1) = 2 ^ (128 - p) - 1
  /\ Z.land (v6_mask p) (Z.ones (128 - p)) = 0
  /\ Z.lor (v6_mask p) (Z.ones (128 - p)) = 2 ^ 128 - 1.
Proof.
  assert (A : forallb mask_ok_v6 prefix_lengths_v6 = true)
    by (vm_compute; reflexivity).
  intros H. apply prefix_lengths_v6_spec in H.
  apply (proj1 (forallb_forall _ _) A) in H. unfold mask_ok_v6 in H.
  rewrite !andb_true_iff, !Z.eqb_eq in H. tauto.
Qed.

Lemma in_range_128 x : 0 <= x < 2 ^ 128 <-> Z.land x (Z.ones 128) = x.
Proof.
  rewrite Z.land_ones by lia. split.
  - apply Z.mod_small.
  - intros <-. apply Z.mod_pos_bound. lia.
Qed.

Lemma land_range_128 a m : 0 <= m < 2 ^ 128 -> 0 <= Z.land a m < 2 ^ 128.
Proof.
  intros H. apply in_range_128. rewrite <- Z.land_assoc. f_equal.
  now apply in_range_128.
Qed.

Lemma lor_range_128 x y :
  0 <= x < 2 ^ 128 -> 0 <= y < 2 ^ 128 -> 0 <= Z.lor x y < 2 ^ 128.
Proof.
  intros Hx Hy. apply in_range_128. rewrite Z.land_lor_distr_l.
  f_equal; now apply in_range_128.
Qed.

Lemma v6_mask_range p : 0 <= p <= 128 -> 0 <= v6_mask p < 2 ^ 128.
Proof.
  intros H. destruct (v6_mask_facts p H) as (_ & -> & _).
  assert (0 < 2 ^ (128 - p)) by (apply Z.pow_pos_nonneg; lia).
  assert (2 ^ (128 - p) <= 2 ^ 128) by (apply Z.pow_le_mono_r; lia).
  lia.
Qed.

Lemma v6_hostmask_range p :
  0 <= p <= 128 -> 0 <= Z.lxor (v6_mask p) (2 ^ 128 - 1) < 2 ^ 128.
Proof.
  intros H. destruct (v6_mask_facts p H) as (_ & _ & _ & -> & _).
  assert (0 < 2 ^ (128 - p)) by (apply Z.pow_pos_nonneg; lia).
  assert (2 ^ (128 - p) <= 2 ^ 128) by (apply Z.pow_le_mono_r; lia).
  lia.
Qed.

Lemma land_v6_mask x p :
  0 <= x < 2 ^ 128 -> 0 <= p <= 128 ->
  Z.land x (v6_mask p) = x - x mod 2 ^ (128 - p).
Proof.
  intros Hx Hp.
  destruct (v6_mask_facts p Hp) as (_ & _ & _ & _ & D1 & D2).
  pose proof (land_disjoint_sum x _ _ D1) as E.
  change (2 ^ 128 - 1) with (Z.ones 128) in D2.
  rewrite D2, (proj1 (in_range_128 x) Hx), Z.land_ones in E by lia. lia.
Qed.

(** Membership in a network is membership in its block of addresses. *)
Lemma contains_block_v6 block x :
  0 <= snd block <= 128 -> fst block mod 2 ^ (128 - snd block) = 0 ->
  0 <= IPv6Address._ip x < 2 ^ 128 ->
  IPv6Network.__contains__ (block_network_v6 block) x = true
  <-> inside 128 block (IPv6Address._ip x).
Proof.
  intros Hr Hb Hx. unfold IPv6Network.__contains__, block_network_v6, inside.
  cbn [IPv6Network.netmask IPv6Network.network_address IPv6Address._ip].
  rewrite Z.eqb_eq, land_v6_mask by assumption.
  set (v := IPv6Address._ip x) in *. set (base := fst block) in *.
  set (r := snd block) in *.
  assert (K : 0 < 2 ^ (128 - r)) by (apply Z.pow_pos_nonneg; lia).
  pose proof (Z.mod_pos_bound v _ K) as M.
  split; [lia|]. intros R.
  apply Z.mod_divide in Hb as [c Hc]; [|lia].
  assert (E : v mod 2 ^ (128 - r) = v - base).
  { symmetry. apply (Z.mod_unique v _ c); [lia|]. rewrite Hc. ring. }
  lia.
Qed.

Definition block_ok_v6 (block : Z * Z) : bool :=
  (0 <=? snd block) && (snd block <=? 128)
  && (fst block mod 2 ^ (128 - snd block) =? 0).

Lemma blocks_ok_v6 block :
  In block (link_local_block_v6 :: multicast_block_v6
            :: private_blocks_v6 ++ private_exceptions_v6)%list ->
  0 <= snd block <= 128 /\ fst block mod 2 ^ (128 - snd block) = 0.
Proof.
  assert (A : forallb block_ok_v6
                (link_local_block_v6 :: multicast_block_v6
                 :: private_blocks_v6 ++ private_exceptions_v6)%list = true)
    by (vm_compute; reflexivity).
  intros H. apply (proj1 (forallb_forall _ _) A) in H.
  unfold block_ok_v6 in H.
  rewrite !andb_true_iff, !Z.leb_le, Z.eqb_eq in H. tauto.
Qed.

(** [is_private] of the IPv6 network from [x] to [y], on the numbers. *)
Lemma private_classified_v6 x y :
  0 <= IPv6Address._ip x < 2 ^ 128 -> 0 <= IPv6Address._ip y < 2 ^ 128 ->
  existsb (fun priv_network =>
             IPv6Network.__contains__ priv_network x
             && IPv6Network.__contains__ priv_network y)
          IPv6Network._constants._private_networks
  && forallb (fun network =>
                negb (IPv6Network.__contains__ network x)
                && negb (IPv6Network.__contains__ network y))
             IPv6Network._constants._private_networks_exceptions = true
  <-> classified 128 private_blocks_v6 private_exceptions_v6
        (IPv6Address._ip x) (IPv6Address._ip y).
Proof.
  intros Hx Hy. rewrite private_table_v6, exceptions_table_v6.
  assert (C : forall block v,
            In block (private_blocks_v6 ++ private_exceptions_v6)%list ->
            0 <= IPv6Address._ip v < 2 ^ 128 ->
            IPv6Network.__contains__ (block_network_v6 block) v = true
            <-> inside 128 block (IPv6Address._ip v)).
  { intros block v I Hv.
    destruct (blocks_ok_v6 block) as [R M]; [now do 2 right|].
    now apply contains_block_v6. }
  unfold classified.
  rewrite andb_true_iff, existsb_exists, forallb_forall. split.
  - intros [(P & I & E) F]. apply in_map_iff in I as (block & <- & I).
    apply andb_true_iff in E as [E1 E2].
    split.
    + exists block. split; [exact I|].
      split; apply C; try assumption; apply in_or_app; now left.
    + intros e Ie.
      specialize (F _ (in_map block_network_v6 _ _ Ie)).
      apply andb_true_iff in F as [F1 F2].
      apply negb_true_iff in F1, F2.
      split; intros Z; apply C in Z; try assumption;
        try (apply in_or_app; now right); congruence.
  - intros [(block & I & E1 & E2) F]. split.
    + exists (block_network_v6 block). split; [now apply in_map|].
      apply andb_true_iff.
      split; apply C; try assumption; apply in_or_app; now left.
    + intros P I'. apply in_map_iff in I' as (e & <- & Ie).
      destruct (F e Ie) as [F1 F2].
      apply andb_true_iff. split; apply negb_true_iff, not_true_iff_false;
        intros Z; apply C in Z; try assumption;
        try (apply in_or_app; now right); contradiction.
Qed.

Lemma within_v6 block x y :
  In block [link_local_block_v6; multicast_block_v6] ->
  0 <= IPv6Address._ip x < 2 ^ 128 -> 0 <= IPv6Address._ip y < 2 ^ 128 ->
  IPv6Network.__contains__ (block_network_v6 block) x
  && IPv6Network.__contains__ (block_network_v6 block) y = true
  <-> inside 128 block (IPv6Address._ip x)
      /\ inside 128 block (IPv6Address._ip y).
Proof.
  intros I Hx Hy.
  destruct (blocks_ok_v6 block) as [R M].
  { destruct I as [<-|[<-|[]]]; [now left | now right; left]. }
  rewrite andb_true_iff, !contains_block_v6 by assumption. tauto.
Qed.

(** *** What an accepted input is *)

Lemma of_int_v6_inv x t :
  IPv6Address.of_int x = Return t -> t = IPv6Address.Build x None.
Proof.
  unfold IPv6Address.of_int. intros H.
  apply bind_Return in H as (u & _ & H). apply Return_inj in H.
  now symmetry.
Qed.

Lemma prefix_from_prefix_string_range_v6 s p :
  _prefix_from_prefix_string (cls := _BaseV6.cls) s = Return p ->
  0 <= p <= 128.
Proof.
  unfold _prefix_from_prefix_string, _report_invalid_netmask. intros H.
  destruct (negb (Py.isascii s && Py.isdigit s)); [discriminate|].
  apply bind_Return in H as (n & _ & H).
  change (_max_prefixlen (IPClass := _BaseV6.cls)) with 128 in H.
  destruct (negb ((0 <=? n) && (n <=? 128))) eqn:R; [discriminate|].
  injection H as <-. apply negb_false_iff in R. lia.
Qed.

(** A netmask argument that is accepted gives a prefix length in [0,128]
    and the mask of that length. *)
Lemma make_netmask_v6_inv arg netmask p :
  IPv6Network._make_netmask (MaskStr arg) = Return (netmask, p) ->
  0 <= p <= 128 /\ netmask = IPv6Address.Build (v6_mask p) None.
Proof.
  unfold IPv6Network._make_netmask. intros H.
  apply bind_Return in H as (q & Hq & H).
  apply bind_Return in H as (m & Hm & H).
  apply Return_inj in H. injection H as <- <-.
  split; [eapply prefix_from_prefix_string_range_v6; eassumption|].
  now apply of_int_v6_inv in Hm.
Qed.

(** The network that [IPv4Network] builds comes from an address and a
    netmask that are accepted. *)
Lemma network_v4_inv address prefix network :
  Py.contains "/" address = false -> Py.contains "/" prefix = false ->
  IPv4Network.__init__ (ArgStr (address ++ "/" ++ prefix)) false
  = Return network ->
  exists a netmask p,
    IPv4Address.of_str address = Return (IPv4Address.Build a)
    /\ IPv4Network._make_netmask (MaskStr prefix) = Return (netmask, p).
Proof.
  intros Sa Sp H. unfold IPv4Network.__init__ in H.
  rewrite (split_addr_prefix_two _ _ Sa Sp) in H. cbn [bind] in H.
  apply bind_Return in H as ([a] & A & H).
  apply bind_Return in H as ([netmask p] & M & _).
  exists a, netmask, p. auto.
Qed.

(** The same for [IPv6Network]: the network address is the address AND
    the mask. *)
Lemma network_v6_inv address prefix network :
  Py.contains "/" address = false -> Py.contains "/" prefix = false ->
  IPv6Network.__init__ (ArgStr (address ++ "/" ++ prefix)) false
  = Return network ->
  exists a scope p,
    IPv6Address.of_str address = Return (IPv6Address.Build a scope)
    /\ IPv6Network._make_netmask (MaskStr prefix)
       = Return (IPv6Address.Build (v6_mask p) None, p)
    /\ 0 <= p <= 128
    /\ IPv6Address._ip (IPv6Network.network_address network)
       = Z.land a (v6_mask p)
    /\ IPv6Network.netmask network = IPv6Address.Build (v6_mask p) None.
Proof.
  intros Sa Sp H. unfold IPv6Network.__init__ in H.
  rewrite (split_addr_prefix_two _ _ Sa Sp) in H. cbn [bind] in H.
  apply bind_Return in H as ([a scope] & A & H).
  apply bind_Return in H as ([netmask p] & M & H).
  destruct (make_netmask_v6_inv _ _ _ M) as [R ->].
  exists a, scope, p. split; [exact A|]. split; [exact M|].
  split; [exact R|].
  cbn [IPv6Address.__int__ IPv6Address._ip] in H.
  destruct (Z.land a (v6_mask p) =? a) eqn:E; cbn [negb] in H.
  - apply Return_inj in H. subst network. apply Z.eqb_eq in E.
    cbn [IPv6Network.network_address IPv6Network.netmask IPv6Address._ip].
    auto.
  - apply bind_Return in H as (na & N & H). apply of_int_v6_inv in N.
    apply Return_inj in H. subst network na.
    cbn [IPv6Network.network_address IPv6Network.netmask IPv6Address._ip].
    auto.
Qed.

Lemma broadcast_v6_inv network broadcast :
  IPv6Network.broadcast_address network = Return broadcast ->
  IPv6Address._ip broadcast
  = Z.lor (IPv6Address._ip (IPv6Network.network_address network))
          (Z.lxor (IPv6Address._ip (IPv6Network.netmask network))
                  (2 ^ 128 - 1)).
Proof.
  unfold IPv6Network.broadcast_address, IPv6Network.hostmask. intros H.
  apply bind_Return in H as (hostmask & Hh & H).
  apply of_int_v6_inv in Hh, H. subst broadcast hostmask. reflexivity.
Qed.

(** A successful analysis is an IPv4 one, of an accepted address and
    netmask, or an IPv6 one, of a network that [IPv6Network] built. *)
Lemma analyse_accepted address prefix title info :
  Py.contains "/" address = false -> Py.contains "/" prefix = false ->
  analyse address prefix = Return (title, info) ->
  (title = "IPv4 Address Information"
   /\ exists a netmask p,
        IPv4Address.of_str address = Return (IPv4Address.Build a)
        /\ IPv4Network._make_netmask (MaskStr prefix) = Return (netmask, p)
        /\ info = ipv4_fields a p)
  \/ (title = "IPv6 Address Information"
      /\ exists network interface,
           IPv6Network.__init__ (ArgStr (address ++ "/" ++ prefix)) false
           = Return network
           /\ IPCalculator.calculate_ipv6 network interface = Return info).
Proof.
  intros Sa Sp H. pose proof H as H0. unfold analyse in H.
  destruct (version_cases address) as [V|[V|V]]; rewrite V in H;
    apply bind_Return in H as (network & N & H);
    apply bind_Return in H as (interface & _ & H);
    apply bind_Return in H as (d & K & H);
    apply Return_inj in H; injection H as <- <-.
  - left. split; [reflexivity|].
    destruct (network_v4_inv _ _ _ Sa Sp N) as (a & netmask & p & A & M).
    exists a, netmask, p. split; [exact A|]. split; [exact M|].
    rewrite (valid_analyse _ _ _ _ _ A M Sp) in H0.
    apply Return_inj in H0. now injection H0.
  - right. split; [reflexivity|]. eauto.
  - right. split; [reflexivity|]. eauto.
Qed.

(** The four flags of an IPv6 analysis, on the numbers. *)
Lemma ipv6_flags_classified address prefix network interface info :
  Py.contains "/" address = false -> Py.contains "/" prefix = false ->
  IPv6Network.__init__ (ArgStr (address ++ "/" ++ prefix)) false
  = Return network ->
  IPCalculator.calculate_ipv6 network interface = Return info ->
  exists a scope p netmask n b is_private is_global is_link_local is_multicast,
    IPv6Address.of_str address = Return (IPv6Address.Build a scope)
    /\ IPv6Network._make_netmask (MaskStr prefix) = Return (netmask, p)
    /\ n = Z.land a (mask128 p)
    /\ b = Z.lor n (not128 (mask128 p))
    /\ get "is_private" info = Some (VBool is_private)
    /\ get "is_global" info = Some (VBool is_global)
    /\ get "is_link_local" info = Some (VBool is_link_local)
    /\ get "is_multicast" info = Some (VBool is_multicast)
    /\ (is_private = true
        <-> classified 128 private_blocks_v6 private_exceptions_v6 n b)
    /\ is_global = negb is_private
    /\ (is_link_local = true
        <-> inside 128 link_local_block_v6 n
            /\ inside 128 link_local_block_v6 b)
    /\ (is_multicast = true
        <-> inside 128 multicast_block_v6 n
            /\ inside 128 multicast_block_v6 b).
Proof.
  intros Sa Sp N H.
  destruct (network_v6_inv _ _ _ Sa Sp N) as (a & scope & p & A & M & R & En & Em).
  destruct (v6_mask_facts p R) as (F1 & _ & F3 & _).
  unfold IPCalculator.calculate_ipv6 in H.
  apply bind_Return in H as (sna & _ & H).
  apply bind_Return in H as (priv & Hpriv & H).
  apply bind_Return in H as (glob & Hglob & H).
  apply bind_Return in H as (ll & Hll & H).
  apply bind_Return in H as (mc & Hmc & H).
  apply bind_Return in H as (rv & _ & H).
  apply Return_inj in H. subst info.
  unfold IPv6Network.is_global in Hglob. rewrite Hpriv in Hglob.
  cbn [bind] in Hglob. apply Return_inj in Hglob.
  unfold IPv6Network.is_private in Hpriv.
  apply bind_Return in Hpriv as (bc & Hb & Hpriv). apply Return_inj in Hpriv.
  unfold IPv6Network.is_link_local in Hll. rewrite Hb in Hll.
  cbn [bind] in Hll. apply Return_inj in Hll.
  unfold IPv6Network.is_multicast in Hmc. rewrite Hb in Hmc.
  cbn [bind] in Hmc. apply Return_inj in Hmc.
  apply broadcast_v6_inv in Hb. rewrite Em in Hb.
  cbn [IPv6Address._ip] in Hb.
  set (na := IPv6Network.network_address network) in *.
  rewrite En, F3 in Hb. rewrite F1 in En, Hb.
  assert (Rn : 0 <= IPv6Address._ip na < 2 ^ 128).
  { rewrite En, <- F1. apply land_range_128, v6_mask_range, R. }
  assert (Rb : 0 <= IPv6Address._ip bc < 2 ^ 128).
  { rewrite Hb. apply lor_range_128.
    - rewrite <- En. exact Rn.
    - rewrite <- F3. apply v6_hostmask_range, R. }
  exists a, scope, p, (IPv6Address.Build (v6_mask p) None),
    (IPv6Address._ip na), (IPv6Address._ip bc), priv, glob, ll, mc.
  split; [exact A|]. split; [exact M|]. split; [exact En|].
  split; [now rewrite En|].
  do 4 (split; [reflexivity|]).
  split; [rewrite <- Hpriv; now apply private_classified_v6|].
  split; [now symmetry|].
  rewrite <- Hll, <- Hmc, link_local_table_v6, multicast_table_v6.
  split; apply within_v6; try assumption; cbn [In]; auto.
Qed.

(** C4, amended.  For every accepted input the classification fields
    are those of the computed network, from its network address [n] (the
    address AND the mask) to its broadcast address [b], against the fixed
    range tables of the family, the entries of the IANA special-purpose
    registries: [is_private] is true exactly when [n] and [b] lie inside
    one block of the table of private networks and in no excepted block;
    [is_global] is its negation, for IPv4 outside [100.64.0.0/10];
    [is_link_local] and [is_multicast], which only the IPv6 analysis has,
    are true exactly when [n] and [b] lie inside [fe80::/10] and
    [ff00::/8].  In particular an IPv4 address inside one of the five
    listed ranges has [is_private] true whenever the prefix length is at
    least the one of that range. *)
Theorem C4_flags_of_the_network input :
  succeeds input ->
  exists address prefix title info,
    Py.split "/" input = [address; prefix]
    /\ analyse address prefix = Return (title, info)
    /\ (forall out,
          IPAddressProcessor.process_address input out
          = (Return 0, (out ++ rendered title info)%list))
    /\ ((title = "IPv4 Address Information"
         /\ exists a p netmask n b is_private is_global,
              IPv4Address.of_str address = Return (IPv4Address.Build a)
              /\ IPv4Network._make_netmask (MaskStr prefix)
                 = Return (netmask, p)
              /\ n = Z.land a (mask32 p)
              /\ b = Z.lor n (not32 (mask32 p))
              /\ get "is_private" info = Some (VBool is_private)
              /\ get "is_global" info = Some (VBool is_global)
              /\ get "is_link_local" info = None
              /\ get "is_multicast" info = None
              /\ (is_private = true
                  <-> classified 32 private_blocks private_exceptions n b)
              /\ (is_global = true
                  <-> is_private = false
                      /\ ~ (inside 32 shared_block n
                            /\ inside 32 shared_block b))
              /\ (forall range,
                    In range claimed_private_ranges ->
                    inside 32 range a -> snd range <= p ->
                    is_private = true))
        \/ (title = "IPv6 Address Information"
            /\ exists a scope p netmask n b
                      is_private is_global is_link_local is_multicast,
                 IPv6Address.of_str address
                 = Return (IPv6Address.Build a scope)
                 /\ IPv6Network._make_netmask (MaskStr prefix)
                    = Return (netmask, p)
                 /\ n = Z.land a (mask128 p)
                 /\ b = Z.lor n (not128 (mask128 p))
                 /\ get "is_private" info = Some (VBool is_private)
                 /\ get "is_global" info = Some (VBool is_global)
                 /\ get "is_link_local" info = Some (VBool is_link_local)
                 /\ get "is_multicast" info = Some (VBool is_multicast)
                 /\ (is_private = true
                     <-> classified 128 private_blocks_v6
                           private_exceptions_v6 n b)
                 /\ is_global = negb is_private
                 /\ (is_link_local = true
                     <-> inside 128 link_local_block_v6 n
                         /\ inside 128 link_local_block_v6 b)
                 /\ (is_multicast = true
                     <-> inside 128 multicast_block_v6 n
                         /\ inside 128 multicast_block_v6 b))).
Proof.
  intros S. unfold succeeds in S.
  destruct (process_address_cases input)
    as [(message & _ & P) | (address & prefix & title & info & Hs & A & P)];
    [rewrite P in S; discriminate S|].
  exists address, prefix, title, info.
  split; [exact Hs|]. split; [exact A|]. split; [exact P|].
  destruct (split_two _ _ _ Hs) as (Sa & Sp & _).
  destruct (analyse_accepted _ _ _ _ Sa Sp A)
    as [(-> & a & netmask & p & Ha & Hp & ->)
       | (-> & network & interface & N & C)].
  - left. split; [reflexivity|].
    destruct (valid_address _ _ Ha) as [_ Ra].
    destruct (valid_prefix _ _ _ Hp) as [Rp _].
    pose proof (network_of_range a p Ra Rp) as Rn.
    pose proof (broadcast_of_range a p Ra Rp) as Rb.
    exists a, p, netmask, (network_of a p), (broadcast_of a p),
      (net_is_private (network_of a p) (broadcast_of a p)),
      (net_is_global (network_of a p) (broadcast_of a p)).
    split; [exact Ha|]. split; [exact Hp|].
    split; [unfold network_of; now rewrite (v4_mask_spec p Rp)|].
    split.
    { unfold broadcast_of. now destruct (v4_hostmask p Rp) as [-> _]. }
    do 4 (split; [reflexivity|]).
    split; [now apply net_is_private_classified|].
    split; [now apply net_is_global_classified|].
    intros range I [L U] Hr.
    destruct (claimed_ranges_in_table range I) as (_ & R & M & _).
    destruct (network_inside_block a p (fst range) (snd range))
      as (N1 & N2 & N3); try assumption; try lia.
    exact (net_is_private_inside range _ _ I N1 N2 N3).
  - right. split; [reflexivity|].
    exact (ipv6_flags_classified _ _ _ _ _ Sa Sp N C).
Qed.

Lemma C4_witness :
  succeeds "10.0.0.5/24"
  /\ succeeds "fe80::1/64"
  /\ (exists info,
        analyse "10.0.0.5" "24" = Return ("IPv4 Address Information", info)
        /\ get "is_private" info = Some (VBool true))
  /\ (exists info,
        analyse "fe80::1" "64" = Return ("IPv6 Address Information", info)
        /\ get "is_link_local" info = Some (VBool true)).
Proof.
  assert (S4 : succeeds "10.0.0.5/24") by (vm_compute; reflexivity).
  assert (S6 : succeeds "fe80::1/64") by (vm_compute; reflexivity).
  split; [exact S4|]. split; [exact S6|]. split.
  - destruct (C4_flags_of_the_network "10.0.0.5/24" S4)
      as (address & prefix & title & info & Hs & A & _
          & [(-> & a & p & netmask & n & b & is_private & is_global
              & Ha & Hp & _ & _ & Gp & _ & _ & _ & _ & _ & Particular)
            | (-> & _)]);
      vm_compute in Hs; injection Hs as <- <-.
    + vm_compute in Ha. injection Ha as <-.
      vm_compute in Hp. injection Hp as <- <-.
      exists info. split; [exact A|].
      rewrite Gp. do 2 f_equal.
      apply (Particular (quad 10 0 0 0, 8)).
      * simpl. tauto.
      * vm_compute. split; [intros X; discriminate X | reflexivity].
      * simpl. lia.
    + vm_compute in A. discriminate A.
  - destruct (C4_flags_of_the_network "fe80::1/64" S6)
      as (address & prefix & title & info & Hs & A & _
          & [(-> & _)
            | (-> & a & scope & p & netmask & n & b
               & is_private & is_global & is_link_local & is_multicast
               & Ha & Hp & -> & -> & _ & _ & Gl & _ & _ & _ & Cl & _)]);
      vm_compute in Hs; injection Hs as <- <-.
    + vm_compute in A. discriminate A.
    + vm_compute in Ha. injection Ha as <- <-.
      vm_compute in Hp. injection Hp as <- <-.
      exists info. split; [exact A|].
      rewrite Gl. do 2 f_equal.
      apply Cl. vm_compute.
      repeat split; first [reflexivity | intros X; discriminate X].
Defined.

(** * Further properties of the program *)

(** ** The IPv4 dictionary *)

Section AcceptedIPv4.

(** An accepted IPv4 input, as in [ValidIPv4]. *)
Variables (address prefix : string) (a p : Z) (netmask : IPv4Address.t).
Hypothesis Haddress :
  IPv4Address.of_str address = Return (IPv4Address.Build a).
Hypothesis Hprefix :
  IPv4Network._make_netmask (MaskStr prefix) = Return (netmask, p).
Hypothesis Hslash : Py.contains "/" prefix = false.

Lemma accepted_ranges : 0 <= a < 2 ^ 32 /\ 0 <= p <= 32.
Proof.
  split; [apply (valid_address _ _ Haddress) | apply (valid_prefix _ _ _ Hprefix)].
Qed.

Lemma accepted_analyse :
  analyse address prefix
  = Return ("IPv4 Address Information", ipv4_fields a p).
Proof. exact (valid_analyse _ _ _ _ _ Haddress Hprefix Hslash). Qed.

Lemma accepted_block :
  0 <= network_of a p /\ network_of a p <= a /\ a <= broadcast_of a p
  /\ broadcast_of a p < 2 ^ 32
  /\ network_of a p mod 2 ^ (32 - p) = 0
  /\ broadcast_of a p = network_of a p + 2 ^ (32 - p) - 1.
Proof.
  destruct accepted_ranges as [Ra Rp].
  rewrite broadcast_of_eq, network_of_eq by assumption.
  assert (K : 0 < 2 ^ (32 - p)) by (apply Z.pow_pos_nonneg; lia).
  pose proof (Z.mod_pos_bound a _ K) as M.
  pose proof (network_bounds a p Ra Rp) as B.
  pose proof (Z.div_mod a (2 ^ (32 - p)) ltac:(lia)) as D.
  repeat split; try lia.
  replace (a - a mod 2 ^ (32 - p)) with (a / 2 ^ (32 - p) * 2 ^ (32 - p))
    by lia.
  apply Z.mod_mul. lia.
Qed.

End AcceptedIPv4.

(** X1.  For every accepted IPv4 input, whatever the notation of the
    netmask, [host_count] is [2^(32-p) - 2] where [p] is the prefix
    length: it is negative exactly for [p = 32] and zero exactly for
    [p = 31]. *)
Theorem X1_host_count_formula address prefix a p netmask :
  IPv4Address.of_str address = Return (IPv4Address.Build a) ->
  IPv4Network._make_netmask (MaskStr prefix) = Return (netmask, p) ->
  Py.contains "/" prefix = false ->
  exists info count,
    analyse address prefix = Return ("IPv4 Address Information", info)
    /\ get "host_count" info = Some (VInt count)
    /\ count = 2 ^ (32 - p) - 2
    /\ (count < 0 <-> p = 32)
    /\ (count = 0 <-> p = 31).
Proof.
  intros Ha Hp Hs.
  destruct (accepted_ranges _ _ _ _ _ Ha Hp) as [Ra Rp].
  exists (ipv4_fields a p), (2 ^ (32 - p) - 2).
  split; [eapply accepted_analyse; eassumption|].
  split; [apply host_count_formula; assumption|].
  split; [reflexivity|].
  assert (C : forall q, 0 <= q <= 32 ->
                (2 ^ (32 - q) - 2 < 0 <-> q = 32)
                /\ (2 ^ (32 - q) - 2 = 0 <-> q = 31)).
  { intros q Hq. each_prefix Hq; vm_compute; repeat split; intros; easy. }
  apply C, Rp.
Qed.

Lemma X1_witness :
  IPv4Address.of_str "10.0.0.5" = Return (IPv4Address.Build 167772165)
  /\ IPv4Network._make_netmask (MaskStr "255.255.255.0")
     = Return (IPv4Address.Build 4294967040, 24)
  /\ Py.contains "/" "255.255.255.0" = false
  /\ exists info count,
       analyse "10.0.0.5" "255.255.255.0"
       = Return ("IPv4 Address Information", info)
       /\ get "host_count" info = Some (VInt count)
       /\ count = 2 ^ (32 - 24) - 2
       /\ (count < 0 <-> 24 = 32)
       /\ (count = 0 <-> 24 = 31).
Proof.
  split; [vm_compute; reflexivity|].
  split; [vm_compute; reflexivity|].
  split; [reflexivity|].
  apply (X1_host_count_formula "10.0.0.5" "255.255.255.0" 167772165 24
           (IPv4Address.Build 4294967040));
    vm_compute; reflexivity.
Defined.

(** X2.  For every accepted IPv4 input the address lies between the
    network address and the broadcast address that are printed; the
    network address is a multiple of the block size [2^(32-p)] and the
    broadcast address is the last address of that block. *)
Theorem X2_address_inside_block address prefix a p netmask :
  IPv4Address.of_str address = Return (IPv4Address.Build a) ->
  IPv4Network._make_netmask (MaskStr prefix) = Return (netmask, p) ->
  Py.contains "/" prefix = false ->
  exists info n b,
    analyse address prefix = Return ("IPv4 Address Information", info)
    /\ get "network_address" info = Some (VStr (dotted n))
    /\ get "broadcast_address" info = Some (VStr (dotted b))
    /\ 0 <= n /\ n <= a /\ a <= b /\ b < 2 ^ 32
    /\ n mod 2 ^ (32 - p) = 0
    /\ b = n + 2 ^ (32 - p) - 1.
Proof.
  intros Ha Hp Hs.
  exists (ipv4_fields a p), (network_of a p), (broadcast_of a p).
  split; [eapply accepted_analyse; eassumption|].
  split; [reflexivity|]. split; [reflexivity|].
  eapply accepted_block; eassumption.
Qed.

Lemma X2_witness :
  IPv4Address.of_str "172.16.5.4" = Return (IPv4Address.Build 2886731012)
  /\ IPv4Network._make_netmask (MaskStr "12")
     = Return (IPv4Address.Build 4293918720, 12)
  /\ Py.contains "/" "12" = false
  /\ exists info n b,
       analyse "172.16.5.4" "12" = Return ("IPv4 Address Information", info)
       /\ get "network_address" info = Some (VStr (dotted n))
       /\ get "broadcast_address" info = Some (VStr (dotted b))
       /\ 0 <= n /\ n <= 2886731012 /\ 2886731012 <= b /\ b < 2 ^ 32
       /\ n mod 2 ^ (32 - 12) = 0
       /\ b = n + 2 ^ (32 - 12) - 1.
Proof.
  split; [vm_compute; reflexivity|].
  split; [vm_compute; reflexivity|].
  split; [reflexivity|].
  apply (X2_address_inside_block "172.16.5.4" "12" 2886731012 12
           (IPv4Address.Build 4293918720));
    vm_compute; reflexivity.
Defined.

(** ** Notations of the netmask *)

(** The dotted netmask of every prefix length, and the dotted host mask
    of the lengths 1 to 31, are read as that prefix length. *)
Lemma make_netmask_v4_dotted p :
  0 <= p <= 32 ->
  IPv4Network._make_netmask (MaskStr (dotted (mask32 p)))
  = Return (IPv4Address.Build (v4_mask p), p)
  /\ (1 <= p <= 31 ->
      IPv4Network._make_netmask (MaskStr (dotted (not32 (mask32 p))))
      = Return (IPv4Address.Build (v4_mask p), p)).
Proof.
  intros H. each_prefix H; split;
    first [ intros; vm_compute; reflexivity | intros [? ?]; lia ].
Qed.

(** X3.  The part after the slash may be a prefix length, the dotted
    netmask of that length or, for the lengths 1 to 31, the dotted host
    mask: [process_address] prints the same analysis and returns 0 for the
    three notations. *)
Theorem X3_netmask_notations a p out :
  0 <= a < 2 ^ 32 -> 0 <= p <= 32 ->
  IPAddressProcessor.process_address
    (dotted a ++ "/" ++ dotted (mask32 p)) out
  = IPAddressProcessor.process_address (dotted a ++ "/" ++ Py.str_int p) out
  /\ (1 <= p <= 31 ->
      IPAddressProcessor.process_address
        (dotted a ++ "/" ++ dotted (not32 (mask32 p))) out
      = IPAddressProcessor.process_address
          (dotted a ++ "/" ++ Py.str_int p) out)
  /\ fst (IPAddressProcessor.process_address
            (dotted a ++ "/" ++ Py.str_int p) out) = Return 0.
Proof.
  intros Ha Hp.
  destruct (make_netmask_v4_dotted p Hp) as [N H].
  pose proof (of_str_dotted a Ha) as A.
  rewrite (canonical_process a p out Ha Hp).
  split; [|split; [intros R|reflexivity]].
  - exact (valid_process _ _ _ _ _ A N (dotted_no_slash _) out).
  - exact (valid_process _ _ _ _ _ A (H R) (dotted_no_slash _) out).
Qed.

Lemma X3_witness :
  (0 <= 167772165 < 2 ^ 32) /\ (0 <= 24 <= 32) /\ (1 <= 24 <= 31)
  /\ IPAddressProcessor.process_address "10.0.0.5/255.255.255.0" []
     = IPAddressProcessor.process_address "10.0.0.5/24" []
  /\ IPAddressProcessor.process_address "10.0.0.5/0.0.0.255" []
     = IPAddressProcessor.process_address "10.0.0.5/24" [].
Proof.
  split; [lia|]. split; [lia|]. split; [lia|].
  destruct (X3_netmask_notations 167772165 24 [] ltac:(lia) ltac:(lia))
    as (E1 & E2 & _).
  split; [exact E1 | exact (E2 ltac:(lia))].
Defined.

(** ** The version of an address *)

(** X4.  [get_address_version] returns 4 exactly for the dotted quads of
    the 32-bit addresses: four decimal octets from 0 to 255, written
    without sign, space or leading zero and joined by dots.  Its result
    is always 4, 6 or -1. *)
Theorem X4_version_4_iff_dotted_quad address :
  (IPCalculator.get_address_version address = 4
   <-> exists o3 o2 o1 o0,
         0 <= o3 <= 255 /\ 0 <= o2 <= 255 /\ 0 <= o1 <= 255 /\ 0 <= o0 <= 255
         /\ address = Py.str_int o3 ++ "." ++ Py.str_int o2 ++ "."
                      ++ Py.str_int o1 ++ "." ++ Py.str_int o0)
  /\ (IPCalculator.get_address_version address = 4
      \/ IPCalculator.get_address_version address = 6
      \/ IPCalculator.get_address_version address = -1).
Proof.
  split; [|apply version_cases]. split.
  - unfold IPCalculator.get_address_version.
    destruct (ip_address address) as [[[a]|a6]|e] eqn:E; try discriminate.
    intros _. apply ip_address_V4 in E.
    pose proof (of_str_canonical _ _ E) as C. rewrite dotted_unfold in C.
    exists (a / 256 / 256 / 256 mod 256), (a / 256 / 256 mod 256),
      (a / 256 mod 256), (a mod 256).
    repeat (split; [apply octet_range|]). exact C.
  - intros (o3 & o2 & o1 & o0 & H3 & H2 & H1 & H0 & ->).
    set (a := Py.from_bytes [o3; o2; o1; o0]).
    assert (Ra : 0 <= a < 2 ^ 32)
      by (unfold a; rewrite from_bytes_4; lia).
    assert (D : dotted a = Py.str_int o3 ++ "." ++ Py.str_int o2 ++ "."
                           ++ Py.str_int o1 ++ "." ++ Py.str_int o0).
    { unfold dotted, _BaseV4._string_from_ip_int, a.
      rewrite to_from_bytes_4 by assumption. reflexivity. }
    rewrite <- D.
    exact (valid_version _ _ (of_str_dotted a Ra)).
Qed.

(** ** The address as typed *)

(** X5.  For every accepted IPv4 input [address/prefix] the fields show
    the address exactly as it was typed: [ipaddress] is [address],
    [cidr_notation] is [address], a slash and the prefix length in
    decimal (also when a dotted mask was typed), and [cisco_notation] is
    [address], a space and the dotted netmask. *)
Theorem X5_address_as_typed address prefix a p netmask :
  IPv4Address.of_str address = Return (IPv4Address.Build a) ->
  IPv4Network._make_netmask (MaskStr prefix) = Return (netmask, p) ->
  Py.contains "/" prefix = false ->
  exists info,
    analyse address prefix = Return ("IPv4 Address Information", info)
    /\ get "ipaddress" info = Some (VStr address)
    /\ get "cidr_notation" info = Some (VStr (address ++ "/" ++ Py.str_int p))
    /\ get "cisco_notation" info
       = Some (VStr (address ++ " " ++ dotted (mask32 p))).
Proof.
  intros Ha Hp Hs. exists (ipv4_fields a p).
  destruct (accepted_ranges _ _ _ _ _ Ha Hp) as [_ Rp].
  split; [eapply accepted_analyse; eassumption|].
  rewrite (of_str_canonical _ _ Ha).
  cbn [get ipv4_fields String.eqb Ascii.eqb Bool.eqb].
  rewrite (v4_mask_spec p Rp). repeat split.
Qed.

Lemma X5_witness :
  IPv4Address.of_str "10.0.0.5" = Return (IPv4Address.Build 167772165)
  /\ IPv4Network._make_netmask (MaskStr "255.255.255.0")
     = Return (IPv4Address.Build 4294967040, 24)
  /\ Py.contains "/" "255.255.255.0" = false
  /\ exists info,
       analyse "10.0.0.5" "255.255.255.0"
       = Return ("IPv4 Address Information", info)
       /\ get "ipaddress" info = Some (VStr "10.0.0.5")
       /\ get "cidr_notation" info = Some (VStr ("10.0.0.5" ++ "/" ++ Py.str_int 24))
       /\ get "cisco_notation" info
          = Some (VStr ("10.0.0.5" ++ " " ++ dotted (mask32 24))).
Proof.
  split; [vm_compute; reflexivity|].
  split; [vm_compute; reflexivity|].
  split; [reflexivity|].
  apply (X5_address_as_typed "10.0.0.5" "255.255.255.0" 167772165 24
           (IPv4Address.Build 4294967040));
    vm_compute; reflexivity.
Defined.

(** ** Analysing the printed notations again *)

Lemma network_of_idempotent a p :
  network_of (network_of a p) p = network_of a p
  /\ broadcast_of (network_of a p) p = broadcast_of a p.
Proof.
  assert (E : network_of (network_of a p) p = network_of a p).
  { unfold network_of. now rewrite <- Z.land_assoc, Z.land_diag. }
  split; [exact E|]. unfold broadcast_of. now rewrite E.
Qed.

(** X6.  The notations that are printed are inputs again.  The
    [cidr_notation] of an accepted IPv4 input gives the same output as
    the input itself.  The [ubuntu_subnet] gives an analysis with the
    same network address, broadcast address, host count, [is_private],
    [is_global] and [ubuntu_subnet], whose [ipaddress] is that network
    address and whose [is_network_address] is true. *)
Theorem X6_printed_notations_are_inputs address prefix a p netmask out :
  IPv4Address.of_str address = Return (IPv4Address.Build a) ->
  IPv4Network._make_netmask (MaskStr prefix) = Return (netmask, p) ->
  Py.contains "/" prefix = false ->
  exists info cidr network_address info',
    analyse address prefix = Return ("IPv4 Address Information", info)
    /\ get "cidr_notation" info = Some (VStr cidr)
    /\ IPAddressProcessor.process_address cidr out
       = IPAddressProcessor.process_address (address ++ "/" ++ prefix) out
    /\ get "network_address" info = Some (VStr network_address)
    /\ get "ubuntu_subnet" info
       = Some (VStr (network_address ++ "/" ++ Py.str_int p))
    /\ analyse network_address (Py.str_int p)
       = Return ("IPv4 Address Information", info')
    /\ (forall key,
          In key ["network_address"; "broadcast_address"; "host_count";
                  "is_private"; "is_global"; "ubuntu_subnet"] ->
          get key info' = get key info)
    /\ get "ipaddress" info' = Some (VStr network_address)
    /\ get "is_network_address" info' = Some (VBool true).
Proof.
  intros Ha Hp Hs.
  destruct (accepted_ranges _ _ _ _ _ Ha Hp) as [Ra Rp].
  pose proof (network_of_range a p Ra Rp) as Rn.
  destruct (network_of_idempotent a p) as [En Eb].
  destruct (make_netmask_v4_decimal p Rp) as [M S].
  exists (ipv4_fields a p), (dotted a ++ "/" ++ Py.str_int p),
    (dotted (network_of a p)), (ipv4_fields (network_of a p) p).
  split; [eapply accepted_analyse; eassumption|].
  split; [reflexivity|].
  split.
  { rewrite (canonical_process a p out Ra Rp).
    symmetry. exact (valid_process _ _ _ _ _ Ha Hp Hs out). }
  split; [reflexivity|]. split; [reflexivity|].
  split; [exact (valid_analyse _ _ _ _ _ (of_str_dotted _ Rn) M S)|].
  split.
  { intros key K. cbv [In] in K.
    repeat (destruct K as [<- | K]); [.. | contradiction];
      cbn [get ipv4_fields String.eqb Ascii.eqb Bool.eqb];
      rewrite ?En, ?Eb; reflexivity. }
  cbn [get ipv4_fields String.eqb Ascii.eqb Bool.eqb].
  rewrite En, Z.eqb_refl. split; reflexivity.
Qed.

Lemma X6_witness :
  IPv4Address.of_str "10.0.0.5" = Return (IPv4Address.Build 167772165)
  /\ IPv4Network._make_netmask (MaskStr "255.255.255.0")
     = Return (IPv4Address.Build 4294967040, 24)
  /\ Py.contains "/" "255.255.255.0" = false
  /\ exists info cidr network_address info',
       analyse "10.0.0.5" "255.255.255.0"
       = Return ("IPv4 Address Information", info)
       /\ get "cidr_notation" info = Some (VStr cidr)
       /\ IPAddressProcessor.process_address cidr []
          = IPAddressProcessor.process_address
              ("10.0.0.5" ++ "/" ++ "255.255.255.0") []
       /\ get "network_address" info = Some (VStr network_address)
       /\ get "ubuntu_subnet" info
          = Some (VStr (network_address ++ "/" ++ Py.str_int 24))
       /\ analyse network_address (Py.str_int 24)
          = Return ("IPv4 Address Information", info')
       /\ (forall key,
             In key ["network_address"; "broadcast_address"; "host_count";
                     "is_private"; "is_global"; "ubuntu_subnet"] ->
             get key info' = get key info)
       /\ get "ipaddress" info' = Some (VStr network_address)
       /\ get "is_network_address" info' = Some (VBool true).
Proof.
  split; [vm_compute; reflexivity|].
  split; [vm_compute; reflexivity|].
  split; [reflexivity|].
  apply (X6_printed_notations_are_inputs "10.0.0.5" "255.255.255.0"
           167772165 24 (IPv4Address.Build 4294967040) []);
    vm_compute; reflexivity.
Defined.

(** ** The two flags and the prefix length *)

(** X7.  For every accepted IPv4 input, [is_network_address] and
    [is_broadcast_address] are both true exactly when the prefix length
    is 32; with the prefix length 31 exactly one of them is true; with
    the prefix length 0 the network is [0.0.0.0] and the broadcast
    address [255.255.255.255]. *)
Theorem X7_flags_and_prefix_length address prefix a p netmask :
  IPv4Address.of_str address = Return (IPv4Address.Build a) ->
  IPv4Network._make_netmask (MaskStr prefix) = Return (netmask, p) ->
  Py.contains "/" prefix = false ->
  exists info is_network is_broadcast,
    analyse address prefix = Return ("IPv4 Address Information", info)
    /\ get "is_network_address" info = Some (VBool is_network)
    /\ get "is_broadcast_address" info = Some (VBool is_broadcast)
    /\ (is_network = true /\ is_broadcast = true <-> p = 32)
    /\ (p = 31 -> is_network = negb is_broadcast)
    /\ (p = 0 ->
        get "network_address" info = Some (VStr "0.0.0.0")
        /\ get "broadcast_address" info = Some (VStr "255.255.255.255")).
Proof.
  intros Ha Hp Hs.
  destruct (accepted_ranges _ _ _ _ _ Ha Hp) as [Ra Rp].
  exists (ipv4_fields a p), (network_of a p =? a), (broadcast_of a p =? a).
  split; [eapply accepted_analyse; eassumption|].
  split; [reflexivity|]. split; [reflexivity|].
  pose proof (network_of_eq a p Ra Rp) as En.
  pose proof (broadcast_of_eq a p Ra Rp) as Eb.
  assert (K : 0 < 2 ^ (32 - p)) by (apply Z.pow_pos_nonneg; lia).
  pose proof (Z.mod_pos_bound a _ K) as M.
  split; [|split].
  - rewrite !Z.eqb_eq. split.
    + intros [N B].
      assert (P : 2 ^ (32 - p) = 1) by lia.
      destruct (Z.eq_dec p 32) as [E|E]; [exact E|].
      assert (1 < 2 ^ (32 - p)) by (apply Z.pow_gt_1; lia). lia.
    + intros ->. change (2 ^ (32 - 32)) with 1 in *.
      rewrite Z.mod_1_r in *. lia.
  - intros ->. change (2 ^ (32 - 31)) with 2 in *.
    destruct (network_of a 31 =? a) eqn:N, (broadcast_of a 31 =? a) eqn:B;
      try reflexivity; exfalso;
      rewrite ?Z.eqb_eq, ?Z.eqb_neq in N, B; lia.
  - intros ->. change (2 ^ (32 - 0)) with (2 ^ 32) in *.
    rewrite Z.mod_small in En, Eb by exact Ra.
    cbn [get ipv4_fields String.eqb Ascii.eqb Bool.eqb].
    rewrite En, Eb.
    replace (a - a) with 0 by lia.
    replace (0 + 2 ^ 32 - 1) with 4294967295 by reflexivity.
    split; reflexivity.
Qed.

Lemma X7_witness :
  IPv4Address.of_str "8.8.8.8" = Return (IPv4Address.Build 134744072)
  /\ IPv4Network._make_netmask (MaskStr "31")
     = Return (IPv4Address.Build 4294967294, 31)
  /\ Py.contains "/" "31" = false
  /\ exists info is_network is_broadcast,
       analyse "8.8.8.8" "31" = Return ("IPv4 Address Information", info)
       /\ get "is_network_address" info = Some (VBool is_network)
       /\ get "is_broadcast_address" info = Some (VBool is_broadcast)
       /\ (is_network = true /\ is_broadcast = true <-> 31 = 32)
       /\ (31 = 31 -> is_network = negb is_broadcast)
       /\ (31 = 0 ->
           get "network_address" info = Some (VStr "0.0.0.0")
           /\ get "broadcast_address" info = Some (VStr "255.255.255.255")).
Proof.
  split; [vm_compute; reflexivity|].
  split; [vm_compute; reflexivity|].
  split; [reflexivity|].
  apply (X7_flags_and_prefix_length "8.8.8.8" "31" 134744072 31
           (IPv4Address.Build 4294967294));
    vm_compute; reflexivity.
Defined.

(** ** The classification of an IPv4 network *)

(** X8.  For every accepted IPv4 input, with [n] the network address
    (the address AND the mask) and [b] the broadcast address ([n] OR the
    complement of the mask): [is_private] is true exactly when the block
    from [n] to [b] lies inside one block of the library's table of
    private networks and neither end is [192.0.0.9] or [192.0.0.10].
    [is_private] and [is_global] are never both true, and they are both
    false exactly when the block lies inside [100.64.0.0/10]. *)
Theorem X8_private_and_global address prefix a p netmask :
  IPv4Address.of_str address = Return (IPv4Address.Build a) ->
  IPv4Network._make_netmask (MaskStr prefix) = Return (netmask, p) ->
  Py.contains "/" prefix = false ->
  exists info n b is_private is_global,
    analyse address prefix = Return ("IPv4 Address Information", info)
    /\ n = Z.land a (mask32 p)
    /\ b = Z.lor n (not32 (mask32 p))
    /\ get "network_address" info = Some (VStr (dotted n))
    /\ get "broadcast_address" info = Some (VStr (dotted b))
    /\ get "is_private" info = Some (VBool is_private)
    /\ get "is_global" info = Some (VBool is_global)
    /\ (is_private = true
        <-> (exists block, In block private_blocks
               /\ fst block <= n /\ b < fst block + 2 ^ (32 - snd block))
            /\ ~ In n [quad 192 0 0 9; quad 192 0 0 10]
            /\ ~ In b [quad 192 0 0 9; quad 192 0 0 10])
    /\ (is_private = true -> is_global = false)
    /\ (is_private = false /\ is_global = false
        <-> quad 100 64 0 0 <= n /\ b < quad 100 128 0 0).
Proof.
  intros Ha Hp Hs.
  destruct (accepted_ranges _ _ _ _ _ Ha Hp) as [Ra Rp].
  destruct (accepted_block _ _ _ _ _ Ha Hp) as (B0 & B1 & B2 & B3 & _ & _).
  set (n := network_of a p) in *. set (b := broadcast_of a p) in *.
  assert (Rn : 0 <= n < 2 ^ 32) by lia.
  assert (Rb : 0 <= b < 2 ^ 32) by lia.
  pose proof (net_is_private_spec n b Rn Rb) as P.
  pose proof (net_is_global_spec n b Rn Rb) as G.
  assert (S0 : fst shared_block = quad 100 64 0 0) by reflexivity.
  assert (S1 : fst shared_block + 2 ^ (32 - snd shared_block)
               = quad 100 128 0 0) by reflexivity.
  rewrite S1, S0 in G.
  exists (ipv4_fields a p), n, b, (net_is_private n b), (net_is_global n b).
  split; [eapply accepted_analyse; eassumption|].
  split; [unfold n, network_of; now rewrite (v4_mask_spec p Rp)|].
  split.
  { unfold b, broadcast_of. now destruct (v4_hostmask p Rp) as [-> _]. }
  do 4 (split; [reflexivity|]).
  split; [|split].
  - rewrite P. cbn [In]. split.
    + intros ((r & I & C1 & C2) & E9 & E10).
      split; [exists r; repeat split; try assumption; lia|].
      split; intros [H|[H|[]]]; symmetry in H; tauto.
    + intros ((r & I & C1 & C2) & N9 & N10).
      split; [exists r; repeat split; try assumption; lia|].
      repeat split; intros H; symmetry in H; tauto.
  - intros H. apply G. now right.
  - split.
    + intros [H1 H2]. apply G in H2 as [H2|H2]; [lia | congruence].
    + intros R. split; [|apply G; left; lia].
      apply not_true_iff_false. intros H.
      apply P in H as ((r & I & C1 & C2) & _).
      destruct (private_blocks_ok r I) as (_ & _ & D).
      rewrite S1, S0 in D. lia.
Qed.

Lemma X8_witness :
  IPv4Address.of_str "100.64.3.7" = Return (IPv4Address.Build 1681916679)
  /\ IPv4Network._make_netmask (MaskStr "16")
     = Return (IPv4Address.Build 4294901760, 16)
  /\ Py.contains "/" "16" = false
  /\ exists info n b is_private is_global,
       analyse "100.64.3.7" "16" = Return ("IPv4 Address Information", info)
       /\ n = Z.land 1681916679 (mask32 16)
       /\ b = Z.lor n (not32 (mask32 16))
       /\ get "network_address" info = Some (VStr (dotted n))
       /\ get "broadcast_address" info = Some (VStr (dotted b))
       /\ get "is_private" info = Some (VBool is_private)
       /\ get "is_global" info = Some (VBool is_global)
       /\ (is_private = true
           <-> (exists block, In block private_blocks
                  /\ fst block <= n /\ b < fst block + 2 ^ (32 - snd block))
               /\ ~ In n [quad 192 0 0 9; quad 192 0 0 10]
               /\ ~ In b [quad 192 0 0 9; quad 192 0 0 10])
       /\ (is_private = true -> is_global = false)
       /\ (is_private = false /\ is_global = false
           <-> quad 100 64 0 0 <= n /\ b < quad 100 128 0 0).
Proof.
  split; [vm_compute; reflexivity|].
  split; [vm_compute; reflexivity|].
  split; [reflexivity|].
  apply (X8_private_and_global "100.64.3.7" "16" 1681916679 16
           (IPv4Address.Build 4294901760));
    vm_compute; reflexivity.
Defined.

(** ** The classification of an IPv6 network *)

(** Two networks whose bases differ on the bits both masks keep have no
    address in common. *)
Definition apart (n1 n2 : IPv6Network.t) : bool :=
  negb (Z.land (IPv6Address._ip (IPv6Network.network_address n1))
               (IPv6Address._ip (IPv6Network.netmask n2))
        =? Z.land (IPv6Address._ip (IPv6Network.network_address n2))
                  (IPv6Address._ip (IPv6Network.netmask n1))).

Lemma apart_contains n1 n2 x :
  apart n1 n2 = true ->
  IPv6Network.__contains__ n1 x = true ->
  IPv6Network.__contains__ n2 x = false.
Proof.
  unfold apart, IPv6Network.__contains__. intros D C.
  apply negb_true_iff, Z.eqb_neq in D. apply Z.eqb_eq in C.
  apply Z.eqb_neq. intros C2. apply D. rewrite <- C, <- C2.
  rewrite <- !Z.land_assoc. f_equal. apply Z.land_comm.
Qed.

Lemma linklocal_in_table :
  In IPv6Network._constants._linklocal_network
     IPv6Network._constants._private_networks.
Proof. do 9 right. left. reflexivity. Qed.

Lemma linklocal_apart_exceptions :
  forallb (apart IPv6Network._constants._linklocal_network)
          IPv6Network._constants._private_networks_exceptions = true.
Proof. vm_compute. reflexivity. Qed.

Lemma multicast_apart_private :
  forallb (apart IPv6Network._constants._multicast_network)
          IPv6Network._constants._private_networks = true.
Proof. vm_compute. reflexivity. Qed.

(** X9.  In every successful IPv6 analysis [is_global] is the negation
    of [is_private]; a network that is link-local is private, and a
    network that is multicast is neither private nor link-local. *)
Theorem X9_ipv6_flags address prefix info :
  analyse address prefix = Return ("IPv6 Address Information", info) ->
  exists is_private is_global is_link_local is_multicast,
    get "is_private" info = Some (VBool is_private)
    /\ get "is_global" info = Some (VBool is_global)
    /\ get "is_link_local" info = Some (VBool is_link_local)
    /\ get "is_multicast" info = Some (VBool is_multicast)
    /\ is_global = negb is_private
    /\ (is_link_local = true -> is_private = true)
    /\ (is_multicast = true -> is_private = false /\ is_link_local = false).
Proof.
  intros H.
  assert (C : exists network interface,
            IPCalculator.calculate_ipv6 network interface = Return info).
  { unfold analyse in H.
    destruct (version_cases address) as [V|[V|V]]; rewrite V in H;
      apply bind_Return in H as (network & _ & H);
      apply bind_Return in H as (interface & _ & H);
      apply bind_Return in H as (d & K & H);
      apply Return_inj in H; [discriminate| |];
      injection H as <-; eauto. }
  clear H. destruct C as (network & interface & H).
  unfold IPCalculator.calculate_ipv6 in H.
  apply bind_Return in H as (sna & _ & H).
  apply bind_Return in H as (priv & Hpriv & H).
  apply bind_Return in H as (glob & Hglob & H).
  apply bind_Return in H as (ll & Hll & H).
  apply bind_Return in H as (mc & Hmc & H).
  apply bind_Return in H as (rv & _ & H).
  apply Return_inj in H. subst info.
  exists priv, glob, ll, mc. do 4 (split; [reflexivity|]).
  unfold IPv6Network.is_global in Hglob. rewrite Hpriv in Hglob.
  cbn [bind] in Hglob. apply Return_inj in Hglob.
  unfold IPv6Network.is_private in Hpriv.
  apply bind_Return in Hpriv as (b & Hb & Hpriv). apply Return_inj in Hpriv.
  unfold IPv6Network.is_link_local in Hll. rewrite Hb in Hll.
  cbn [bind] in Hll. apply Return_inj in Hll.
  unfold IPv6Network.is_multicast in Hmc. rewrite Hb in Hmc.
  cbn [bind] in Hmc. apply Return_inj in Hmc.
  set (n := IPv6Network.network_address network) in *.
  split; [now symmetry|]. split.
  - intros L. rewrite L in Hll. apply andb_true_iff in Hll as [Ln Lb].
    rewrite <- Hpriv. apply andb_true_iff. split.
    + apply existsb_exists. eexists. split; [apply linklocal_in_table|].
      now rewrite Ln, Lb.
    + apply forallb_forall. intros e He.
      pose proof (proj1 (forallb_forall _ _) linklocal_apart_exceptions e He)
        as A.
      now rewrite (apart_contains _ _ _ A Ln), (apart_contains _ _ _ A Lb).
  - intros M. rewrite M in Hmc. apply andb_true_iff in Hmc as [Mn Mb].
    split.
    + rewrite <- Hpriv. apply andb_false_iff. left.
      apply not_true_iff_false. intros E.
      apply existsb_exists in E as (e & He & E).
      pose proof (proj1 (forallb_forall _ _) multicast_apart_private e He)
        as A.
      rewrite (apart_contains _ _ _ A Mn) in E. discriminate.
    + rewrite <- Hll. apply andb_false_iff. left.
      apply (apart_contains IPv6Network._constants._multicast_network);
        [vm_compute; reflexivity | exact Mn].
Qed.

Lemma X9_witness :
  exists info,
    analyse "fe80::1" "64" = Return ("IPv6 Address Information", info)
    /\ exists is_private is_global is_link_local is_multicast,
         get "is_private" info = Some (VBool is_private)
         /\ get "is_global" info = Some (VBool is_global)
         /\ get "is_link_local" info = Some (VBool is_link_local)
         /\ get "is_multicast" info = Some (VBool is_multicast)
         /\ is_global = negb is_private
         /\ (is_link_local = true -> is_private = true)
         /\ (is_multicast = true
             -> is_private = false /\ is_link_local = false).
Proof.
  eexists. split; [vm_compute; reflexivity|].
  apply (X9_ipv6_flags "fe80::1" "64"). vm_compute. reflexivity.
Defined.

(** ** Runs of the script *)

(** What a one-shot run prints for an argument that is analysed with
    success: the line that names it, the analysis, a blank line. *)
Definition report (arg : string) : stdout :=
  (Print ("Processing: " ++ arg)
   :: snd (IPAddressProcessor.process_address arg []) ++ [Print ""])%list.

Definition transcript (args : list string) : stdout := flat_map report args.

Lemma succeeds_snd arg :
  succeeds arg ->
  forall out,
    IPAddressProcessor.process_address arg out
    = (Return 0,
       (out ++ snd (IPAddressProcessor.process_address arg []))%list).
Proof.
  intros S. destruct (succeeds_run arg S) as (lines & P).
  intros out. rewrite (P []), P. reflexivity.
Qed.

Lemma process_args_transcript pre : forall rest stdin out,
  Forall (fun x => is_help x = false /\ succeeds x) pre ->
  process_args (pre ++ rest) stdin out
  = process_args rest stdin (out ++ transcript pre)%list.
Proof.
  induction pre as [|x pre IH]; intros rest stdin out F.
  - cbn [app transcript flat_map]. now rewrite app_nil_r.
  - inversion F as [|? ? [Hx Sx] F']; subst. cbn [app].
    rewrite (process_args_step_ok x _ stdin out _ Hx (succeeds_snd x Sx)).
    rewrite (IH _ _ _ F'). f_equal.
    cbn [transcript flat_map]. unfold report.
    rewrite <- !app_assoc. cbn [app]. now rewrite <- ?app_assoc.
Qed.

Lemma script_process_args args stdin out :
  args <> [] -> script args stdin out = process_args args stdin out.
Proof. destruct args; [contradiction | reflexivity]. Qed.

(** X10.  In a one-shot run, [-h] or [--help] ends the run with the
    status 0: the arguments before it, all analysed with success, are
    reported, the help text is printed, and what follows is never looked
    at, neither the arguments nor the standard input. *)
Theorem X10_help_ends_the_run pre a post stdin out :
  Forall (fun x => is_help x = false /\ succeeds x) pre ->
  a = "-h" \/ a = "--help" ->
  script (pre ++ a :: post) stdin out
  = (Return 0,
     (out ++ transcript pre
          ++ [Print (Py.strip OutputFormatter.help_text)])%list).
Proof.
  intros F Ha.
  rewrite script_process_args by (destruct pre; discriminate).
  rewrite (process_args_transcript pre _ stdin out F).
  assert (H : is_help a = true) by (destruct Ha as [-> | ->]; reflexivity).
  cbn [process_args]. rewrite H.
  unfold bindIO, OutputFormatter.print_help, print, ret.
  now rewrite <- app_assoc.
Qed.

Lemma X10_witness :
  Forall (fun x => is_help x = false /\ succeeds x) ["10.0.0.5/24"]
  /\ ("--help" = "-h" \/ "--help" = "--help")
  /\ script ["10.0.0.5/24"; "--help"; "not-an-ip/24"] [Interrupt] []
     = (Return 0,
        ([] ++ transcript ["10.0.0.5/24"]
            ++ [Print (Py.strip OutputFormatter.help_text)])%list).
Proof.
  assert (F : Forall (fun x => is_help x = false /\ succeeds x)
                     ["10.0.0.5/24"])
    by (repeat constructor; vm_compute; reflexivity).
  split; [exact F|]. split; [right; reflexivity|].
  exact (X10_help_ends_the_run ["10.0.0.5/24"] "--help" ["not-an-ip/24"]
           [Interrupt] [] F (or_intror eq_refl)).
Defined.

(** X11.  The output of a one-shot run.  When every argument is
    analysed with success the run prints, for each argument in turn, the
    line [Processing: <argument>], the analysis and a blank line, and ends
    with the status 0.  When the argument [a] is the first one that fails,
    the output ends with [Processing: a] and a single line that starts
    with [Error: ]; no blank line follows, and the status is -1. *)
Theorem X11_one_shot_output pre stdin out :
  Forall (fun x => is_help x = false /\ succeeds x) pre ->
  (pre <> [] ->
   script pre stdin out = (Return 0, (out ++ transcript pre)%list))
  /\ (forall a post,
        is_help a = false -> fails a ->
        exists message,
          one_line message
          /\ script (pre ++ a :: post) stdin out
             = (Return (-1),
                (out ++ transcript pre
                     ++ [Print ("Processing: " ++ a);
                         Print ("Error: " ++ message)])%list)).
Proof.
  intros F. split.
  - intros N. rewrite script_process_args by exact N.
    rewrite <- (app_nil_r pre) at 1.
    now rewrite (process_args_transcript pre [] stdin out F).
  - intros a post Ha Fa.
    destruct (process_address_cases a)
      as [(message & L & P) | (address & prefix & title & info & _ & _ & P)].
    + exists message. split; [exact L|].
      rewrite script_process_args by (destruct pre; discriminate).
      rewrite (process_args_transcript pre _ stdin out F).
      rewrite (process_args_step_fail a post stdin _ _ Ha P).
      unfold error_line. now rewrite <- !app_assoc.
    + unfold fails in Fa. rewrite P in Fa. discriminate.
Qed.

Lemma X11_witness :
  Forall (fun x => is_help x = false /\ succeeds x)
         ["10.0.0.5/24"; "2001:db8::1/64"]
  /\ script ["10.0.0.5/24"; "2001:db8::1/64"] [] []
     = (Return 0, ([] ++ transcript ["10.0.0.5/24"; "2001:db8::1/64"])%list)
  /\ exists message,
       one_line message
       /\ script (["10.0.0.5/24"; "2001:db8::1/64"] ++ "10.0.0.5/33" :: ["::1/128"])
            [] []
          = (Return (-1),
             ([] ++ transcript ["10.0.0.5/24"; "2001:db8::1/64"]
                 ++ [Print "Processing: 10.0.0.5/33";
                     Print ("Error: " ++ message)])%list).
Proof.
  assert (F : Forall (fun x => is_help x = false /\ succeeds x)
                     ["10.0.0.5/24"; "2001:db8::1/64"])
    by (repeat constructor; vm_compute; reflexivity).
  split; [exact F|].
  destruct (X11_one_shot_output ["10.0.0.5/24"; "2001:db8::1/64"] [] [] F)
    as [A B].
  split; [apply A; discriminate|].
  apply (B "10.0.0.5/33" ["::1/128"]); vm_compute; reflexivity.
Defined.

(** What an interactive session prints for a line that is no exit
    command: the prompt and, unless the line is blank, the analysis of
    the stripped line and a blank line. *)
Definition answer (text : string) : stdout :=
  match Py.strip text with
  | EmptyString => [prompt]
  | user_input =>
      (prompt :: snd (IPAddressProcessor.process_address user_input [])
              ++ [Print ""])%list
  end.

Definition is_exit (text : string) : bool :=
  existsb (String.eqb (Py.lower (Py.strip text)))
          IPAddressProcessor.exit_commands.

Definition interactive_header : stdout :=
  [ Print "IP Address Calculator - Interactive Mode";
    Print "Enter IP addresses in format 'address/prefix' or 'exit' to quit";
    Print (Py.times "-" 50) ].

Lemma process_address_snd input :
  exists code,
    (code = 0 \/ code = -1)
    /\ forall out,
         IPAddressProcessor.process_address input out
         = (Return code,
            (out ++ snd (IPAddressProcessor.process_address input []))%list).
Proof.
  destruct (process_address_run input) as (code & lines & C & P).
  exists code. split; [exact C|]. intros out. rewrite (P []), P. reflexivity.
Qed.

Lemma interactive_loop_answers texts : forall rest out,
  Forall (fun text => is_exit text = false) texts ->
  IPAddressProcessor.interactive_loop (map Line texts ++ rest) out
  = IPAddressProcessor.interactive_loop rest
      (out ++ flat_map answer texts)%list.
Proof.
  induction texts as [|text texts IH]; intros rest out F.
  - cbn [map app flat_map]. now rewrite app_nil_r.
  - inversion F as [|? ? E F']; subst. unfold is_exit in E.
    cbn [map app flat_map IPAddressProcessor.interactive_loop].
    unfold bindIO at 1. unfold write_prompt at 1. rewrite E.
    unfold answer. destruct (Py.strip text) as [|c s].
    + rewrite (IH _ _ F'). now rewrite <- app_assoc.
    + destruct (process_address_snd (String c s)) as (code & _ & P).
      unfold bindIO at 1. rewrite P.
      unfold bindIO at 1. unfold print at 1.
      rewrite (IH _ _ F'). f_equal.
      rewrite <- !app_assoc. cbn [app]. now rewrite <- ?app_assoc.
Qed.

Lemma interactive_mode_loop stdin out r out' :
  IPAddressProcessor.interactive_loop stdin (out ++ interactive_header)%list
  = (Return r, out') ->
  script [] stdin out = (Return 0, out').
Proof.
  intros H. cbn [script main]. unfold IPAddressProcessor.interactive_mode.
  do 3 (unfold bindIO at 1; unfold print at 1).
  unfold interactive_header in H.
  replace (((out ++ [Print "IP Address Calculator - Interactive Mode"]) ++
            [Print "Enter IP addresses in format 'address/prefix' or 'exit' to quit"]) ++
           [Print (Py.times "-" 50)])%list
    with (out ++
          [Print "IP Address Calculator - Interactive Mode";
           Print "Enter IP addresses in format 'address/prefix' or 'exit' to quit";
           Print (Py.times "-" 50)])%list
    by (now rewrite <- !app_assoc).
  unfold bindIO. rewrite H. reflexivity.
Qed.

(** X12.  The output of an interactive session whose first lines
    [texts] are no exit commands.  After the three header lines each of
    these lines is answered in turn: a prompt and, unless the line is
    blank, the analysis of the stripped line and a blank line.  Then the
    end of the input, or an exit command, adds one last prompt; an
    interrupt adds the prompt and the line [Exiting...] after two line
    feeds.  What follows an exit command or an interrupt is never read;
    the status is 0. *)
Theorem X12_interactive_output texts out :
  Forall (fun text => is_exit text = false) texts ->
  script [] (map Line texts) out
  = (Return 0,
     (out ++ interactive_header ++ flat_map answer texts ++ [prompt])%list)
  /\ (forall text rest,
        is_exit text = true ->
        script [] (map Line texts ++ Line text :: rest) out
        = script [] (map Line texts) out)
  /\ (forall rest,
        script [] (map Line texts ++ Interrupt :: rest) out
        = (Return 0,
           (out ++ interactive_header ++ flat_map answer texts
                ++ [prompt;
                    Print (String Py.LF (String Py.LF "Exiting..."))])%list)).
Proof.
  intros F.
  assert (E : script [] (map Line texts) out
              = (Return 0,
                 (out ++ interactive_header ++ flat_map answer texts
                      ++ [prompt])%list)).
  { apply (interactive_mode_loop _ _ tt).
    rewrite <- (app_nil_r (map Line texts)).
    rewrite (interactive_loop_answers texts [] _ F).
    cbn [IPAddressProcessor.interactive_loop]. unfold write_prompt, prompt.
    now rewrite <- !app_assoc. }
  split; [exact E|]. split.
  - intros text rest X. rewrite E.
    apply (interactive_mode_loop _ _ tt).
    rewrite (interactive_loop_answers texts _ _ F).
    cbn [IPAddressProcessor.interactive_loop].
    unfold is_exit in X. unfold bindIO, write_prompt, ret, prompt.
    rewrite X. now rewrite <- !app_assoc.
  - intros rest. apply (interactive_mode_loop _ _ tt).
    rewrite (interactive_loop_answers texts _ _ F).
    cbn [IPAddressProcessor.interactive_loop].
    unfold bindIO, write_prompt, print, prompt.
    now rewrite <- !app_assoc.
Qed.

Lemma X12_witness :
  Forall (fun text => is_exit text = false) [" "; " 10.0.0.5/24 "; "no"]
  /\ script [] (map Line [" "; " 10.0.0.5/24 "; "no"]) []
     = (Return 0,
        ([] ++ interactive_header
            ++ flat_map answer [" "; " 10.0.0.5/24 "; "no"]
            ++ [prompt])%list)
  /\ script [] (map Line [" "; " 10.0.0.5/24 "; "no"]
                ++ Line " QUIT" :: [Line "10.0.0.5/24"]) []
     = script [] (map Line [" "; " 10.0.0.5/24 "; "no"]) [].
Proof.
  assert (F : Forall (fun text => is_exit text = false)
                     [" "; " 10.0.0.5/24 "; "no"])
    by (repeat constructor).
  split; [exact F|].
  destruct (X12_interactive_output [" "; " 10.0.0.5/24 "; "no"] [] F)
    as (A & B & _).
  split; [exact A|]. apply B. reflexivity.
Defined.

(** [ends_with lines e]: [e] is the last event of [lines]. *)
Definition ends_with (lines : stdout) (e : event) : Prop :=
  exists init, lines = (init ++ [e])%list.

Lemma ends_with_app pre lines e :
  ends_with lines e -> ends_with (pre ++ lines)%list e.
Proof. intros [init ->]. exists (pre ++ init)%list. apply app_assoc. Qed.

Lemma ends_with_unique lines e e' :
  ends_with lines e -> ends_with lines e' -> e = e'.
Proof.
  intros [i ->] [i' H]. now apply app_inj_tail in H as [_ H].
Qed.

Definition is_error_line (e : event) : Prop :=
  exists message, e = Print ("Error: " ++ message).

Lemma help_is_no_error : ~ is_error_line (Print (Py.strip OutputFormatter.help_text)).
Proof.
  intros [message H].
  assert (E : exists rest,
            Py.strip OutputFormatter.help_text = String "I" rest)
    by (vm_compute; eexists; reflexivity).
  destruct E as [rest E]. rewrite E in H. discriminate.
Qed.

(** The last event of a one-shot run tells how it ended. *)
Lemma process_args_run args : forall stdin,
  exists code lines,
    (forall out, process_args args stdin out = (Return code, (out ++ lines)%list))
    /\ ((code = 0
         /\ (args = [] /\ lines = []
             \/ ends_with lines (Print "")
             \/ ends_with lines (Print (Py.strip OutputFormatter.help_text))))
        \/ (code = -1 /\ exists e, is_error_line e /\ ends_with lines e)).
Proof.
  induction args as [|x rest IH]; intros stdin.
  - exists 0, []. split; [intros out; cbn; now rewrite app_nil_r|].
    left. auto.
  - destruct (is_help x) eqn:Hx.
    + exists 0, [Print (Py.strip OutputFormatter.help_text)].
      split; [intros out; cbn [process_args]; rewrite Hx; reflexivity|].
      left. split; [reflexivity|]. right. right. now exists [].
    + destruct (process_address_cases x)
        as [(message & _ & P) | (address & prefix & title & info & _ & _ & P)].
      * exists (-1), [Print ("Processing: " ++ x); error_line message].
        split.
        { intros out. rewrite (process_args_step_fail x rest stdin out _ Hx P).
          now rewrite <- app_assoc. }
        right. split; [reflexivity|]. exists (error_line message).
        split; [now exists message|].
        now exists [Print ("Processing: " ++ x)].
      * destruct (IH stdin) as (code & lines & R & E).
        exists code,
          (Print ("Processing: " ++ x)
           :: rendered title info ++ Print "" :: lines)%list.
        split.
        { intros out. rewrite (process_args_step_ok x rest stdin out _ Hx P), R.
          f_equal. rewrite <- !app_assoc. reflexivity. }
        assert (A : forall e, ends_with lines e ->
                      ends_with (Print ("Processing: " ++ x)
                                 :: rendered title info ++ Print "" :: lines)%list
                                e).
        { intros e H.
          apply (ends_with_app
                   (Print ("Processing: " ++ x)
                    :: rendered title info ++ [Print ""])%list) in H.
          cbn [app] in H. now rewrite <- app_assoc in H. }
        destruct E as [(-> & [(_ & ->) | [E | E]]) | (-> & e & Ee & E)].
        -- left. split; [reflexivity|]. right. left.
           exists (Print ("Processing: " ++ x) :: rendered title info).
           reflexivity.
        -- left. split; [reflexivity|]. right. left. now apply A.
        -- left. split; [reflexivity|]. right. right. now apply A.
        -- right. split; [reflexivity|]. exists e. split; [exact Ee|].
           now apply A.
Qed.

(** The last event of an interactive session is the prompt or the line
    printed on an interrupt. *)
Lemma interactive_loop_run stdin :
  exists lines e,
    (forall out, IPAddressProcessor.interactive_loop stdin out
                 = (Return tt, (out ++ lines ++ [e])%list))
    /\ (e = prompt \/ e = Print (String Py.LF (String Py.LF "Exiting..."))).
Proof.
  induction stdin as [|[text|] stdin (lines & e & R & E)].
  - exists [], prompt. split; [reflexivity | now left].
  - destruct (is_exit text) eqn:X.
    + exists [], prompt. split; [|now left]. intros out.
      cbn [IPAddressProcessor.interactive_loop]. unfold is_exit in X.
      unfold bindIO, write_prompt. rewrite X. reflexivity.
    + exists (answer text ++ lines)%list, e. split; [|exact E]. intros out.
      change (Line text :: stdin) with (map Line [text] ++ stdin)%list.
      rewrite (interactive_loop_answers [text] stdin out)
        by (repeat constructor; exact X).
      rewrite R. cbn [flat_map]. rewrite app_nil_r.
      now rewrite <- !app_assoc.
  - exists [prompt], (Print (String Py.LF (String Py.LF "Exiting..."))).
    split; [|now right]. intros out.
    cbn [IPAddressProcessor.interactive_loop].
    unfold bindIO, write_prompt, print, prompt. now rewrite <- app_assoc.
Qed.

(** X13.  A run of the script never raises and only adds to the
    output; it prints at least one line; its status is 0 or -1; it is -1
    exactly when the last thing printed is a line that starts with
    [Error: ], which happens only with arguments. *)
Theorem X13_script_status args stdin :
  exists code lines,
    (forall out, script args stdin out = (Return code, (out ++ lines)%list))
    /\ lines <> []
    /\ (code = 0 \/ code = -1)
    /\ (code = -1
        <-> exists init message,
              lines = (init ++ [Print ("Error: " ++ message)])%list)
    /\ (code = -1 -> args <> []).
Proof.
  assert (N : forall init (e : event), (init ++ [e])%list <> [])
    by (intros [|? ?] ? ?; discriminate).
  destruct args as [|x rest].
  - destruct (interactive_loop_run stdin) as (lines & e & R & E).
    exists 0, (interactive_header ++ lines ++ [e])%list.
    split.
    { intros out. apply (interactive_mode_loop _ _ tt).
      rewrite R. now rewrite <- !app_assoc. }
    split; [discriminate|]. split; [now left|]. split; [|discriminate].
    split; [discriminate|]. intros (init & message & H).
    rewrite app_assoc in H. apply app_inj_tail in H as [_ H].
    destruct E as [-> | ->]; discriminate.
  - destruct (process_args_run (x :: rest) stdin) as (code & lines & R & E).
    exists code, lines. split; [exact R|].
    destruct E as [(-> & [(? & _) | [E | E]]) | (-> & e & (m & ->) & E)];
      try discriminate.
    + split; [destruct E as [i ->]; apply N|]. split; [now left|].
      split; [|discriminate]. split; [discriminate|].
      intros (init & message & H).
      assert (X : Print "" = Print ("Error: " ++ message))
        by (apply (ends_with_unique lines); [exact E | now exists init]).
      discriminate.
    + split; [destruct E as [i ->]; apply N|]. split; [now left|].
      split; [|discriminate]. split; [discriminate|].
      intros (init & message & H). exfalso. apply help_is_no_error.
      exists message.
      apply (ends_with_unique lines); [exact E | now exists init].
    + split; [destruct E as [i ->]; apply N|]. split; [now right|].
      split; [|discriminate]. split; [|reflexivity].
      intros _. destruct E as [init ->]. now exists init, m.
Qed.

(** ** Prefix lengths written in digits *)

Lemma all_digits_without (ch : ascii) s :
  Py.all Py.isdigit_char s = true ->
  Py.isdigit_char ch = false ->
  Py.contains ch s = false.
Proof.
  intros A N. induction s as [|c r IH]; [reflexivity|].
  cbn [Py.all] in A. apply andb_true_iff in A as [C A].
  cbn [Py.contains]. rewrite (IH A), orb_false_r.
  apply not_true_iff_false. intros E. apply Ascii.eqb_eq in E. congruence.
Qed.

(** The prefix length that a string of ASCII digits denotes, or the
    exception when it is above 32 or is too long for [int]. *)
Lemma make_netmask_v4_digits prefix :
  Py.isascii prefix && Py.isdigit prefix = true ->
  Py.contains "/" prefix = false
  /\ (Py.len prefix <= 4300 /\ Py.digits_value 10 0 prefix <= 32 ->
      IPv4Network._make_netmask (MaskStr prefix)
      = Return (IPv4Address.Build (v4_mask (Py.digits_value 10 0 prefix)),
                Py.digits_value 10 0 prefix))
  /\ (4300 < Py.len prefix \/ 32 < Py.digits_value 10 0 prefix ->
      IPv4Network._make_netmask (MaskStr prefix)
      = Raise (Exn NetmaskValueError
                 (Py.repr prefix ++ " is not a valid netmask"))).
Proof.
  intros D. pose proof D as D'. apply andb_true_iff in D' as [_ G].
  pose proof (digits_value_nonneg 10 prefix 0 ltac:(lia) ltac:(lia)) as P.
  assert (A : Py.all Py.isdigit_char prefix = true)
    by (destruct prefix; [discriminate | exact G]).
  assert (S : Py.contains "/" prefix = false)
    by (now apply all_digits_without).
  assert (T : Py.split "." prefix = [prefix])
    by (apply split_without; now apply all_digits_without).
  assert (I : int_of_str 10 prefix
              = if 4300 <? Py.len prefix
                then raise ValueError
                       ("Exceeds the limit (4300 digits) for integer string conversion: value has "
                        ++ Py.str_int (Py.len prefix)
                        ++ " digits; use sys.set_int_max_str_digits() to increase the limit")
                else Return (Py.digits_value 10 0 prefix)).
  { destruct prefix; [discriminate | reflexivity]. }
  set (p := Py.digits_value 10 0 prefix) in *.
  assert (F : _prefix_from_ip_string (cls := _BaseV4.cls) prefix
              = Raise (Exn NetmaskValueError
                         (Py.repr prefix ++ " is not a valid netmask"))).
  { unfold _prefix_from_ip_string.
    cbn [_ip_int_from_string _BaseV4.cls].
    unfold _BaseV4._ip_int_from_string. rewrite T.
    destruct prefix; [discriminate | reflexivity]. }
  split; [exact S|]. split.
  - intros [L R].
    unfold IPv4Network._make_netmask, _prefix_from_prefix_string.
    rewrite D, I. cbn [negb].
    destruct (Z.ltb_spec 4300 (Py.len prefix)) as [?|_]; [lia|].
    cbn [try_except bind].
    replace ((0 <=? p) && (p <=? _max_prefixlen)) with true
      by (symmetry; apply andb_true_iff; split; apply Z.leb_le;
          [exact P | exact R]).
    cbn [negb try_except bind].
    change (_ip_int_from_prefix p) with (v4_mask p).
    rewrite of_int_v4 by (apply v4_mask_range; lia). reflexivity.
  - intros B.
    unfold IPv4Network._make_netmask, _prefix_from_prefix_string.
    rewrite D, I. cbn [negb].
    destruct (Z.ltb_spec 4300 (Py.len prefix)) as [L|L].
    + unfold raise, _report_invalid_netmask, raise.
      cbn [try_except bind class_of existsb issubclass orb].
      fold (_prefix_from_ip_string (cls := _BaseV4.cls) prefix).
      rewrite F. reflexivity.
    + cbn [try_except bind].
      replace ((0 <=? p) && (p <=? _max_prefixlen)) with false
        by (symmetry; apply andb_false_iff; right; apply Z.leb_gt;
            change _max_prefixlen with 32; lia).
      unfold _report_invalid_netmask, raise.
      cbn [negb try_except bind class_of existsb issubclass orb].
      fold (_prefix_from_ip_string (cls := _BaseV4.cls) prefix).
      rewrite F. reflexivity.
Qed.

(** X14.  A part after the slash that is made of ASCII digits is read
    as a decimal number, leading zeros included.  With an accepted IPv4
    address, a number up to 32 gives the analysis of that prefix length;
    a number above 32, or more than 4300 digits, gives the status -1 and
    the one line [Error: Invalid network specification: '<digits>' is not
    a valid netmask]. *)
Theorem X14_prefix_in_digits address a prefix out :
  IPv4Address.of_str address = Return (IPv4Address.Build a) ->
  Py.isascii prefix && Py.isdigit prefix = true ->
  (Py.len prefix <= 4300 /\ Py.digits_value 10 0 prefix <= 32 ->
   IPAddressProcessor.process_address (address ++ "/" ++ prefix) out
   = IPAddressProcessor.process_address
       (address ++ "/" ++ Py.str_int (Py.digits_value 10 0 prefix)) out
   /\ fst (IPAddressProcessor.process_address (address ++ "/" ++ prefix) out)
      = Return 0)
  /\ (4300 < Py.len prefix \/ 32 < Py.digits_value 10 0 prefix ->
      IPAddressProcessor.process_address (address ++ "/" ++ prefix) out
      = (Return (-1),
         (out ++ [Print ("Error: Invalid network specification: "
                         ++ Py.repr prefix
                         ++ " is not a valid netmask")])%list)).
Proof.
  intros Ha D.
  destruct (make_netmask_v4_digits prefix D) as (S & Ok & Ko).
  pose proof (digits_value_nonneg 10 prefix 0 ltac:(lia) ltac:(lia)) as P.
  split.
  - intros R. pose proof (Ok R) as M.
    destruct (make_netmask_v4_decimal (Py.digits_value 10 0 prefix)
                ltac:(lia)) as [M' S'].
    rewrite (valid_process _ _ _ _ _ Ha M S out).
    rewrite (valid_process _ _ _ _ _ Ha M' S' out).
    split; reflexivity.
  - intros B. pose proof (Ko B) as M.
    destruct (valid_address _ _ Ha) as [Sa _].
    rewrite (process_address_analysed _ address prefix out
               (valid_split _ _ _ Ha S));
      [|rewrite (valid_version _ _ Ha); discriminate].
    assert (A : analyse address prefix
                = Raise (Exn NetmaskValueError
                           (Py.repr prefix ++ " is not a valid netmask"))).
    { unfold analyse. rewrite (valid_version _ _ Ha).
      unfold IPv4Network.__init__.
      rewrite (split_addr_prefix_two address prefix Sa S).
      cbn [bind]. rewrite Ha. cbn [bind]. rewrite M. reflexivity. }
    rewrite A. reflexivity.
Qed.

Lemma X14_witness :
  IPv4Address.of_str "10.0.0.5" = Return (IPv4Address.Build 167772165)
  /\ Py.isascii "024" && Py.isdigit "024" = true
  /\ Py.isascii "33" && Py.isdigit "33" = true
  /\ IPAddressProcessor.process_address ("10.0.0.5" ++ "/" ++ "024") []
     = IPAddressProcessor.process_address ("10.0.0.5" ++ "/" ++ "24") []
  /\ IPAddressProcessor.process_address ("10.0.0.5" ++ "/" ++ "33") []
     = (Return (-1),
        [Print "Error: Invalid network specification: '33' is not a valid netmask"]).
Proof.
  assert (A : IPv4Address.of_str "10.0.0.5"
              = Return (IPv4Address.Build 167772165))
    by (vm_compute; reflexivity).
  split; [exact A|]. split; [reflexivity|]. split; [reflexivity|].
  split.
  - apply (proj1 (X14_prefix_in_digits "10.0.0.5" 167772165 "024" []
                    A eq_refl)).
    vm_compute. split; discriminate.
  - apply (proj2 (X14_prefix_in_digits "10.0.0.5" 167772165 "33" []
                    A eq_refl)).
    right. vm_compute. reflexivity.
Defined.

(** ** The error that is reported *)

(** X15.  Which error [process_address] reports.  An input without
    exactly one slash gives [Invalid input format. Please use
    'address/prefix'.]; with one slash, an address part that is no
    address gives [Invalid address format.], whatever follows the slash;
    otherwise a failure reports the exception of the library after
    [Invalid network specification: ].  The message [Unknown address
    version.] of the last [else] branch is never what is printed. *)
Theorem X15_reported_error input out :
  exists code lines,
    IPAddressProcessor.process_address input out
    = (Return code, (out ++ lines)%list)
    /\ (occurrences "/" input <> 1%nat ->
        code = -1
        /\ lines
           = [Print "Error: Invalid input format. Please use 'address/prefix'."])
    /\ (occurrences "/" input = 1%nat ->
        exists address prefix,
          Py.split "/" input = [address; prefix]
          /\ (IPCalculator.get_address_version address = -1 ->
              code = -1 /\ lines = [Print "Error: Invalid address format."])
          /\ (IPCalculator.get_address_version address <> -1 ->
              code = -1 ->
              exists e,
                analyse address prefix = Raise e
                /\ lines = [Print ("Error: Invalid network specification: "
                                   ++ str_exn e)]))
    /\ lines <> [Print "Error: Unknown address version."].
Proof.
  pose proof (split_length "/" input) as N.
  destruct (Py.split "/" input) as [|address [|prefix [|x l]]] eqn:S;
    cbn [List.length] in N.
  1, 2, 4:
    exists (-1),
      [error_line "Invalid input format. Please use 'address/prefix'."];
    (split; [apply process_address_malformed; rewrite S; cbn [List.length]; lia|]);
    (split; [intros _; split; reflexivity|]);
    (split; [intros O; rewrite O in N; discriminate N | discriminate]).
  destruct (Z.eq_dec (IPCalculator.get_address_version address) (-1)) as [V|V].
  - exists (-1), [error_line "Invalid address format."].
    split; [now apply (process_address_no_address _ address prefix)|].
    split; [intros O; congruence|].
    split; [|discriminate].
    intros _. exists address, prefix. split; [reflexivity|].
    split; [intros _; split; reflexivity | intros V'; contradiction].
  - pose proof (process_address_analysed input address prefix out S V) as P.
    destruct (analyse address prefix) as [[title info]|e] eqn:A.
    + exists 0, (rendered title info). split; [exact P|].
      split; [intros O; congruence|].
      split; [|discriminate].
      intros _. exists address, prefix. split; [reflexivity|].
      split; [intros V'; contradiction | intros _ C; discriminate C].
    + exists (-1),
        [error_line ("Invalid network specification: " ++ str_exn e)].
      split; [exact P|].
      split; [intros O; congruence|].
      split; [|discriminate].
      intros _. exists address, prefix. split; [reflexivity|].
      split; [intros V'; contradiction|]. intros _ _. exists e.
      split; [exact A | reflexivity].
Qed.

(** ** The [reverse] field of an IPv4 analysis *)

Lemma split_keeps c sep s :
  Ascii.eqb sep c = false ->
  Py.contains c s = true ->
  Exists (fun piece => Py.contains c piece = true) (Py.split sep s).
Proof.
  intros N. induction s as [|d r IH]; [discriminate|].
  cbn [Py.contains Py.split]. intros H.
  destruct (Ascii.eqb d sep) eqn:D.
  - apply Ascii.eqb_eq in D. subst d. rewrite N in H.
    apply Exists_cons_tl, IH, H.
  - pose proof (split_not_nil sep r) as Z.
    destruct (Py.split sep r) as [|p ps]; [contradiction|].
    destruct (Ascii.eqb d c) eqn:E.
    + apply Exists_cons_hd. cbn [Py.contains]. now rewrite E.
    + specialize (IH H). inversion IH as [? ? Hp|? ? Hps]; subst.
      * apply Exists_cons_hd. cbn [Py.contains]. now rewrite Hp, orb_true_r.
      * now apply Exists_cons_tl.
Qed.

Lemma parse_octet_slash piece :
  Py.contains "/" piece = true ->
  exists e, _BaseV4._parse_octet piece = Raise e.
Proof.
  intros H. unfold _BaseV4._parse_octet.
  destruct piece as [|c r] eqn:E; [discriminate|]. rewrite <- E in *.
  destruct (Py.isascii piece && Py.isdigit piece) eqn:D.
  - apply andb_true_iff in D as [_ D].
    assert (A : Py.all Py.isdigit_char piece = true)
      by (rewrite E in *; exact D).
    rewrite (all_digits_without "/" piece A) in H by reflexivity.
    discriminate.
  - eexists. reflexivity.
Qed.

Lemma mapM_raises {A B} (f : A -> result B) l :
  Exists (fun x => exists e, f x = Raise e) l ->
  exists e, mapM f l = Raise e.
Proof.
  induction 1 as [x l [e H] | x l _ [e IH]]; cbn [mapM].
  - rewrite H. eexists. reflexivity.
  - destruct (f x); cbn [bind]; [|eexists; reflexivity].
    rewrite IH. eexists. reflexivity.
Qed.

(** No string with a slash is an IPv4 address. *)
Lemma ip_int_from_string_slash s :
  Py.contains "/" s = true ->
  exists e, _BaseV4._ip_int_from_string s = Raise e.
Proof.
  intros H. unfold _BaseV4._ip_int_from_string.
  destruct s as [|c r] eqn:E; [discriminate|]. rewrite <- E in *.
  destruct (negb _); [eexists; reflexivity|].
  destruct (mapM_raises _BaseV4._parse_octet (Py.split "." s)) as [e M].
  { eapply Exists_impl; [|apply (split_keeps "/" "." s eq_refl H)].
    intros piece. apply parse_octet_slash. }
  rewrite M. cbn [bind try_except].
  destruct (existsb _ _); eexists; reflexivity.
Qed.

(** X16.  For every accepted IPv4 input the [reverse] field is made of
    the labels of the address with its prefix length, reversed: the first
    label is the last octet, a slash and the prefix length.  It is
    therefore never the reverse-pointer name of an address: read back, the
    name gives no address. *)
Theorem X16_reverse_field address prefix a p netmask :
  IPv4Address.of_str address = Return (IPv4Address.Build a) ->
  IPv4Network._make_netmask (MaskStr prefix) = Return (netmask, p) ->
  Py.contains "/" prefix = false ->
  exists info reverse,
    analyse address prefix = Return ("IPv4 Address Information", info)
    /\ get "reverse" info = Some (VStr reverse)
    /\ reverse
       = (Py.str_int (a mod 256) ++ "/" ++ Py.str_int p) ++ "."
         ++ Py.str_int (a / 256 mod 256) ++ "."
         ++ Py.str_int (a / 256 / 256 mod 256) ++ "."
         ++ Py.str_int (a / 256 / 256 / 256 mod 256)
         ++ ".in-addr.arpa"
    /\ address_of_reverse_pointer reverse = None.
Proof.
  intros Ha Hp Hs.
  destruct (accepted_ranges _ _ _ _ _ Ha Hp) as [Ra Rp].
  eexists. eexists.
  split; [eapply accepted_analyse; eassumption|].
  split; [apply reverse_field_shape, Rp|].
  split; [reflexivity|].
  unfold address_of_reverse_pointer.
  destruct (octet_facts _ (octet_range (a / 256 / 256 / 256))) as (_ & D3 & _).
  destruct (octet_facts _ (octet_range (a / 256 / 256))) as (_ & D2 & _).
  destruct (octet_facts _ (octet_range (a / 256))) as (_ & D1 & _).
  destruct (octet_facts _ (octet_range a)) as (_ & D0 & _).
  assert (D : Py.contains "." (Py.str_int (a mod 256) ++ "/" ++ Py.str_int p)
              = false).
  { rewrite contains_app, D0. cbn [Py.contains Ascii.eqb Bool.eqb orb].
    apply prefix_decimal_no_dot, Rp. }
  cbn [append] in D |- *.
  rewrite (split_app _ _ _ D), (split_app _ _ _ D1), (split_app _ _ _ D2),
    (split_app _ _ _ D3).
  change (Py.split "." "in-addr.arpa") with ["in-addr"; "arpa"].
  cbn [String.eqb Ascii.eqb Bool.eqb andb].
  match goal with
  | |- context [_BaseV4._ip_int_from_string ?s] =>
      destruct (ip_int_from_string_slash s) as [e E]
  end.
  { cbn [Py.join String.concat]. rewrite !contains_app.
    cbn [Py.contains Ascii.eqb Bool.eqb orb]. now rewrite !orb_true_r. }
  rewrite E. reflexivity.
Qed.

Lemma X16_witness :
  IPv4Address.of_str "192.168.1.1" = Return (IPv4Address.Build 3232235777)
  /\ IPv4Network._make_netmask (MaskStr "255.255.255.0")
     = Return (IPv4Address.Build 4294967040, 24)
  /\ Py.contains "/" "255.255.255.0" = false
  /\ exists info reverse,
       analyse "192.168.1.1" "255.255.255.0"
       = Return ("IPv4 Address Information", info)
       /\ get "reverse" info = Some (VStr reverse)
       /\ reverse
          = (Py.str_int (3232235777 mod 256) ++ "/" ++ Py.str_int 24) ++ "."
            ++ Py.str_int (3232235777 / 256 mod 256) ++ "."
            ++ Py.str_int (3232235777 / 256 / 256 mod 256) ++ "."
            ++ Py.str_int (3232235777 / 256 / 256 / 256 mod 256)
            ++ ".in-addr.arpa"
       /\ address_of_reverse_pointer reverse = None.
Proof.
  split; [vm_compute; reflexivity|].
  split; [vm_compute; reflexivity|].
  split; [reflexivity|].
  apply (X16_reverse_field "192.168.1.1" "255.255.255.0" 3232235777 24
           (IPv4Address.Build 4294967040));
    vm_compute; reflexivity.
Defined.
